(** * The plugin pipeline installer and its pre-push auto-fix loop

    A shallow embedding of [scripts/setup_plugin_pipeline.py]: the
    validator/fixer ([PipelineSetup], its status model and its command
    line) over a small file-system model, and the pre-push hook that the
    installer writes (the [PRE_PUSH_HOOK] template: language detection,
    the per-language linters and the bounded auto-fix loop) over an
    abstract operating system.  The hook is there twice: as the text the
    installer writes, with what the interpreter does with that text, and
    as the functions the text is written to define. *)

From Stdlib Require Import ZArith Ascii String List Bool Lia DecimalString.
From stdpp Require Import gmap strings list.

Local Open Scope string_scope.
Local Open Scope list_scope.
Local Open Scope Z_scope.
Import ListNotations.

(** ** Python strings

    A [str] is modelled by the bytes of its UTF-8 encoding; the
    operations below are the ones the script uses. *)

Module Str.

Definition quote : ascii := "034"%char.

(** [s.startswith(p)] *)
Definition startswith (s p : string) : bool := String.prefix p s.

(** [sub in s] *)
Fixpoint contains (sub s : string) : bool :=
  String.prefix sub s ||
  match s with
  | EmptyString => false
  | String _ s' => contains sub s'
  end.

(** [s.endswith(p)] *)
Definition endswith (s p : string) : bool :=
  let n := String.length s in
  let k := String.length p in
  (k <=? n)%nat && String.eqb (String.substring (n - k) k s) p.

(** [s[n:]] *)
Fixpoint drop (n : nat) (s : string) : string :=
  match n, s with
  | O, _ => s
  | S _, EmptyString => EmptyString
  | S k, String _ s' => drop k s'
  end.

Fixpoint lstrip_by (p : ascii -> bool) (s : string) : string :=
  match s with
  | EmptyString => EmptyString
  | String c s' => if p c then lstrip_by p s' else s
  end.

Definition rev (s : string) : string :=
  string_of_list_ascii (List.rev (list_ascii_of_string s)).

Definition strip_by (p : ascii -> bool) (s : string) : string :=
  rev (lstrip_by p (rev (lstrip_by p s))).

(** The white space that [str.strip()] removes: the code points for
    which [str.isspace()] holds.  Below 128 these are 9 to 13 and 28 to
    32; the others are U+0085, U+00A0, U+1680, U+2000 to U+200A, U+2028,
    U+2029, U+202F, U+205F and U+3000, which take two or three bytes: *)
Definition is_space (c : ascii) : bool :=
  let n := nat_of_ascii c in
  ((9 <=? n) && (n <=? 13) || (28 <=? n) && (n <=? 32))%nat.

Definition is_space2 (a b : ascii) : bool :=
  let a := nat_of_ascii a in
  let b := nat_of_ascii b in
  ((a =? 194) && ((b =? 133) || (b =? 160)))%nat.

Definition is_space3 (a b c : ascii) : bool :=
  let a := nat_of_ascii a in
  let b := nat_of_ascii b in
  let c := nat_of_ascii c in
  ((a =? 225) && (b =? 154) && (c =? 128)
   || (a =? 226) && (b =? 128)
      && ((128 <=? c) && (c <=? 138) || (c =? 168) || (c =? 169) || (c =? 175))
   || (a =? 226) && (b =? 129) && (c =? 159)
   || (a =? 227) && (b =? 128) && (c =? 128))%nat.

(** [s.lstrip()]; with [backwards], the same on a text whose bytes
    are in reverse order. *)
Fixpoint lstrip_space (backwards : bool) (s : string) : string :=
  match s with
  | EmptyString => EmptyString
  | String a s1 =>
      if is_space a then lstrip_space backwards s1
      else
        match s1 with
        | EmptyString => s
        | String b s2 =>
            if (if backwards then is_space2 b a else is_space2 a b)
            then lstrip_space backwards s2
            else
              match s2 with
              | EmptyString => s
              | String c s3 =>
                  if (if backwards then is_space3 c b a else is_space3 a b c)
                  then lstrip_space backwards s3
                  else s
              end
        end
  end.

(** [s.strip()] *)
Definition strip (s : string) : string :=
  rev (lstrip_space true (rev (lstrip_space false s))).

(** [s.strip(c)] for a one-character argument *)
Definition strip_char (c : ascii) (s : string) : string :=
  strip_by (Ascii.eqb c) s.

(** [s.lstrip("./")]: the argument is a set of characters *)
Definition lstrip_dot_slash (s : string) : string :=
  lstrip_by (fun c => Ascii.eqb c "." || Ascii.eqb c "/")%char s.

(** [s.lower()], which the script applies before it looks for words
    written in ASCII letters *)
Definition lower_char (c : ascii) : ascii :=
  let n := nat_of_ascii c in
  if ((65 <=? n) && (n <=? 90))%nat then ascii_of_nat (n + 32) else c.

Fixpoint lower (s : string) : string :=
  match s with
  | EmptyString => EmptyString
  | String c s' => String (lower_char c) (lower s')
  end.

(** [s.replace(old, new)] for a non-empty [old]: occurrences are
    replaced from the left and do not overlap; [skip] counts the
    characters of a matched occurrence still to be passed over. *)
Fixpoint replace_from (old new : string) (skip : nat) (s : string) : string :=
  match s with
  | EmptyString => EmptyString
  | String c s' =>
      match skip with
      | S k => replace_from old new k s'
      | O =>
          if String.prefix old s
          then new ++ replace_from old new (String.length old - 1) s'
          else String c (replace_from old new O s')
      end
  end.

Definition replace (old new s : string) : string := replace_from old new O s.

(** [s.split(sep)] for a one-character separator *)
Fixpoint split (sep : ascii) (s : string) : list string :=
  match s with
  | EmptyString => [EmptyString]
  | String c s' =>
      if Ascii.eqb c sep then EmptyString :: split sep s'
      else match split sep s' with
           | [] => [String c EmptyString]
           | w :: ws => String c w :: ws
           end
  end.

(** [sep.join(l)] *)
Fixpoint join (sep : string) (l : list string) : string :=
  match l with
  | [] => EmptyString
  | [x] => x
  | x :: rest => x ++ sep ++ join sep rest
  end.

End Str.

(** ** Paths

    A path is the tuple [pathlib] calls [parts]: the root ["/"] first when
    the path is absolute, then the components. *)

Module Path.

Abbreviation t := (list string).

Definition is_absolute (p : t) : bool :=
  match p with
  | r :: _ => String.eqb r "/"
  | [] => false
  end.

(** [Path(s)]: empty components and ["."] are dropped. *)
Definition of_string (s : string) : t :=
  (if Str.startswith s "/" then ["/"] else []) ++
  List.filter (fun c => negb (String.eqb c "" || String.eqb c "."))
              (Str.split "/" s).

(** [p / q] *)
Definition join (p q : t) : t := if is_absolute q then q else p ++ q.

(** [p / name] for a single component *)
Definition child (p : t) (name : string) : t := p ++ [name].

(** [p.parent] *)
Definition parent (p : t) : t :=
  match p with
  | [r] => [r]
  | _ => removelast p
  end.

(** [p.name] *)
Definition name (p : t) : string :=
  match p with
  | [r] => if String.eqb r "/" then "" else r
  | _ => List.last p ""
  end.

(** [str(p)] *)
Definition str (p : t) : string :=
  match p with
  | [] => "."
  | r :: rest => if String.eqb r "/" then "/" ++ Str.join "/" rest
                 else Str.join "/" p
  end.

(** [p.resolve()] on an absolute path of a tree without symbolic
    links: [".."] components are folded away, and [".."] at the root
    stays at the root.  [acc] is the resolved prefix, reversed. *)
Fixpoint resolve_from (acc : list string) (p : list string) : list string :=
  match p with
  | [] => List.rev acc
  | c :: rest =>
      if String.eqb c ".."
      then resolve_from (match acc with
                         | [] => []
                         | [r] => if String.eqb r "/" then [r] else []
                         | _ :: up => up
                         end) rest
      else resolve_from (c :: acc) rest
  end.

Definition resolve (p : t) : t := resolve_from [] p.

End Path.

(** ** Effects

    Code that mutates state and may raise is a function from the state to
    an outcome and the state the run leaves behind; a raised exception
    keeps the effects performed before it. *)

Module Eff.

Definition M (S E A : Type) : Type := S -> (E + A) * S.

Definition ret {S E A} (a : A) : M S E A := fun s => (inr a, s).

Definition raise {S E A} (e : E) : M S E A := fun s => (inl e, s).

Definition bind {S E A B} (m : M S E A) (k : A -> M S E B) : M S E B :=
  fun s => match m s with
           | (inr a, s') => k a s'
           | (inl e, s') => (inl e, s')
           end.

(** [try: m  except <handled>: h]; [h] returns [None] for an exception
    the [except] clauses do not name, which then propagates. *)
Definition try_except {S E A} (m : M S E A) (h : E -> option (M S E A)) : M S E A :=
  fun s => match m s with
           | (inr a, s') => (inr a, s')
           | (inl e, s') => match h e with
                            | Some k => k s'
                            | None => (inl e, s')
                            end
           end.

Definition gets {S E A} (f : S -> A) : M S E A := fun s => (inr (f s), s).
Definition modify {S E} (f : S -> S) : M S E unit := fun s => (inr tt, f s).

End Eff.

Notation "'let*' x ':=' m 'in' k" := (Eff.bind m (fun x => k))
  (at level 10, x name, m at level 100, k at level 200).
Notation "'let*' ' pat ':=' m 'in' k" :=
  (Eff.bind m (fun x => match x with pat => k end))
  (at level 10, pat pattern, m at level 100, k at level 200).
Notation "'do*' m 'in' k" := (Eff.bind m (fun _ => k))
  (at level 10, m at level 100, k at level 200).

(** ** The validator and fixer: data model *)

Module Pipeline.

Inductive ProjectType := MARKETPLACE | PLUGIN | PLUGIN_IN_MARKETPLACE | UNKNOWN.

Inductive IssueLevel := CRITICAL | MAJOR | MINOR | INFO.

Definition ProjectType_eqb (a b : ProjectType) : bool :=
  match a, b with
  | MARKETPLACE, MARKETPLACE | PLUGIN, PLUGIN
  | PLUGIN_IN_MARKETPLACE, PLUGIN_IN_MARKETPLACE | UNKNOWN, UNKNOWN => true
  | _, _ => false
  end.

Definition IssueLevel_eqb (a b : IssueLevel) : bool :=
  match a, b with
  | CRITICAL, CRITICAL | MAJOR, MAJOR | MINOR, MINOR | INFO, INFO => true
  | _, _ => false
  end.

Record PipelineIssue := {
  level : IssueLevel;
  component : string;
  message : string;
  fix_available : bool;
  fix_description : string
}.

Record PipelineStatus := {
  project_type : ProjectType;
  status_path : list string;
  issues : list PipelineIssue;
  hooks_installed : gmap string bool;
  config_files : gmap string bool;
  submodules : list string
}.

(** [PipelineStatus(project_type=ProjectType.UNKNOWN, project_path=p)] *)
Definition new_status (p : list string) : PipelineStatus :=
  {| project_type := UNKNOWN; status_path := p; issues := [];
     hooks_installed := ∅; config_files := ∅; submodules := [] |}.

(** [issue.level in (IssueLevel.CRITICAL, IssueLevel.MAJOR)] *)
Definition blocking (i : PipelineIssue) : bool :=
  IssueLevel_eqb (level i) CRITICAL || IssueLevel_eqb (level i) MAJOR.

Definition is_valid (st : PipelineStatus) : bool :=
  negb (existsb blocking (issues st)).

Definition count_level (l : IssueLevel) (st : PipelineStatus) : nat :=
  List.length (List.filter (fun i => IssueLevel_eqb (level i) l) (issues st)).

Definition critical_count := count_level CRITICAL.
Definition major_count := count_level MAJOR.
Definition minor_count := count_level MINOR.

Definition set_project_type (t : ProjectType) (st : PipelineStatus) : PipelineStatus :=
  {| project_type := t; status_path := status_path st; issues := issues st;
     hooks_installed := hooks_installed st; config_files := config_files st;
     submodules := submodules st |}.

(** [self.status.issues.append(i)] *)
Definition add_issue (i : PipelineIssue) (st : PipelineStatus) : PipelineStatus :=
  {| project_type := project_type st; status_path := status_path st;
     issues := issues st ++ [i];
     hooks_installed := hooks_installed st; config_files := config_files st;
     submodules := submodules st |}.

(** [self.status.hooks_installed[k] = v] *)
Definition set_hook (k : string) (v : bool) (st : PipelineStatus) : PipelineStatus :=
  {| project_type := project_type st; status_path := status_path st;
     issues := issues st;
     hooks_installed := <[k := v]> (hooks_installed st);
     config_files := config_files st; submodules := submodules st |}.

(** [self.status.config_files[k] = v] *)
Definition set_config (k : string) (v : bool) (st : PipelineStatus) : PipelineStatus :=
  {| project_type := project_type st; status_path := status_path st;
     issues := issues st; hooks_installed := hooks_installed st;
     config_files := <[k := v]> (config_files st); submodules := submodules st |}.

(** [self.status.submodules.append(p)] *)
Definition add_submodule (p : string) (st : PipelineStatus) : PipelineStatus :=
  {| project_type := project_type st; status_path := status_path st;
     issues := issues st; hooks_installed := hooks_installed st;
     config_files := config_files st; submodules := submodules st ++ [p] |}.

(** *** The file system

    A tree is a finite map from absolute paths to nodes.  A file carries
    its bytes and the access the process has to it; [r_ok] also stands
    for the bytes being valid UTF-8 where the script treats a file it
    cannot open and one it cannot decode alike (every read but that of
    [.gitmodules]).  There are no symbolic links, and the queries
    [exists_] and [is_file] are those of a tree all of whose directories
    the process may search: see the section on where [pathlib] raises. *)

Record perms := { r_ok : bool; w_ok : bool; x_ok : bool }.

Inductive node :=
| Dir (p : perms) (size : nat)
| File (p : perms) (data : string).

Definition node_perms (n : node) : perms :=
  match n with Dir p _ | File p _ => p end.

Definition rw_ : perms := {| r_ok := true; w_ok := true; x_ok := false |}.
Definition rwx : perms := {| r_ok := true; w_ok := true; x_ok := true |}.

Definition exists_ (fs : gmap (list string) node) (p : list string) : bool :=
  bool_decide (is_Some (fs !! p)).

Definition is_file (fs : gmap (list string) node) (p : list string) : bool :=
  match fs !! p with Some (File _ _) => true | _ => false end.

(** [os.access(p, os.X_OK)] *)
Definition access_x (fs : gmap (list string) node) (p : list string) : bool :=
  match fs !! p with Some n => x_ok (node_perms n) | None => false end.

(** [p.stat().st_size] of an existing node *)
Definition st_size (fs : gmap (list string) node) (p : list string) : nat :=
  match fs !! p with
  | Some (File _ d) => String.length d
  | Some (Dir _ n) => n
  | None => O
  end.

(** [p.read_text(encoding="utf-8")]; [None] is [OSError] or
    [UnicodeDecodeError]. *)
Definition read_text (fs : gmap (list string) node) (p : list string) : option string :=
  match fs !! p with
  | Some (File pm d) => if r_ok pm then Some d else None
  | _ => None
  end.

(** May the process create or remove an entry of the directory of [p]? *)
Definition dir_writable (fs : gmap (list string) node) (p : list string) : bool :=
  match fs !! Path.parent p with
  | Some (Dir pm _) => w_ok pm
  | _ => false
  end.

(** [p.write_text(s)] and, with [append], [open(p, "a").write(s)];
    [None] is [OSError]. *)
Definition write_file (append : bool) (p : list string) (s : string)
    (fs : gmap (list string) node) : option (gmap (list string) node) :=
  match fs !! p with
  | Some (File pm d) =>
      if w_ok pm then Some (<[p := File pm (if append then d ++ s else s)]> fs)
      else None
  | Some (Dir _ _) => None
  | None => if dir_writable fs p then Some (<[p := File rw_ s]> fs) else None
  end.

(** [p.chmod(p.stat().st_mode | S_IXUSR | S_IXGRP | S_IXOTH)] *)
Definition chmod_x (p : list string) (fs : gmap (list string) node)
    : option (gmap (list string) node) :=
  match fs !! p with
  | Some (File pm d) =>
      Some (<[p := File {| r_ok := r_ok pm; w_ok := w_ok pm; x_ok := true |} d]> fs)
  | Some (Dir pm n) =>
      Some (<[p := Dir {| r_ok := r_ok pm; w_ok := w_ok pm; x_ok := true |} n]> fs)
  | None => None
  end.

(** [p.unlink()] *)
Definition unlink (p : list string) (fs : gmap (list string) node)
    : option (gmap (list string) node) :=
  match fs !! p with
  | Some (File _ _) => if dir_writable fs p then Some (delete p fs) else None
  | _ => None
  end.

(** [p.mkdir(parents=True, exist_ok=True)]: [todo] are the components
    still to be descended into below the directory [at_]. *)
Fixpoint mkdir_from (at_ : list string) (todo : list string)
    (fs : gmap (list string) node) : option (gmap (list string) node) :=
  match todo with
  | [] => Some fs
  | c :: rest =>
      let q := at_ ++ [c] in
      match fs !! q with
      | Some (Dir _ _) => mkdir_from q rest fs
      | Some (File _ _) => None
      | None =>
          if match at_ with
             | [] => true
             | _ => match fs !! at_ with
                    | Some (Dir pm _) => w_ok pm
                    | _ => false
                    end
             end
          then mkdir_from q rest (<[q := Dir rwx O]> fs)
          else None
      end
  end.

Definition mkdir_parents (p : list string) (fs : gmap (list string) node)
    : option (gmap (list string) node) := mkdir_from [] p fs.

(** [d.glob("*" + suffix)]: the entries of [d] whose name ends in
    [suffix], in the order the map lists them. *)
Definition glob_suffix (fs : gmap (list string) node) (d : list string)
    (suffix : string) : list (list string) :=
  List.filter
    (fun p => bool_decide (Path.parent p = d) && negb (bool_decide (p = d))
              && Str.endswith (Path.name p) suffix)
    (List.map fst (map_to_list fs)).

(** *** [PipelineSetup]: validation *)

Record PipelineSetup := {
  project_path : list string;   (* already resolved by [__init__] *)
  dry_run : bool;
  verbose : bool
}.

Definition mk_issue (l : IssueLevel) (c m : string) (fx : bool) (d : string)
    : PipelineIssue :=
  {| level := l; component := c; message := m;
     fix_available := fx; fix_description := d |}.

Section Validation.

(** [configparser.ConfigParser().read] applied to the text of
    [.gitmodules]: the section names, each with the value of its
    [path] option if it has one; [None] is [configparser.Error]. *)
Variable configparser_sections : string -> option (list (string * option string)).

Variable self : PipelineSetup.
Variable fs : gmap (list string) node.

Definition _detect_submodules (st : PipelineStatus) : PipelineStatus :=
  let gitmodules := Path.child (project_path self) ".gitmodules" in
  if negb (exists_ fs gitmodules) then st
  else
    match (match read_text fs gitmodules with
           | Some text => configparser_sections text
           | None => Some []     (* [read] skips a file it cannot open;
                                    one it cannot decode is left out
                                    of the model *)
           end) with
    | None => st
    | Some sections =>
        fold_left
          (fun st (sec : string * option string) =>
             let (section, path_option) := sec in
             if Str.startswith section "submodule " then
               let name := Str.strip_char Str.quote
                             (Str.replace "submodule " "" section) in
               let path := match path_option with
                           | Some v => v
                           | None => name
                           end in
               if exists_ fs (Path.join (project_path self) (Path.of_string path))
               then add_submodule path st
               else st
             else st)
          sections st
    end.

Definition detect_project_type (st : PipelineStatus) : PipelineStatus :=
  let marketplace_json :=
    project_path self ++ [".claude-plugin"; "marketplace.json"] in
  let plugin_json := project_path self ++ [".claude-plugin"; "plugin.json"] in
  let git_file := Path.child (project_path self) ".git" in
  let is_submodule := is_file fs git_file in
  if exists_ fs marketplace_json then
    _detect_submodules (set_project_type MARKETPLACE st)
  else if exists_ fs plugin_json then
    if is_submodule then set_project_type PLUGIN_IN_MARKETPLACE st
    else set_project_type PLUGIN st
  else set_project_type UNKNOWN st.

Definition _get_hooks_dir : list string :=
  let git_path := Path.child (project_path self) ".git" in
  if is_file fs git_path then
    match read_text fs git_path with
    | Some text =>
        let content := Str.strip text in
        if Str.startswith content "gitdir: " then
          let git_dir := Path.of_string (Str.drop 8 content) in
          let git_dir := if negb (Path.is_absolute git_dir)
                         then Path.join (project_path self) git_dir
                         else git_dir in
          Path.child (Path.resolve git_dir) "hooks"
        else Path.child git_path "hooks"
    | None => Path.child git_path "hooks"
    end
  else Path.child git_path "hooks".

Definition required_hooks : list (string * string) :=
  [ ("pre-commit", "Lint and validate before commit");
    ("pre-push", "Full validation before push");
    ("post-rewrite", "Changelog after rebase/amend");
    ("post-merge", "Changelog after merge") ].

Definition _validate_hook (hooks_dir : list string) (st : PipelineStatus)
    (hook : string * string) : PipelineStatus :=
  let (hook_name, description) := hook in
  let hook_path := Path.child hooks_dir hook_name in
  let st := set_hook hook_name (exists_ fs hook_path) st in
  if negb (exists_ fs hook_path) then
    add_issue (mk_issue MAJOR "hooks"
                 ("Missing " ++ hook_name ++ " hook (" ++ description ++ ")")
                 true ("Install " ++ hook_name ++ " hook")) st
  else if negb (access_x fs hook_path) then
    add_issue (mk_issue MAJOR "hooks"
                 (hook_name ++ " hook is not executable")
                 true ("Make " ++ hook_name ++ " hook executable")) st
  else st.

Definition _validate_hooks (st : PipelineStatus) : PipelineStatus :=
  let hooks_dir := _get_hooks_dir in
  let post_commit := Path.child hooks_dir "post-commit" in
  let st :=
    if exists_ fs post_commit then
      add_issue (mk_issue MAJOR "hooks"
                   "post-commit hook exists (causes rebase conflicts)"
                   true "Remove post-commit hook, use post-rewrite instead") st
    else st in
  fold_left (_validate_hook hooks_dir) required_hooks st.

Definition config_files_table : list (string * (string * IssueLevel)) :=
  [ ("cliff.toml", ("Changelog generation config", MINOR));
    (".gitignore", ("Git ignore patterns", MINOR)) ].

(** The loop over [workflow_dir.glob("*.yml")], which stops at the
    first file whose text mentions validation and passes over a file
    it cannot read. *)
Definition mentions_validation (wf : list string) : bool :=
  match read_text fs wf with
  | Some content =>
      Str.contains "validate" (Str.lower content)
      || Str.contains "plugin" (Str.lower content)
  | None => false
  end.

Definition _validate_config_files (st : PipelineStatus) : PipelineStatus :=
  let st :=
    fold_left
      (fun st (entry : string * (string * IssueLevel)) =>
         let '(filename, (description, level)) := entry in
         let file_path := Path.child (project_path self) filename in
         let st := set_config filename (exists_ fs file_path) st in
         if negb (exists_ fs file_path) then
           add_issue (mk_issue level "config"
                        ("Missing " ++ filename ++ " (" ++ description ++ ")")
                        true ("Create " ++ filename)) st
         else st)
      config_files_table st in
  let workflow_dir := project_path self ++ [".github"; "workflows"] in
  let has_validation_workflow :=
    if exists_ fs workflow_dir
    then existsb mentions_validation (glob_suffix fs workflow_dir ".yml")
    else false in
  let st := set_config "github_workflow" has_validation_workflow st in
  if negb has_validation_workflow then
    add_issue (mk_issue MINOR "ci"
                 "No GitHub Actions validation workflow found"
                 true "Create .github/workflows/validate.yml") st
  else st.

Definition submodule_hooks_dir (submodule : string) : list string :=
  Path.child
    (Path.join (project_path self ++ [".git"; "modules"]) (Path.of_string submodule))
    "hooks".

Definition _validate_submodule (st : PipelineStatus) (submodule : string)
    : PipelineStatus :=
  let hooks_dir := submodule_hooks_dir submodule in
  if negb (exists_ fs hooks_dir) then
    add_issue (mk_issue MINOR "submodules"
                 ("Submodule " ++ submodule ++ " hooks directory not found")
                 false "") st
  else
    let st :=
      if exists_ fs (Path.child hooks_dir "post-commit") then
        add_issue (mk_issue MAJOR "submodules"
                     ("Submodule " ++ submodule
                      ++ " has post-commit hook (causes rebase conflicts)")
                     true ("Remove post-commit, install post-rewrite for "
                           ++ submodule)) st
      else st in
    fold_left
      (fun st (hook : string) =>
         if negb (exists_ fs (Path.child hooks_dir hook)) then
           add_issue (mk_issue MINOR "submodules"
                        ("Submodule " ++ submodule ++ " missing " ++ hook ++ " hook")
                        true ("Install " ++ hook ++ " hook for " ++ submodule)) st
         else st)
      ["post-rewrite"; "post-merge"] st.

Definition _validate_submodule_hooks (st : PipelineStatus) : PipelineStatus :=
  fold_left _validate_submodule (submodules st) st.

(** [validate] works on [self.status], the object [__init__] created
    (or the caller has since assigned), and returns that same object. *)
Definition validate (st : PipelineStatus) : PipelineStatus :=
  let st := detect_project_type st in
  if ProjectType_eqb (project_type st) UNKNOWN then
    add_issue (mk_issue CRITICAL "project"
                 "Not a valid plugin or marketplace (missing .claude-plugin/plugin.json or marketplace.json)"
                 false "") st
  else
    let st :=
      if negb (exists_ fs (Path.child (project_path self) ".git")) then
        add_issue (mk_issue CRITICAL "git" "Not a git repository"
                     true "Initialize git repository") st
      else st in
    let st := _validate_hooks st in
    let st := _validate_config_files st in
    if ProjectType_eqb (project_type st) MARKETPLACE
    then _validate_submodule_hooks st
    else st.

(** [_hook_is_valid] *)
Definition _hook_is_valid (hook_path : list string) : bool :=
  if negb (exists_ fs hook_path) then false
  else if negb (access_x fs hook_path) then false
  else if (st_size fs hook_path <? 100)%nat then false
  else true.

End Validation.

(** *** Where [pathlib] raises

    The functions above describe the script on the trees on which none
    of their [pathlib] calls raises.  In [_get_hooks_dir] two calls can.
    [Path.is_file] asks the system for the entry and passes on every
    [OSError] but that of a missing entry, so below a directory the
    process may not search it raises [PermissionError]; the call stands
    before the [try].  [Path.resolve] raises [ValueError] on a path that
    holds the character NUL, and the [except] clause of the function
    names [OSError] and [UnicodeDecodeError] only.  (A loop of symbolic
    links, which the trees here do not have, makes [resolve] raise
    [RuntimeError] in the same way.) *)

Inductive raised := PermissionError | ValueError.

Definition has_nul (p : list string) : bool :=
  existsb (Str.contains (String "000"%char EmptyString)) p.

(** Does looking up [at_ / todo] end at a directory that the process
    may not search?  The walk stops without that at an entry that is
    missing or is no directory; the last component is not entered. *)
Fixpoint denied_from (fs : gmap (list string) node) (at_ todo : list string) : bool :=
  match todo with
  | [] => false
  | [_] => false
  | c :: rest =>
      match fs !! (at_ ++ [c]) with
      | Some (Dir pm _) => if x_ok pm then denied_from fs (at_ ++ [c]) rest else true
      | _ => false
      end
  end.

Definition stat_denied (fs : gmap (list string) node) (p : list string) : bool :=
  denied_from fs [] p.

Module Raising.

(** [_get_hooks_dir] with the exceptions it lets through. *)
Definition _get_hooks_dir (self : PipelineSetup) (fs : gmap (list string) node)
    : raised + list string :=
  let git_path := Path.child (project_path self) ".git" in
  if stat_denied fs git_path then inl PermissionError
  else if is_file fs git_path then
    match read_text fs git_path with
    | Some text =>
        let content := Str.strip text in
        if Str.startswith content "gitdir: " then
          let git_dir := Path.of_string (Str.drop 8 content) in
          let git_dir := if negb (Path.is_absolute git_dir)
                         then Path.join (project_path self) git_dir
                         else git_dir in
          if has_nul git_dir then inl ValueError
          else inr (Path.child (Path.resolve git_dir) "hooks")
        else inr (Path.child git_path "hooks")
    | None => inr (Path.child git_path "hooks")
    end
  else inr (Path.child git_path "hooks").

End Raising.

(** *** [PipelineSetup]: fixing

    [fix] changes the tree and may append to [self.status.issues]; a
    write outside a [try] block raises [OSError] to the caller.  The
    tests [exists()], most of which stand outside the [try] blocks, are
    those of the validation section: on a tree with a directory that may
    not be searched they raise as well. *)

Inductive exn := OSError.

Record state := {
  tree : gmap (list string) node;
  status : PipelineStatus      (* [self.status] *)
}.

Definition M (A : Type) : Type := Eff.M state exn A.

(** A file-system operation run on the tree. *)
Definition io (op : gmap (list string) node -> option (gmap (list string) node))
    : M unit :=
  fun s => match op (tree s) with
           | Some t => (inr tt, {| tree := t; status := status s |})
           | None => (inl OSError, s)
           end.

Definition on_tree {A} (f : gmap (list string) node -> A) : M A :=
  Eff.gets (fun s => f (tree s)).

Definition on_status (f : PipelineStatus -> PipelineStatus) : M unit :=
  Eff.modify (fun s => {| tree := tree s; status := f (status s) |}).

(** The texts the installer writes.  Only [GITIGNORE_ADDITIONS] is
    looked into by the code; the others are opaque to it. *)
Record Templates := {
  PRE_COMMIT_HOOK : string;
  PRE_PUSH_HOOK : string;
  POST_REWRITE_HOOK : string;
  POST_MERGE_HOOK : string;
  CLIFF_TOML : string;
  GITHUB_WORKFLOW : string
}.

Definition GITIGNORE_ADDITIONS : string := "
# Python
__pycache__/
*.py[cod]
*$py.class
*.so
.Python
.venv/
venv/
ENV/

# IDE
.idea/
.vscode/
*.swp
*.swo

# OS
.DS_Store
Thumbs.db

# Build artifacts
dist/
build/
*.egg-info/

# Logs
*.log
logs/

# Dev folders
docs_dev/
scripts_dev/
tests_dev/
".

Definition newline : string := String "010"%char EmptyString.

Section Fixing.

Variable tpl : Templates.
Variable self : PipelineSetup.

Definition unless_dry_run (m : M unit) : M unit :=
  if dry_run self then Eff.ret tt else m.

Definition _fix_hook (hooks_dir : list string) (fixed : nat)
    (hook : string * string) : M nat :=
  let (name, content) := hook in
  let hook_path := Path.child hooks_dir name in
  let* stale := on_tree (fun t => negb (exists_ t hook_path)
                                   || negb (_hook_is_valid t hook_path)) in
  if stale then
    if dry_run self then Eff.ret fixed
    else
      Eff.try_except
        (do* io (write_file false hook_path content) in
         do* io (chmod_x hook_path) in
         Eff.ret (S fixed))
        (fun e => match e with
                  | OSError =>
                      Some (do* on_status
                                  (add_issue
                                     (mk_issue CRITICAL "hooks"
                                        (* ... hook: {e}; the text of [e] is
                                           not modelled *)
                                        ("Permission denied installing " ++ name
                                         ++ " hook: OSError")
                                        false "")) in
                            Eff.ret fixed)
                  end)
  else Eff.ret fixed.

Fixpoint fold_fixes {A} (f : nat -> A -> M nat) (l : list A) (fixed : nat) : M nat :=
  match l with
  | [] => Eff.ret fixed
  | x :: rest => let* fixed := f fixed x in fold_fixes f rest fixed
  end.

Definition _fix_hooks : M nat :=
  let* hooks_dir := on_tree (_get_hooks_dir self) in
  do* io (mkdir_parents hooks_dir) in
  let post_commit := Path.child hooks_dir "post-commit" in
  let* present := on_tree (fun t => exists_ t post_commit) in
  let* fixed :=
    (if present then
       do* unless_dry_run (io (unlink post_commit)) in Eff.ret 1%nat
     else Eff.ret 0%nat) in
  fold_fixes (_fix_hook hooks_dir)
    [ ("pre-commit", PRE_COMMIT_HOOK tpl);
      ("pre-push", PRE_PUSH_HOOK tpl);
      ("post-rewrite", POST_REWRITE_HOOK tpl);
      ("post-merge", POST_MERGE_HOOK tpl) ]
    fixed.

(** [not all(marker in content for marker in [...])] *)
Definition needs_update (content : string) : bool :=
  negb (forallb (fun marker => Str.contains marker content)
          ["__pycache__"; ".mypy_cache"; "docs_dev/"]).

Definition _fix_config_files : M nat :=
  let fixed := 0%nat in
  let cliff_toml := Path.child (project_path self) "cliff.toml" in
  let* present := on_tree (fun t => exists_ t cliff_toml) in
  let* fixed :=
    (if negb present then
       do* unless_dry_run (io (write_file false cliff_toml (CLIFF_TOML tpl))) in
       Eff.ret (S fixed)
     else Eff.ret fixed) in
  let gitignore := Path.child (project_path self) ".gitignore" in
  let* present := on_tree (fun t => exists_ t gitignore) in
  let* fixed :=
    (if negb present then
       do* unless_dry_run (io (write_file false gitignore GITIGNORE_ADDITIONS)) in
       Eff.ret (S fixed)
     else
       Eff.try_except
         (let* text := on_tree (fun t => read_text t gitignore) in
          match text with
          | None => Eff.raise OSError
          | Some content =>
              if needs_update content then
                do* unless_dry_run
                      (io (write_file true gitignore
                             (newline ++ GITIGNORE_ADDITIONS))) in
                Eff.ret (S fixed)
              else Eff.ret fixed
          end)
         (fun e => match e with OSError => Some (Eff.ret fixed) end)) in
  let workflow_dir := project_path self ++ [".github"; "workflows"] in
  let workflow_file := Path.child workflow_dir "validate.yml" in
  let* present := on_tree (fun t => exists_ t workflow_file) in
  if negb present then
    do* unless_dry_run
          (do* io (mkdir_parents workflow_dir) in
           io (write_file false workflow_file (GITHUB_WORKFLOW tpl))) in
    Eff.ret (S fixed)
  else Eff.ret fixed.

Definition _fix_submodule (fixed : nat) (submodule : string) : M nat :=
  let hooks_dir := submodule_hooks_dir self submodule in
  let* present := on_tree (fun t => exists_ t hooks_dir) in
  if negb present then Eff.ret fixed
  else
    let post_commit := Path.child hooks_dir "post-commit" in
    let* present := on_tree (fun t => exists_ t post_commit) in
    let* fixed :=
      (if present then
         if dry_run self then Eff.ret fixed
         else Eff.try_except
                (do* io (unlink post_commit) in Eff.ret (S fixed))
                (fun e => match e with OSError => Some (Eff.ret fixed) end)
       else Eff.ret fixed) in
    fold_fixes
      (fun fixed (hook : string * string) =>
         let (name, content) := hook in
         let hook_path := Path.child hooks_dir name in
         let* present := on_tree (fun t => exists_ t hook_path) in
         if negb present then
           if dry_run self then Eff.ret fixed
           else Eff.try_except
                  (do* io (write_file false hook_path content) in
                   do* io (chmod_x hook_path) in
                   Eff.ret (S fixed))
                  (fun e => match e with OSError => Some (Eff.ret fixed) end)
         else Eff.ret fixed)
      [ ("post-rewrite", POST_REWRITE_HOOK tpl);
        ("post-merge", POST_MERGE_HOOK tpl) ]
      fixed.

Definition _fix_submodule_hooks : M nat :=
  let* subs := Eff.gets (fun s => submodules (status s)) in
  fold_fixes _fix_submodule subs 0%nat.

(** [fix] (a reserved word here, hence the underscore) *)
Definition fix_ : M nat :=
  let* ty := Eff.gets (fun s => project_type (status s)) in
  if ProjectType_eqb ty UNKNOWN then Eff.ret 1%nat
  else
    let fixed_count := 0%nat in
    let* n := _fix_hooks in
    let fixed_count := (fixed_count + n)%nat in
    let* n := _fix_config_files in
    let fixed_count := (fixed_count + n)%nat in
    if ProjectType_eqb ty MARKETPLACE then
      let* n := _fix_submodule_hooks in
      Eff.ret (fixed_count + n)%nat
    else Eff.ret fixed_count.

End Fixing.

(** *** The command line *)

Record Args := {
  path : list string;          (* [Path(args.path).resolve()] *)
  type_ : option string;       (* [--type], parsed and not used *)
  arg_validate : bool;
  arg_fix : bool;
  arg_dry_run : bool;
  arg_quiet : bool;
  arg_verbose : bool;
  arg_json : bool
}.

Section CommandLine.

Variable configparser_sections : string -> option (list (string * option string)).
Variable tpl : Templates.

(** [status = setup.validate()]: the local [status] and [setup.status]
    are one object, held in the state. *)
Definition run_validate (setup : PipelineSetup) : M unit :=
  Eff.modify (fun s => {| tree := tree s;
                          status := validate configparser_sections setup
                                      (tree s) (status s) |}).

Definition exit_status : M Z :=
  let* ok := Eff.gets (fun s => is_valid (status s)) in
  Eff.ret (if ok then 0 else 1).

Definition main (args : Args) : M Z :=
  let project_path := path args in
  let* found := on_tree (fun t => exists_ t project_path) in
  if negb found then Eff.ret 1
  else
    let setup := {| project_path := project_path;
                    dry_run := arg_dry_run args;
                    verbose := arg_verbose args |} in
    do* on_status (fun _ => new_status project_path) in
    do* run_validate setup in
    if arg_json args then exit_status
    else
      do* (if arg_fix args then
             let* fixable_issues :=
               Eff.gets (fun s => List.filter fix_available (issues (status s))) in
             if match fixable_issues with [] => true | _ => false end
                && negb (arg_dry_run args)
             then Eff.ret tt
             else
               let* fixed := fix_ tpl setup in
               if arg_dry_run args then Eff.ret tt
               else
                 do* on_status (fun _ => new_status project_path) in
                 run_validate setup
           else Eff.ret tt) in
      if arg_validate args || arg_fix args then exit_status
      else
        let* ok := Eff.gets (fun s => is_valid (status s)) in
        do* (if negb ok then let* _ := fix_ tpl setup in Eff.ret tt
             else Eff.ret tt) in
        Eff.ret 0.

(** The exit code of the process: an exception that reaches the top
    level ends the interpreter with code 1. *)
Definition exit_code (r : exn + Z) : Z :=
  match r with inr c => c | inl _ => 1 end.

(** A run from the command line starts on the tree alone. *)
Definition run_main (args : Args) (t : gmap (list string) node)
    : (exn + Z) * state :=
  main args {| tree := t; status := new_status (path args) |}.

End CommandLine.

(** *** Example trees *)

(** A [.gitmodules] reader for projects that have none. *)
Definition no_sections (text : string) : option (list (string * option string)) :=
  Some [].

Definition folder : node := Dir rwx O.

(** A hook script of 120 bytes, above the size floor of [_hook_is_valid]. *)
Definition hook_text : string :=
  "#!/usr/bin/env python3
import sys
# hook body: runs the project checks and reports their result
sys.exit(0)  # all good
".

(** Texts standing for the six templates in the examples below. *)
Definition example_templates : Templates :=
  {| PRE_COMMIT_HOOK := hook_text; PRE_PUSH_HOOK := hook_text;
     POST_REWRITE_HOOK := hook_text; POST_MERGE_HOOK := hook_text;
     CLIFF_TOML := "# git-cliff configuration for changelog generation";
     GITHUB_WORKFLOW := "name: Plugin Validation" |}.

Definition plugin_root : list string := ["/"; "work"; "plugin"].

Definition plugin_setup : PipelineSetup :=
  {| project_path := plugin_root; dry_run := false; verbose := false |}.

(** A directory that holds no manifest. *)
Definition not_a_plugin : gmap (list string) node :=
  list_to_map [ (["/"], folder); (["/"; "work"], folder); (plugin_root, folder) ].

(** A standalone plugin in a fresh repository: no hooks, no
    configuration files. *)
Definition bare_plugin : gmap (list string) node :=
  list_to_map
    [ (["/"], folder); (["/"; "work"], folder); (plugin_root, folder);
      (plugin_root ++ [".git"], folder);
      (plugin_root ++ [".git"; "hooks"], folder);
      (plugin_root ++ [".claude-plugin"], folder);
      (plugin_root ++ [".claude-plugin"; "plugin.json"], File rw_ "{}") ].

(** The same plugin with its four hooks, [cliff.toml] and a validation
    workflow in place, and no [.gitignore] yet. *)
Definition configured_plugin : gmap (list string) node :=
  list_to_map
    [ (plugin_root ++ [".git"; "hooks"; "pre-commit"], File rwx hook_text);
      (plugin_root ++ [".git"; "hooks"; "pre-push"], File rwx hook_text);
      (plugin_root ++ [".git"; "hooks"; "post-rewrite"], File rwx hook_text);
      (plugin_root ++ [".git"; "hooks"; "post-merge"], File rwx hook_text);
      (plugin_root ++ ["cliff.toml"], File rw_ "[changelog]");
      (plugin_root ++ [".github"], folder);
      (plugin_root ++ [".github"; "workflows"], folder);
      (plugin_root ++ [".github"; "workflows"; "validate.yml"],
       File rw_ "name: Plugin Validation") ]
  ∪ bare_plugin.

(** The configured plugin, except that [pre-commit] is an executable
    file of nine bytes. *)
Definition stub_hook_plugin : gmap (list string) node :=
  <[ plugin_root ++ [".git"; "hooks"; "pre-commit"] := File rwx "#!/bin/sh" ]>
    configured_plugin.

Definition default_args : Args :=
  {| path := plugin_root; type_ := None; arg_validate := false; arg_fix := false;
     arg_dry_run := false; arg_quiet := false; arg_verbose := false;
     arg_json := false |}.

Definition validate_args : Args :=
  {| path := plugin_root; type_ := None; arg_validate := true; arg_fix := false;
     arg_dry_run := false; arg_quiet := false; arg_verbose := false;
     arg_json := false |}.

(** A plugin checked out as a submodule of [/work/market]: its [.git]
    is a file that points into the marketplace's repository. *)
Definition submodule_root : list string := ["/"; "work"; "market"; "plugin"].

Definition submodule_setup : PipelineSetup :=
  {| project_path := submodule_root; dry_run := false; verbose := false |}.

Definition submodule_checkout : gmap (list string) node :=
  list_to_map
    [ (["/"], folder); (["/"; "work"], folder); (["/"; "work"; "market"], folder);
      (submodule_root, folder);
      (submodule_root ++ [".git"],
       File rw_ ("gitdir: ../.git/modules/plugin" ++ newline)) ].

(** The same checkout with a [.git] file that holds something else. *)
Definition odd_git_file : gmap (list string) node :=
  <[ submodule_root ++ [".git"] := File rw_ "ref: refs/heads/main" ]> submodule_checkout.

(** The same checkout with a [.git] file whose target holds the
    character NUL: the twelve bytes [gitdir: a], NUL, [b], line end. *)
Definition nul_git_file : gmap (list string) node :=
  <[ submodule_root ++ [".git"] :=
       File rw_ ("gitdir: a" ++ String "000"%char ("b" ++ newline)) ]>
    submodule_checkout.

(** The same checkout in a directory [/work/market] that the process
    may read and not search. *)
Definition closed_checkout : gmap (list string) node :=
  <[ ["/"; "work"; "market"] := Dir rw_ O ]> submodule_checkout.

End Pipeline.

(** ** Python source text

    The hooks are Python programs that the installer keeps as string
    literals and writes out as files.  Two things the interpreter does
    with such text are modelled here: it turns the body of a literal
    into its value (the escape sequences), and, before it runs a file,
    it splits the file into tokens, which fails with [SyntaxError] on a
    string literal that is still open where its line ends. *)

Module Py.

Definition LF : ascii := "010"%char.
Definition backslash : ascii := "092"%char.
Definition apostrophe : ascii := "039"%char.

(** The value of a string literal that is neither raw nor of bytes,
    given its body.  [pending] says that the character before was an
    escaping backslash.  A backslash before a character that starts no
    escape sequence stays, as in Python.  Octal, hexadecimal and named
    escapes are left as they are: the templates of the script use
    none (see [escapes]). *)
Fixpoint literal_from (pending : bool) (s : string) : string :=
  match s with
  | EmptyString => if pending then String backslash EmptyString else EmptyString
  | String c rest =>
      if pending then
        if Ascii.eqb c backslash then String backslash (literal_from false rest)
        else if Ascii.eqb c apostrophe then String apostrophe (literal_from false rest)
        else if Ascii.eqb c "034" then String "034" (literal_from false rest)
        else if Ascii.eqb c "n" then String LF (literal_from false rest)
        else if Ascii.eqb c "r" then String "013" (literal_from false rest)
        else if Ascii.eqb c "t" then String "009" (literal_from false rest)
        else if Ascii.eqb c "a" then String "007" (literal_from false rest)
        else if Ascii.eqb c "b" then String "008" (literal_from false rest)
        else if Ascii.eqb c "f" then String "012" (literal_from false rest)
        else if Ascii.eqb c "v" then String "011" (literal_from false rest)
        else if Ascii.eqb c LF then literal_from false rest
        else String backslash (String c (literal_from false rest))
      else if Ascii.eqb c backslash then literal_from true rest
      else String c (literal_from false rest)
  end.

Definition literal (body : string) : string := literal_from false body.

(** The characters that follow an escaping backslash in the body of a
    literal. *)
Fixpoint escapes_from (pending : bool) (s : string) : list ascii :=
  match s with
  | EmptyString => []
  | String c rest =>
      if pending then c :: escapes_from false rest
      else escapes_from (Ascii.eqb c backslash) rest
  end.

Definition escapes (body : string) : list ascii := escapes_from false body.

(** Where the tokenizer is: in code, in a comment, in a string literal
    that must close on its line ([Short]) or in a triple-quoted one
    ([Long]); [q] is the quote character that opened the literal. *)
Inductive mode :=
| Code
| Comment
| Short (q : ascii)
| Long (q : ascii).

Definition is_quote (c : ascii) : bool :=
  Ascii.eqb c "034" || Ascii.eqb c apostrophe.

(** Is the text [q q] the start of [s]? *)
Definition two_more (q : ascii) (s : string) : bool :=
  match s with
  | String a (String b _) => Ascii.eqb a q && Ascii.eqb b q
  | _ => false
  end.

(** The line on which the tokenizer gives up with "unterminated string
    literal", if it does: a [Short] literal that meets the end of its
    line, or a literal still open where the text ends.  [skip] counts the
    characters to pass over unread: the one after a backslash inside a
    literal, and the second and third quote of a triple.  A prefix such
    as [f] or [r] changes nothing here: in every literal a backslash
    keeps the next character from closing it. *)
Fixpoint scan (m : mode) (skip : nat) (line : nat) (s : string) : option nat :=
  match s with
  | EmptyString =>
      match m with
      | Short _ | Long _ => Some line
      | Code | Comment => None
      end
  | String c rest =>
      let next := if Ascii.eqb c LF then S line else line in
      match skip with
      | S k => scan m k next rest
      | O =>
          match m with
          | Code =>
              if is_quote c then
                if two_more c rest then scan (Long c) 2 line rest
                else scan (Short c) 0 line rest
              else if Ascii.eqb c "#" then scan Comment 0 line rest
              else scan Code 0 next rest
          | Comment =>
              if Ascii.eqb c LF then scan Code 0 next rest
              else scan Comment 0 line rest
          | Short q =>
              if Ascii.eqb c backslash then scan (Short q) 1 line rest
              else if Ascii.eqb c q then scan Code 0 line rest
              else if Ascii.eqb c LF then Some line
              else scan (Short q) 0 line rest
          | Long q =>
              if Ascii.eqb c backslash then scan (Long q) 1 line rest
              else if Ascii.eqb c q && two_more q rest then scan Code 2 line rest
              else scan (Long q) 0 next rest
          end
      end
  end.

Definition unterminated (text : string) : option nat := scan Code 0 1 text.

End Py.

(** ** The text of the pre-push hook

    [PRE_PUSH_HOOK] is a literal in triple apostrophes that runs from
    line 311 of the script to line 1447: line [n] of the hook is line
    [n + 310] of the script.  The lines below write a backquote, a
    character the literal does not use, where the script has a double
    quote; [requote] puts the double quotes back. *)

Module Template.

Fixpoint requote (s : string) : string :=
  match s with
  | EmptyString => EmptyString
  | String c rest =>
      String (if Ascii.eqb c "096" then "034"%char else c) (requote rest)
  end.

(** The lines of a text, each with its line end. *)
Fixpoint unlines (l : list string) : string :=
  match l with
  | [] => EmptyString
  | x :: rest => x ++ String Py.LF (unlines rest)
  end.

(** The body of the literal, line by line, as the script spells it. *)
Definition PRE_PUSH_HOOK_lines : list string := [
"#!/usr/bin/env python3";
"```pre-push hook: Full validation before pushing with auto-fix loop.";
"";
"Implements a CI/CD loop that:";
"1. Runs linting/formatting with auto-fix (ruff)";
"2. Checks if files were modified";
"3. If modified, commits the fixes";
"4. Re-runs validation";
"5. Loops until clean or max iterations reached";
"";
"Blocks push only if unfixable issues remain after all auto-fix attempts.";
"```";
"";
"import shutil";
"import subprocess";
"import sys";
"from pathlib import Path";
"";
"RED = `\\033[0;31m`";
"GREEN = `\\033[0;32m`";
"YELLOW = `\\033[1;33m`";
"BLUE = `\\033[0;34m`";
"BOLD = `\\033[1m`";
"NC = `\\033[0m`";
"";
"MAX_FIX_ITERATIONS = 5";
"";
"";
"def get_repo_root() -> Path:";
"    ```Get repository root.```";
"    try:";
"        result = subprocess.run(";
"            [`git`, `rev-parse`, `--show-toplevel`],";
"            capture_output=True, text=True, timeout=10";
"        )";
"        if result.returncode == 0 and result.stdout.strip():";
"            return Path(result.stdout.strip())";
"    except subprocess.TimeoutExpired:";
"        print(f`{YELLOW}⚠ git rev-parse timed out{NC}`)";
"    except OSError as e:";
"        print(f`{RED}git error: {e}{NC}`)";
"    # Fallback to current directory";
"    return Path.cwd()";
"";
"";
"def find_validator() -> Path | None:";
"    ```Find the plugin validator script.```";
"    repo_root = get_repo_root()";
"";
"    # Check common locations";
"    candidates = [";
"        repo_root / `scripts` / `validate_plugin.py`,";
"        repo_root / `claude-plugins-validation` / `scripts` / `validate_plugin.py`,";
"        Path(__file__).parent.parent / `scripts` / `validate_plugin.py`,";
"    ]";
"";
"    for candidate in candidates:";
"        if candidate.exists():";
"            return candidate";
"    return None";
"";
"";
"def has_uncommitted_changes(repo_root: Path) -> bool:";
"    ```Check if there are uncommitted changes in tracked files.```";
"    try:";
"        result = subprocess.run(";
"            [`git`, `status`, `--porcelain`],";
"            cwd=repo_root,";
"            capture_output=True, text=True, timeout=30";
"        )";
"        if result.returncode != 0:";
"            print(f`{YELLOW}⚠ git status failed{NC}`)";
"            return False";
"        # Filter for modified/added files (not untracked)";
"        lines = [l for l in result.stdout.strip().split(`\\n`) if l and not l.startswith(`??`)]";
"        return len(lines) > 0";
"    except subprocess.TimeoutExpired:";
"        print(f`{YELLOW}⚠ git status timed out{NC}`)";
"        return False";
"    except OSError:";
"        return False";
"";
"";
"def detect_languages(repo_root: Path) -> dict[str, list[Path]]:";
"    ```Detect which programming languages are present in the repo.";
"";
"    Returns:";
"        Dictionary mapping language name to list of files.";
"    ```";
"    # Directories to exclude from scanning";
"    exclude_dirs = {`.venv`, `venv`, `__pycache__`, `.git`, `node_modules`,";
"                    `.mypy_cache`, `.ruff_cache`, `build`, `dist`, `.tox`}";
"";
"    def should_include(path: Path) -> bool:";
"        return not any(part in exclude_dirs for part in path.parts)";
"";
"    languages: dict[str, list[Path]] = {}";
"";
"    # Python";
"    py_files = [f for f in repo_root.glob(`**/*.py`) if should_include(f)]";
"    if py_files:";
"        languages[`python`] = py_files";
"";
"    # JavaScript/TypeScript";
"    js_files = [f for f in repo_root.glob(`**/*.js`) if should_include(f)]";
"    ts_files = [f for f in repo_root.glob(`**/*.ts`) if should_include(f)]";
"    jsx_files = [f for f in repo_root.glob(`**/*.jsx`) if should_include(f)]";
"    tsx_files = [f for f in repo_root.glob(`**/*.tsx`) if should_include(f)]";
"    all_js = js_files + ts_files + jsx_files + tsx_files";
"    if all_js:";
"        languages[`javascript`] = all_js";
"";
"    # Shell/Bash";
"    sh_files = [f for f in repo_root.glob(`**/*.sh`) if should_include(f)]";
"    bash_files = [f for f in repo_root.glob(`**/*.bash`) if should_include(f)]";
"    all_shell = sh_files + bash_files";
"    if all_shell:";
"        languages[`shell`] = all_shell";
"";
"    # Go";
"    go_files = [f for f in repo_root.glob(`**/*.go`) if should_include(f)]";
"    if go_files:";
"        languages[`go`] = go_files";
"";
"    # Rust";
"    rs_files = [f for f in repo_root.glob(`**/*.rs`) if should_include(f)]";
"    if rs_files:";
"        languages[`rust`] = rs_files";
"";
"    # Markdown";
"    md_files = [f for f in repo_root.glob(`**/*.md`) if should_include(f)]";
"    mdx_files = [f for f in repo_root.glob(`**/*.mdx`) if should_include(f)]";
"    all_md = md_files + mdx_files";
"    if all_md:";
"        languages[`markdown`] = all_md";
"";
"    # JSON";
"    json_files = [f for f in repo_root.glob(`**/*.json`) if should_include(f)]";
"    if json_files:";
"        languages[`json`] = json_files";
"";
"    # YAML";
"    yml_files = [f for f in repo_root.glob(`**/*.yml`) if should_include(f)]";
"    yaml_files = [f for f in repo_root.glob(`**/*.yaml`) if should_include(f)]";
"    all_yaml = yml_files + yaml_files";
"    if all_yaml:";
"        languages[`yaml`] = all_yaml";
"";
"    return languages";
"";
"";
"def install_python_tool(tool: str) -> bool:";
"    ```Try to install a Python CLI tool.";
"";
"    Priority:";
"    1. uv tool install (preferred - installs tools in isolated envs)";
"    2. uvx (just run, no install needed)";
"    3. pipx (fallback - similar to uv tool)";
"    4. pip install --user (last resort)";
"";
"    Returns:";
"        True if installation succeeded, False otherwise.";
"    ```";
"    last_error = ``";
"";
"    # Method 1: uv tool install (preferred for CLI tools)";
"    # Always specify --python 3.12 for compatibility (some tools don't support 3.14+)";
"    if shutil.which(`uv`):";
"        try:";
"            result = subprocess.run(";
"                [`uv`, `tool`, `install`, `--python`, `3.12`, tool],";
"                capture_output=True, text=True, timeout=120";
"            )";
"            if result.returncode == 0:";
"                print(f`{GREEN}  ✔ {tool} installed via uv tool (Python 3.12){NC}`)";
"                return True";
"            # If already installed, that's fine";
"            if `already installed` in result.stderr.lower():";
"                print(f`{GREEN}  ✔ {tool} already installed via uv tool{NC}`)";
"                return True";
"            last_error = result.stderr.strip() or result.stdout.strip()";
"        except subprocess.TimeoutExpired:";
"            last_error = `uv tool timed out after 120s`";
"        except OSError as e:";
"            last_error = str(e)";
"";
"    # Method 2: pipx (similar to uv tool, if uv not available)";
"    if shutil.which(`pipx`):";
"        try:";
"            result = subprocess.run(";
"                [`pipx`, `install`, tool],";
"                capture_output=True, text=True, timeout=120";
"            )";
"            if result.returncode == 0:";
"                print(f`{GREEN}  ✔ {tool} installed via pipx{NC}`)";
"                return True";
"            if `already installed` in result.stderr.lower() or `already installed` in result.stdout.lower():";
"                print(f`{GREEN}  ✔ {tool} already installed via pipx{NC}`)";
"                return True";
"            last_error = result.stderr.strip() or result.stdout.strip()";
"        except subprocess.TimeoutExpired:";
"            last_error = `pipx timed out after 120s`";
"        except OSError as e:";
"            last_error = str(e)";
"";
"    # Method 3: pip install --user (last resort)";
"    for pip_cmd in [`pip3`, `pip`]:";
"        if shutil.which(pip_cmd):";
"            try:";
"                result = subprocess.run(";
"                    [pip_cmd, `install`, `--user`, tool],";
"                    capture_output=True, text=True, timeout=120";
"                )";
"                if result.returncode == 0:";
"                    print(f`{GREEN}  ✔ {tool} installed via {pip_cmd} --user{NC}`)";
"                    return True";
"                last_error = result.stderr.strip() or result.stdout.strip()";
"            except subprocess.TimeoutExpired:";
"                last_error = f`{pip_cmd} timed out after 120s`";
"            except OSError as e:";
"                last_error = str(e)";
"";
"    if last_error:";
"        print(f`{RED}  Install error: {last_error[:200]}{NC}`)";
"    return False";
"";
"";
"def ensure_linter_installed(language: str, repo_root: Path) -> bool:";
"    ```Ensure the linter for a language is installed. Auto-install if possible.";
"";
"    Returns:";
"        True if linter is available, False if cannot be installed.";
"    ```";
"    if language == `python`:";
"        # Check and install ruff";
"        if not shutil.which(`ruff`):";
"            print(f`{YELLOW}  Installing ruff...{NC}`)";
"            if not install_python_tool(`ruff`):";
"                print(f`{RED}  ✘ Could not install ruff{NC}`)";
"                return False";
"";
"        # Check and install mypy (for type checking)";
"        if not shutil.which(`mypy`):";
"            print(f`{YELLOW}  Installing mypy...{NC}`)";
"            if not install_python_tool(`mypy`):";
"                print(f`{YELLOW}  ⚠ Could not install mypy, type checking will be skipped{NC}`)";
"                # Don't return False - mypy is optional, ruff is required";
"";
"        return True";
"";
"    elif language == `javascript`:";
"        # Check for eslint in node_modules or globally";
"        local_eslint = repo_root / `node_modules` / `.bin` / `eslint`";
"        if local_eslint.exists() or shutil.which(`eslint`):";
"            return True";
"        # Check for package.json to install eslint";
"        package_json = repo_root / `package.json`";
"        if package_json.exists():";
"            print(f`{YELLOW}  Installing eslint...{NC}`)";
"            # Try bun, then npm, then pnpm";
"            for pkg_mgr in [`bun`, `npm`, `pnpm`]:";
"                if shutil.which(pkg_mgr):";
"                    result = subprocess.run(";
"                        [pkg_mgr, `install`, `eslint`, `--save-dev`],";
"                        cwd=repo_root,";
"                        capture_output=True, text=True, timeout=120";
"                    )";
"                    if result.returncode == 0:";
"                        print(f`{GREEN}  ✔ eslint installed via {pkg_mgr}{NC}`)";
"                        return True";
"        print(f`{YELLOW}  ⚠ eslint not available, skipping JS/TS linting{NC}`)";
"        return False";
"";
"    elif language == `shell`:";
"        if shutil.which(`shellcheck`):";
"            return True";
"        # Try to auto-install shellcheck (cross-platform)";
"        print(f`{YELLOW}  Installing shellcheck...{NC}`)";
"        import platform";
"        os_type = platform.system().lower()";
"";
"        # Define package managers by platform and priority";
"        pkg_managers = []";
"        if os_type == `darwin`:  # macOS";
"            pkg_managers = [";
"                (`brew`, [`brew`, `install`, `shellcheck`]),";
"                (`port`, [`sudo`, `port`, `install`, `shellcheck`]),";
"            ]";
"        elif os_type == `linux`:";
"            pkg_managers = [";
"                (`apt-get`, [`sudo`, `apt-get`, `install`, `-y`, `shellcheck`]),";
"                (`dnf`, [`sudo`, `dnf`, `install`, `-y`, `ShellCheck`]),";
"                (`yum`, [`sudo`, `yum`, `install`, `-y`, `ShellCheck`]),";
"                (`pacman`, [`sudo`, `pacman`, `-S`, `--noconfirm`, `shellcheck`]),";
"                (`zypper`, [`sudo`, `zypper`, `install`, `-y`, `ShellCheck`]),";
"                (`apk`, [`sudo`, `apk`, `add`, `shellcheck`]),";
"                (`brew`, [`brew`, `install`, `shellcheck`]),  # Linuxbrew";
"            ]";
"        elif os_type == `windows`:";
"            pkg_managers = [";
"                (`scoop`, [`scoop`, `install`, `shellcheck`]),";
"                (`choco`, [`choco`, `install`, `shellcheck`, `-y`]),";
"                (`winget`, [`winget`, `install`, `--id`, `koalaman.shellcheck`, `-e`]),";
"            ]";
"";
"        last_error = ``";
"        for pkg_mgr, cmd in pkg_managers:";
"            if shutil.which(pkg_mgr):";
"                try:";
"                    result = subprocess.run(cmd, capture_output=True, text=True, timeout=180)";
"                    if result.returncode == 0:";
"                        print(f`{GREEN}  ✔ shellcheck installed via {pkg_mgr}{NC}`)";
"                        return True";
"                    last_error = f`{pkg_mgr}: {result.stderr.strip() or result.stdout.strip()}`";
"                except subprocess.TimeoutExpired:";
"                    print(f`{YELLOW}  ⚠ {pkg_mgr} install timed out after 180s, trying next...{NC}`)";
"                    last_error = f`{pkg_mgr}: timed out`";
"                except OSError as e:";
"                    last_error = f`{pkg_mgr}: {e}`";
"";
"        if last_error:";
"            print(f`{YELLOW}  Last error: {last_error[:150]}{NC}`)";
"";
"        # Provide platform-specific install instructions";
"        install_hint = {";
"            `darwin`: `brew install shellcheck`,";
"            `linux`: `apt install shellcheck  # or dnf/pacman/zypper`,";
"            `windows`: `scoop install shellcheck  # or choco/winget`,";
"        }.get(os_type, `see https://github.com/koalaman/shellcheck#installing`)";
"        print(f`{YELLOW}  ⚠ shellcheck not installed (install via: {install_hint}){NC}`)";
"        return False";
"";
"    elif language == `go`:";
"        if shutil.which(`gofmt`):";
"            return True";
"        # gofmt comes with Go installation, can't auto-install separately";
"        import platform";
"        os_type = platform.system().lower()";
"        install_hint = {";
"            `darwin`: `brew install go  # or download from go.dev/dl`,";
"            `linux`: `apt install golang  # or dnf/pacman, or download from go.dev/dl`,";
"            `windows`: `scoop install go  # or choco install golang, or download from go.dev/dl`,";
"        }.get(os_type, `https://go.dev/dl/`)";
"        print(f`{YELLOW}  ⚠ Go tools not installed (install via: {install_hint}){NC}`)";
"        return False";
"";
"    elif language == `rust`:";
"        if shutil.which(`cargo`):";
"            # Check for rustfmt and clippy components";
"            # Note: rustup may not exist if Rust was installed via brew/system package";
"            has_rustup = shutil.which(`rustup`) is not None";
"            if not shutil.which(`rustfmt`):";
"                if has_rustup:";
"                    print(f`{YELLOW}  Installing rustfmt via rustup...{NC}`)";
"                    try:";
"                        result = subprocess.run(";
"                            [`rustup`, `component`, `add`, `rustfmt`],";
"                            capture_output=True, text=True, timeout=120";
"                        )";
"                        if result.returncode != 0:";
"                            print(f`{YELLOW}  ⚠ rustfmt install failed: {result.stderr[:100]}{NC}`)";
"                    except subprocess.TimeoutExpired:";
"                        print(f`{YELLOW}  ⚠ rustfmt install timed out{NC}`)";
"                else:";
"                    print(f`{YELLOW}  ⚠ rustfmt not found and rustup unavailable{NC}`)";
"            if not shutil.which(`cargo-clippy`):";
"                if has_rustup:";
"                    print(f`{YELLOW}  Installing clippy via rustup...{NC}`)";
"                    try:";
"                        result = subprocess.run(";
"                            [`rustup`, `component`, `add`, `clippy`],";
"                            capture_output=True, text=True, timeout=120";
"                        )";
"                        if result.returncode != 0:";
"                            print(f`{YELLOW}  ⚠ clippy install failed: {result.stderr[:100]}{NC}`)";
"                    except subprocess.TimeoutExpired:";
"                        print(f`{YELLOW}  ⚠ clippy install timed out{NC}`)";
"                else:";
"                    print(f`{YELLOW}  ⚠ clippy not found and rustup unavailable{NC}`)";
"            return True";
"        # Rust/Cargo not found";
"        import platform";
"        os_type = platform.system().lower()";
"        install_hint = {";
"            `darwin`: `curl --proto '=https' --tlsv1.2 -sSf https://sh.rustup.rs | sh`,";
"            `linux`: `curl --proto '=https' --tlsv1.2 -sSf https://sh.rustup.rs | sh`,";
"            `windows`: `Download rustup-init.exe from https://rustup.rs/`,";
"        }.get(os_type, `https://rustup.rs/`)";
"        print(f`{YELLOW}  ⚠ Rust/Cargo not installed (install via: {install_hint}){NC}`)";
"        return False";
"";
"    elif language == `markdown`:";
"        # Check for markdownlint-cli (preferred) or markdownlint";
"        # Try bun x / npx first (no global install needed)";
"        if shutil.which(`bun`) or shutil.which(`npx`):";
"            return True  # Will use bun x or npx at runtime";
"";
"        # Check for globally installed markdownlint-cli";
"        if shutil.which(`markdownlint`):";
"            return True";
"";
"        # Try to install globally";
"        print(f`{YELLOW}  Installing markdownlint-cli...{NC}`)";
"        for pkg_mgr, cmd in [";
"            (`bun`, [`bun`, `add`, `-g`, `markdownlint-cli`]),";
"            (`npm`, [`npm`, `install`, `-g`, `markdownlint-cli`]),";
"        ]:";
"            if shutil.which(pkg_mgr):";
"                try:";
"                    result = subprocess.run(cmd, capture_output=True, text=True, timeout=120)";
"                    if result.returncode == 0:";
"                        print(f`{GREEN}  ✔ markdownlint-cli installed via {pkg_mgr}{NC}`)";
"                        return True";
"                except subprocess.TimeoutExpired:";
"                    print(f`{YELLOW}  ⚠ {pkg_mgr} install timed out{NC}`)";
"                except OSError as e:";
"                    print(f`{YELLOW}  ⚠ {pkg_mgr} install failed: {e}{NC}`)";
"";
"        print(f`{YELLOW}  ⚠ markdownlint not available (install via: npm install -g markdownlint-cli){NC}`)";
"        return False";
"";
"    elif language == `json`:";
"        # JSON validation uses built-in Python json module + optional prettier";
"        # We can always validate JSON with Python, so return True";
"        # Optional: check for prettier for formatting";
"        if shutil.which(`bun`) or shutil.which(`npx`) or shutil.which(`prettier`):";
"            return True";
"";
"        # JSON validation with Python is always available";
"        print(f`{BLUE}  Using Python json module for JSON validation{NC}`)";
"        return True";
"";
"    elif language == `yaml`:";
"        # Check for yamllint";
"        if shutil.which(`yamllint`):";
"            return True";
"";
"        # Try to install via uv pip (preferred) or pip";
"        print(f`{YELLOW}  Installing yamllint...{NC}`)";
"        if not install_python_tool(`yamllint`):";
"            print(f`{YELLOW}  ⚠ Could not install yamllint{NC}`)";
"            # Provide manual install hint";
"            print(f`{YELLOW}  ⚠ Install via: uv tool install --python 3.12 yamllint  OR  pipx install yamllint{NC}`)";
"            return False";
"";
"        return True";
"";
"    return False";
"";
"";
"def lint_python(repo_root: Path) -> tuple[bool, bool]:";
"    ```Lint Python files with ruff.";
"";
"    Order: 1) lint+fix, 2) typecheck, 3) verify lint, 4) format (last)";
"";
"    Returns:";
"        (success, files_changed)";
"    ```";
"    files_changed = False";
"";
"    # Step 1: Run ruff check with auto-fix";
"    print(f`{BLUE}    [1/4] ruff check --fix...{NC}`)";
"    try:";
"        subprocess.run(";
"            [`ruff`, `check`, `--fix`, `--select=E,F,W,I`, str(repo_root)],";
"            capture_output=True, text=True, timeout=120";
"        )";
"    except subprocess.TimeoutExpired:";
"        print(f`{YELLOW}    ruff check timed out{NC}`)";
"    except FileNotFoundError:";
"        print(f`{RED}    ruff not found{NC}`)";
"        return False, files_changed";
"";
"    if has_uncommitted_changes(repo_root):";
"        files_changed = True";
"";
"    # Step 2: Run type checker (mypy) if available";
"    if shutil.which(`mypy`):";
"        print(f`{BLUE}    [2/4] mypy...{NC}`)";
"        try:";
"            result = subprocess.run(";
"                [`mypy`, `--ignore-missing-imports`, str(repo_root)],";
"                capture_output=True, text=True, timeout=180";
"            )";
"            if result.returncode != 0:";
"                print(f`{RED}    Type errors found:{NC}`)";
"                for line in result.stdout.strip().split(`\\n`)[:10]:";
"                    print(f`      {line}`)";
"                return False, files_changed";
"        except subprocess.TimeoutExpired:";
"            print(f`{YELLOW}    mypy timed out, skipping{NC}`)";
"    else:";
"        print(f`{YELLOW}    [2/4] mypy not installed, skipping typecheck{NC}`)";
"";
"    # Step 3: Verify lint check passes (no remaining unfixable issues)";
"    print(f`{BLUE}    [3/4] ruff check (verify)...{NC}`)";
"    try:";
"        result = subprocess.run(";
"            [`ruff`, `check`, `--select=E,F,W`, str(repo_root)],";
"            capture_output=True, text=True, timeout=120";
"        )";
"        if result.returncode != 0:";
"            # Lint issues remain that can't be auto-fixed";
"            print(f`{RED}    Unfixable lint issues remain{NC}`)";
"            return False, files_changed";
"    except subprocess.TimeoutExpired:";
"        print(f`{YELLOW}    ruff verify timed out{NC}`)";
"";
"    # Step 4: Format ONLY if all above passed (formatting is last)";
"    print(f`{BLUE}    [4/4] ruff format...{NC}`)";
"    try:";
"        subprocess.run(";
"            [`ruff`, `format`, str(repo_root)],";
"            capture_output=True, text=True, timeout=120";
"        )";
"    except subprocess.TimeoutExpired:";
"        print(f`{YELLOW}    ruff format timed out{NC}`)";
"";
"    if has_uncommitted_changes(repo_root):";
"        files_changed = True";
"";
"    return True, files_changed";
"";
"";
"def lint_javascript(repo_root: Path) -> tuple[bool, bool]:";
"    ```Lint JavaScript/TypeScript files with eslint.";
"";
"    Prefers: bun x eslint > npx eslint > local eslint > global eslint";
"";
"    Returns:";
"        (success, files_changed)";
"    ```";
"    files_changed = False";
"";
"    # Find eslint - prefer bun/npx runners";
"    local_eslint = repo_root / `node_modules` / `.bin` / `eslint`";
"    if shutil.which(`bun`):";
"        eslint_cmd = [`bun`, `x`, `eslint`]";
"    elif shutil.which(`npx`):";
"        eslint_cmd = [`npx`, `eslint`]";
"    elif local_eslint.exists():";
"        eslint_cmd = [str(local_eslint)]";
"    elif shutil.which(`eslint`):";
"        eslint_cmd = [`eslint`]";
"    else:";
"        print(f`{YELLOW}    eslint not available, skipping{NC}`)";
"        return True, False";
"";
"    # Check if eslint config exists";
"    config_files = [`.eslintrc`, `.eslintrc.js`, `.eslintrc.json`, `.eslintrc.yml`, `eslint.config.js`]";
"    has_config = any((repo_root / cfg).exists() for cfg in config_files)";
"";
"    if not has_config:";
"        print(f`{YELLOW}    No eslint config found, skipping{NC}`)";
"        return True, False";
"";
"    # Run eslint with --fix";
"    print(f`{BLUE}    eslint --fix...{NC}`)";
"    try:";
"        subprocess.run(";
"            eslint_cmd + [`--fix`, `.`],";
"            cwd=repo_root,";
"            capture_output=True, text=True, timeout=120";
"        )";
"    except subprocess.TimeoutExpired:";
"        print(f`{YELLOW}    eslint --fix timed out{NC}`)";
"    except FileNotFoundError:";
"        print(f`{YELLOW}    eslint not found{NC}`)";
"        return True, False";
"";
"    if has_uncommitted_changes(repo_root):";
"        files_changed = True";
"";
"    # Final check";
"    try:";
"        result = subprocess.run(";
"            eslint_cmd + [`.`],";
"            cwd=repo_root,";
"            capture_output=True, text=True, timeout=120";
"        )";
"        return result.returncode == 0, files_changed";
"    except subprocess.TimeoutExpired:";
"        print(f`{YELLOW}    eslint verify timed out{NC}`)";
"        return True, files_changed";
"    except FileNotFoundError:";
"        return True, files_changed";
"";
"";
"def lint_shell(repo_root: Path, files: list[Path]) -> tuple[bool, bool]:";
"    ```Lint shell scripts with shellcheck.";
"";
"    Returns:";
"        (success, files_changed) - shellcheck doesn't auto-fix, so files_changed is always False";
"    ```";
"    print(f`{BLUE}    shellcheck...{NC}`)";
"";
"    all_passed = True";
"    for f in files:";
"        try:";
"            result = subprocess.run(";
"                [`shellcheck`, `-x`, str(f)],";
"                capture_output=True, text=True, timeout=60";
"            )";
"            if result.returncode != 0:";
"                all_passed = False";
"                print(f`{YELLOW}      {f.name}: issues found{NC}`)";
"        except subprocess.TimeoutExpired:";
"            print(f`{YELLOW}      {f.name}: shellcheck timed out{NC}`)";
"        except FileNotFoundError:";
"            print(f`{YELLOW}    shellcheck not found{NC}`)";
"            return True, False  # Skip if shellcheck not available";
"";
"    return all_passed, False";
"";
"";
"def lint_go(repo_root: Path) -> tuple[bool, bool]:";
"    ```Lint Go files with gofmt and go vet.";
"";
"    Returns:";
"        (success, files_changed)";
"    ```";
"    files_changed = False";
"";
"    # Run gofmt -w (auto-fix)";
"    print(f`{BLUE}    gofmt -w...{NC}`)";
"    try:";
"        subprocess.run(";
"            [`gofmt`, `-w`, `.`],";
"            cwd=repo_root,";
"            capture_output=True, text=True, timeout=120";
"        )";
"    except subprocess.TimeoutExpired:";
"        print(f`{YELLOW}    gofmt timed out{NC}`)";
"    except FileNotFoundError:";
"        print(f`{RED}    gofmt not found{NC}`)";
"        return False, files_changed";
"";
"    if has_uncommitted_changes(repo_root):";
"        files_changed = True";
"";
"    # Run go vet";
"    print(f`{BLUE}    go vet...{NC}`)";
"    try:";
"        result = subprocess.run(";
"            [`go`, `vet`, `./...`],";
"            cwd=repo_root,";
"            capture_output=True, text=True, timeout=120";
"        )";
"        return result.returncode == 0, files_changed";
"    except subprocess.TimeoutExpired:";
"        print(f`{YELLOW}    go vet timed out{NC}`)";
"        return True, files_changed";
"    except FileNotFoundError:";
"        return True, files_changed";
"";
"";
"def lint_rust(repo_root: Path) -> tuple[bool, bool]:";
"    ```Lint Rust files with cargo fmt and cargo clippy.";
"";
"    Returns:";
"        (success, files_changed)";
"    ```";
"    files_changed = False";
"";
"    # Check for Cargo.toml";
"    if not (repo_root / `Cargo.toml`).exists():";
"        return True, False";
"";
"    # Run cargo fmt";
"    print(f`{BLUE}    cargo fmt...{NC}`)";
"    try:";
"        subprocess.run(";
"            [`cargo`, `fmt`],";
"            cwd=repo_root,";
"            capture_output=True, text=True, timeout=120";
"        )";
"    except subprocess.TimeoutExpired:";
"        print(f`{YELLOW}    cargo fmt timed out{NC}`)";
"    except FileNotFoundError:";
"        print(f`{RED}    cargo not found{NC}`)";
"        return False, files_changed";
"";
"    if has_uncommitted_changes(repo_root):";
"        files_changed = True";
"";
"    # Run cargo clippy with auto-fix (if available)";
"    print(f`{BLUE}    cargo clippy --fix...{NC}`)";
"    try:";
"        subprocess.run(";
"            [`cargo`, `clippy`, `--fix`, `--allow-dirty`, `--allow-staged`],";
"            cwd=repo_root,";
"            capture_output=True, text=True, timeout=180";
"        )";
"    except subprocess.TimeoutExpired:";
"        print(f`{YELLOW}    cargo clippy --fix timed out{NC}`)";
"";
"    if has_uncommitted_changes(repo_root):";
"        files_changed = True";
"";
"    # Final check";
"    try:";
"        result = subprocess.run(";
"            [`cargo`, `clippy`],";
"            cwd=repo_root,";
"            capture_output=True, text=True, timeout=120";
"        )";
"        return result.returncode == 0, files_changed";
"    except subprocess.TimeoutExpired:";
"        print(f`{YELLOW}    cargo clippy verify timed out{NC}`)";
"        return True, files_changed";
"    except FileNotFoundError:";
"        return True, files_changed";
"";
"";
"def lint_markdown(repo_root: Path, files: list[Path]) -> tuple[bool, bool]:";
"    ```Lint Markdown files with markdownlint-cli.";
"";
"    Prefers: bun x markdownlint > npx markdownlint > global markdownlint";
"";
"    Returns:";
"        (success, files_changed)";
"    ```";
"    files_changed = False";
"";
"    if not files:";
"        return True, False";
"";
"    # Determine which runner to use";
"    if shutil.which(`bun`):";
"        lint_cmd = [`bun`, `x`, `markdownlint-cli`]";
"    elif shutil.which(`npx`):";
"        lint_cmd = [`npx`, `markdownlint-cli`]";
"    elif shutil.which(`markdownlint`):";
"        lint_cmd = [`markdownlint`]";
"    else:";
"        print(f`{YELLOW}    markdownlint not available, skipping{NC}`)";
"        return True, False";
"";
"    # Convert paths to strings for subprocess";
"    file_paths = [str(f) for f in files]";
"";
"    # Run markdownlint with --fix";
"    print(f`{BLUE}    markdownlint --fix...{NC}`)";
"    try:";
"        result = subprocess.run(";
"            lint_cmd + [`--fix`] + file_paths,";
"            cwd=repo_root,";
"            capture_output=True, text=True, timeout=120";
"        )";
"        # markdownlint returns 0 on success, 1 on lint errors";
"        # After --fix, some errors may remain (unfixable)";
"    except subprocess.TimeoutExpired:";
"        print(f`{YELLOW}    markdownlint --fix timed out{NC}`)";
"    except FileNotFoundError:";
"        print(f`{YELLOW}    markdownlint command not found{NC}`)";
"        return True, False";
"";
"    if has_uncommitted_changes(repo_root):";
"        files_changed = True";
"";
"    # Final check (without --fix)";
"    print(f`{BLUE}    markdownlint verify...{NC}`)";
"    try:";
"        result = subprocess.run(";
"            lint_cmd + file_paths,";
"            cwd=repo_root,";
"            capture_output=True, text=True, timeout=120";
"        )";
"        if result.returncode != 0 and result.stdout:";
"            # Show first few issues";
"            lines = result.stdout.strip().split(`\n`)[:5]";
"            for line in lines:";
"                print(f`{YELLOW}    {line}{NC}`)";
"            if len(result.stdout.strip().split(`\n`)) > 5:";
"                print(f`{YELLOW}    ... and more{NC}`)";
"        return result.returncode == 0, files_changed";
"    except subprocess.TimeoutExpired:";
"        print(f`{YELLOW}    markdownlint verify timed out{NC}`)";
"        return True, files_changed";
"    except FileNotFoundError:";
"        return True, files_changed";
"";
"";
"def lint_json(repo_root: Path, files: list[Path]) -> tuple[bool, bool]:";
"    ```Lint and optionally format JSON files.";
"";
"    Uses Python json module for validation (always available).";
"    Uses prettier for formatting if available (bun x / npx / global).";
"";
"    Returns:";
"        (success, files_changed)";
"    ```";
"    files_changed = False";
"    all_valid = True";
"";
"    if not files:";
"        return True, False";
"";
"    # Step 1: Validate JSON syntax with Python";
"    print(f`{BLUE}    json.load() validation...{NC}`)";
"    invalid_files = []";
"    for f in files:";
"        try:";
"            with open(f, encoding=`utf-8`) as fp:";
"                json.load(fp)";
"        except json.JSONDecodeError as e:";
"            invalid_files.append((f, str(e)))";
"        except UnicodeDecodeError as e:";
"            invalid_files.append((f, f`Binary/encoding error: {e}`))";
"        except OSError as e:";
"            invalid_files.append((f, f`I/O error: {e}`))";
"";
"    if invalid_files:";
"        all_valid = False";
"        for f, err in invalid_files[:5]:";
"            print(f`{RED}    {f.name}: {err[:80]}{NC}`)";
"        if len(invalid_files) > 5:";
"            print(f`{RED}    ... and {len(invalid_files) - 5} more{NC}`)";
"";
"    # Step 2: Format with prettier if available";
"    if shutil.which(`bun`):";
"        format_cmd = [`bun`, `x`, `prettier`]";
"    elif shutil.which(`npx`):";
"        format_cmd = [`npx`, `prettier`]";
"    elif shutil.which(`prettier`):";
"        format_cmd = [`prettier`]";
"    else:";
"        # No formatter available, skip formatting";
"        return all_valid, files_changed";
"";
"    # Convert paths to strings";
"    file_paths = [str(f) for f in files]";
"";
"    print(f`{BLUE}    prettier --write (JSON)...{NC}`)";
"    try:";
"        result = subprocess.run(";
"            format_cmd + [`--write`, `--parser`, `json`] + file_paths,";
"            cwd=repo_root,";
"            capture_output=True, text=True, timeout=120";
"        )";
"    except subprocess.TimeoutExpired:";
"        print(f`{YELLOW}    prettier timed out{NC}`)";
"    except FileNotFoundError:";
"        pass  # Formatter not available";
"";
"    if has_uncommitted_changes(repo_root):";
"        files_changed = True";
"";
"    return all_valid, files_changed";
"";
"";
"def lint_yaml(repo_root: Path, files: list[Path]) -> tuple[bool, bool]:";
"    ```Lint YAML files with yamllint.";
"";
"    Returns:";
"        (success, files_changed)";
"    ```";
"    files_changed = False  # yamllint doesn't auto-fix";
"";
"    if not files:";
"        return True, False";
"";
"    if not shutil.which(`yamllint`):";
"        print(f`{YELLOW}    yamllint not available, skipping{NC}`)";
"        return True, False";
"";
"    # Convert paths to strings";
"    file_paths = [str(f) for f in files]";
"";
"    # Run yamllint with relaxed config (warnings for style, errors for syntax)";
"    print(f`{BLUE}    yamllint...{NC}`)";
"    try:";
"        # Use relaxed preset for less strict checking";
"        result = subprocess.run(";
"            [`yamllint`, `-d`, `relaxed`, `--format`, `parsable`] + file_paths,";
"            cwd=repo_root,";
"            capture_output=True, text=True, timeout=120";
"        )";
"        if result.returncode != 0:";
"            # Show first few issues";
"            lines = result.stdout.strip().split(`\n`)[:5] if result.stdout else []";
"            for line in lines:";
"                # parsable format: file:line:col: [error/warning] message";
"                if `[error]` in line:";
"                    print(f`{RED}    {line}{NC}`)";
"                else:";
"                    print(f`{YELLOW}    {line}{NC}`)";
"            total_lines = len(result.stdout.strip().split(`\n`)) if result.stdout else 0";
"            if total_lines > 5:";
"                print(f`{YELLOW}    ... and {total_lines - 5} more{NC}`)";
"";
"            # Only fail on errors, not warnings";
"            if `[error]` in (result.stdout or ``):";
"                return False, files_changed";
"";
"        return True, files_changed";
"    except subprocess.TimeoutExpired:";
"        print(f`{YELLOW}    yamllint timed out{NC}`)";
"        return True, files_changed";
"    except FileNotFoundError:";
"        print(f`{YELLOW}    yamllint not found{NC}`)";
"        return True, files_changed";
"";
"";
"def run_linting(repo_root: Path) -> tuple[bool, bool]:";
"    ```Detect languages and run appropriate linters with auto-fix.";
"";
"    Returns:";
"        (success, files_changed): Whether all linting passed and if any files were modified.";
"    ```";
"    files_changed = False";
"    all_passed = True";
"";
"    # Detect languages present";
"    languages = detect_languages(repo_root)";
"";
"    if not languages:";
"        print(f`{YELLOW}  No source files found to lint{NC}`)";
"        return True, False";
"";
"    print(f`{BLUE}  Detected languages: {', '.join(languages.keys())}{NC}`)";
"";
"    # Lint each detected language";
"    for lang, files in languages.items():";
"        print(f`{BLUE}  [{lang.upper()}] ({len(files)} files){NC}`)";
"";
"        # Ensure linter is installed";
"        if not ensure_linter_installed(lang, repo_root):";
"            continue";
"";
"        # Run language-specific linter";
"        if lang == `python`:";
"            passed, changed = lint_python(repo_root)";
"        elif lang == `javascript`:";
"            passed, changed = lint_javascript(repo_root)";
"        elif lang == `shell`:";
"            passed, changed = lint_shell(repo_root, files)";
"        elif lang == `go`:";
"            passed, changed = lint_go(repo_root)";
"        elif lang == `rust`:";
"            passed, changed = lint_rust(repo_root)";
"        elif lang == `markdown`:";
"            passed, changed = lint_markdown(repo_root, files)";
"        elif lang == `json`:";
"            passed, changed = lint_json(repo_root, files)";
"        elif lang == `yaml`:";
"            passed, changed = lint_yaml(repo_root, files)";
"        else:";
"            continue";
"";
"        if not passed:";
"            all_passed = False";
"        if changed:";
"            files_changed = True";
"";
"    return all_passed, files_changed";
"";
"";
"def commit_auto_fixes(repo_root: Path, iteration: int) -> bool:";
"    ```Stage and commit auto-fixed files.";
"";
"    Returns:";
"        True if commit was successful, False otherwise.";
"    ```";
"    print(f`{BLUE}  Staging auto-fixed files...{NC}`)";
"";
"    # Stage all modified tracked files (not untracked)";
"    result = subprocess.run(";
"        [`git`, `add`, `-u`],";
"        cwd=repo_root,";
"        capture_output=True, text=True, timeout=30";
"    )";
"";
"    if result.returncode != 0:";
"        print(f`{RED}  ✘ Failed to stage files: {result.stderr}{NC}`)";
"        return False";
"";
"    # Check if there's anything to commit";
"    result = subprocess.run(";
"        [`git`, `diff`, `--cached`, `--quiet`],";
"        cwd=repo_root,";
"        capture_output=True, timeout=30";
"    )";
"";
"    if result.returncode == 0:";
"        # Nothing to commit";
"        return True";
"";
"    # Commit the auto-fixes";
"    commit_msg = f`chore: Auto-fix lint/format issues (iteration {iteration})`";
"    print(f`{BLUE}  Committing: {commit_msg}{NC}`)";
"";
"    result = subprocess.run(";
"        [`git`, `commit`, `-m`, commit_msg, `--no-verify`],";
"        cwd=repo_root,";
"        capture_output=True, text=True, timeout=30";
"    )";
"";
"    if result.returncode != 0:";
"        print(f`{RED}  ✘ Failed to commit: {result.stderr}{NC}`)";
"        return False";
"";
"    print(f`{GREEN}  ✔ Auto-fix commit created{NC}`)";
"    return True";
"";
"";
"def validate_plugin(plugin_path: Path, validator: Path) -> bool:";
"    ```Validate a single plugin.```";
"    result = subprocess.run(";
"        [`python3`, str(validator), str(plugin_path)],";
"        capture_output=True, timeout=120";
"    )";
"    return result.returncode == 0";
"";
"";
"def run_validation_cycle(repo_root: Path, validator: Path) -> list[str]:";
"    ```Run full validation and return list of plugins with issues.```";
"    issues = []";
"";
"    # Detect project type";
"    marketplace_json = repo_root / `.claude-plugin` / `marketplace.json`";
"    plugin_json = repo_root / `.claude-plugin` / `plugin.json`";
"";
"    if marketplace_json.exists():";
"        # Marketplace - validate all plugins";
"        print(f`{BLUE}  Validating marketplace plugins...{NC}`)";
"        import json";
"        with open(marketplace_json) as f:";
"            data = json.load(f)";
"";
"        for plugin in data.get(`plugins`, []):";
"            name = plugin.get(`name`, `unknown`)";
"            source = plugin.get(`source`, f`./{name}`)";
"            plugin_path = repo_root / source.lstrip(`./`)";
"";
"            print(f`{BLUE}    {name}...{NC}`, end=` `, flush=True)";
"            if plugin_path.exists():";
"                if validate_plugin(plugin_path, validator):";
"                    print(f`{GREEN}✔{NC}`)";
"                else:";
"                    print(f`{RED}✘{NC}`)";
"                    issues.append(name)";
"            else:";
"                print(f`{YELLOW}⚠ not found{NC}`)";
"";
"    elif plugin_json.exists():";
"        # Single plugin";
"        print(f`{BLUE}  Validating plugin...{NC}`, end=` `, flush=True)";
"        if validate_plugin(repo_root, validator):";
"            print(f`{GREEN}✔{NC}`)";
"        else:";
"            print(f`{RED}✘{NC}`)";
"            issues.append(`plugin`)";
"";
"    return issues";
"";
"";
"def main() -> int:";
"    print(f`{BOLD}{'=' * 60}{NC}`)";
"    print(f`{BOLD}Pre-Push Validation (with auto-fix loop){NC}`)";
"    print(f`{BOLD}{'=' * 60}{NC}`)";
"    print()";
"";
"    repo_root = get_repo_root()";
"    validator = find_validator()";
"";
"    if not validator:";
"        print(f`{YELLOW}⚠ Validator not found, skipping validation{NC}`)";
"        return 0";
"";
"    iteration = 0";
"    while iteration < MAX_FIX_ITERATIONS:";
"        iteration += 1";
"        print(f`{BOLD}--- Iteration {iteration}/{MAX_FIX_ITERATIONS} ---{NC}`)";
"";
"        # Step 1: Run linting with auto-fix";
"        print(f`{BLUE}[1] Linting and formatting...{NC}`)";
"        lint_passed, files_changed = run_linting(repo_root)";
"";
"        # Step 2: If files changed, commit the fixes and restart";
"        if files_changed:";
"            print(f`{YELLOW}[2] Files modified by auto-fix, committing...{NC}`)";
"            if not commit_auto_fixes(repo_root, iteration):";
"                print(f`{RED}✘ Failed to commit auto-fixes{NC}`)";
"                return 1";
"";
"            # Restart the loop to re-validate after commit";
"            print(f`{BLUE}[3] Restarting validation cycle...{NC}`)";
"            print()";
"            continue";
"";
"        # Step 3: Check if there are unfixable lint issues";
"        # (lint failed but nothing was changed = can't be auto-fixed)";
"        if not lint_passed:";
"            print()";
"            print(f`{BOLD}{'=' * 60}{NC}`)";
"            print(f`{RED}✘ LINT ISSUES CANNOT BE AUTO-FIXED - Push blocked{NC}`)";
"            print(f`{RED}  Run 'ruff check .' to see remaining issues{NC}`)";
"            print(f`{BOLD}{'=' * 60}{NC}`)";
"            return 1";
"";
"        # Step 4: Run plugin validation";
"        print(f`{BLUE}[2] Running plugin validation...{NC}`)";
"        issues = run_validation_cycle(repo_root, validator)";
"";
"        # Step 5: Check validation results";
"        if not issues:";
"            # All good!";
"            print()";
"            print(f`{BOLD}{'=' * 60}{NC}`)";
"            print(f`{GREEN}✔ VALIDATION PASSED - Push allowed{NC}`)";
"            if iteration > 1:";
"                print(f`{GREEN}  (Auto-fixed in {iteration - 1} iteration(s)){NC}`)";
"            print(f`{BOLD}{'=' * 60}{NC}`)";
"            return 0";
"";
"        # Validation failed - these are non-lint issues (schema, structure, etc.)";
"        print()";
"        print(f`{BOLD}{'=' * 60}{NC}`)";
"        print(f`{RED}✘ VALIDATION FAILED - Push blocked{NC}`)";
"        print(f`{RED}  Issues in: {', '.join(issues)}{NC}`)";
"        print(f`{RED}  (Not fixable by linting - manual fix required){NC}`)";
"        print(f`{BOLD}{'=' * 60}{NC}`)";
"        return 1";
"";
"    # Max iterations reached";
"    print()";
"    print(f`{BOLD}{'=' * 60}{NC}`)";
"    print(f`{RED}✘ MAX ITERATIONS REACHED ({MAX_FIX_ITERATIONS}) - Push blocked{NC}`)";
"    print(f`{RED}  Manual intervention required{NC}`)";
"    print(f`{BOLD}{'=' * 60}{NC}`)";
"    return 1";
"";
"";
"if __name__ == `__main__`:";
"    sys.exit(main())"
].

(** [PRE_PUSH_HOOK], the value of the literal: the text that
    [_fix_hooks] writes to [hooks/pre-push]. *)
Definition PRE_PUSH_HOOK : string :=
  Py.literal (requote (unlines PRE_PUSH_HOOK_lines)).

End Template.

(** ** The pre-push hook ([PRE_PUSH_HOOK])

    The hook talks to the outside through [subprocess.run],
    [shutil.which], the file system and [platform.system()].  These are
    the operations of an abstract operating system; every process the hook
    starts is appended, with its result, to a log.

    The functions of the hook are embedded as the script spells them
    inside the literal.  What the installer writes to disk is the value
    of the literal, [Template.PRE_PUSH_HOOK], and that text is not a
    Python program (see [pre_push_hook] below): the functions describe
    what the hook is written to do, [pre_push_hook] what the installed
    file does. *)

Module PrePush.

Inductive exn :=
| TimeoutExpired        (* [subprocess.TimeoutExpired] *)
| FileNotFoundError     (* a subclass of [OSError] *)
| OSError               (* any other [OSError] *)
| JSONDecodeError
| UnicodeDecodeError
| NameError             (* a name that is not bound where it is used *)
| SyntaxError.          (* the file does not compile *)

(** [except OSError] *)
Definition is_OSError (e : exn) : bool :=
  match e with FileNotFoundError | OSError => true | _ => false end.

Record CompletedProcess := {
  returncode : Z;
  stdout : string;
  stderr : string
}.

Record Call := {
  args : list string;
  cwd : option (list string);
  timeout : nat
}.

Class OS := {
  World : Type;
(** [subprocess.run(args, cwd=..., capture_output=True, timeout=...)] *)
subprocess_run : Call -> World -> (exn + CompletedProcess) * World;
(** [shutil.which(name) is not None] *)
which : string -> World -> bool;
(** [path.exists()] *)
path_exists : list string -> World -> bool;
(** [root.glob(pattern)] *)
glob : list string -> string -> World -> list (list string);
(** [Path.cwd()] *)
getcwd : World -> list string;
(** [platform.system().lower()] *)
os_type : World -> string;
(** the entries of [data.get("plugins", [])] read from a
    [marketplace.json], each as [plugin.get("name")] and
    [plugin.get("source")] *)
marketplace_plugins :
  list string -> World -> exn + list (option string * option string);
(** [Path(__file__)] *)
script_file : list string
}.

Definition MAX_FIX_ITERATIONS : nat := 5.

(** Where [main] returns, named after the banner it prints there. *)
Inductive Verdict :=
| ValidatorNotFound                     (* [return 0] *)
| CommitFailed                          (* [return 1] *)
| LintBlocked                           (* "LINT ISSUES CANNOT BE AUTO-FIXED" *)
| ValidationPassed                      (* "VALIDATION PASSED" *)
| ValidationFailed (issues : list string)
| MaxIterationsReached.                 (* "MAX ITERATIONS REACHED" *)

Definition exit_code (v : Verdict) : Z :=
  match v with
  | ValidatorNotFound | ValidationPassed => 0
  | CommitFailed | LintBlocked | ValidationFailed _ | MaxIterationsReached => 1
  end.

Section Hook.

Context {os : OS}.

Record state := {
  world : World;
  log : list (Call * (exn + CompletedProcess))
}.

Definition M (A : Type) : Type := Eff.M state exn A.

Definition run (a : list string) (d : option (list string)) (t : nat)
    : M CompletedProcess :=
  fun s =>
    let c := {| args := a; cwd := d; timeout := t |} in
    let (r, w) := subprocess_run c (world s) in
    (r, {| world := w; log := log s ++ [(c, r)] |}).

Definition ask {A} (f : World -> A) : M A := Eff.gets (fun s => f (world s)).

(** [except subprocess.TimeoutExpired: h] *)
Definition on_timeout {A} (h : M A) (e : exn) : option (M A) :=
  match e with TimeoutExpired => Some h | _ => None end.

(** [except subprocess.TimeoutExpired: h  except OSError: h] *)
Definition on_timeout_or_oserror {A} (h : M A) (e : exn) : option (M A) :=
  match e with
  | TimeoutExpired => Some h
  | _ => if is_OSError e then Some h else None
  end.

(** [except subprocess.TimeoutExpired: h1  except FileNotFoundError: h2] *)
Definition on_timeout_or_missing {A} (h1 h2 : M A) (e : exn) : option (M A) :=
  match e with
  | TimeoutExpired => Some h1
  | FileNotFoundError => Some h2
  | _ => None
  end.

Definition get_repo_root : M (list string) :=
  let* found :=
    Eff.try_except
      (let* result := run ["git"; "rev-parse"; "--show-toplevel"] None 10 in
       if (returncode result =? 0)
          && negb (String.eqb (Str.strip (stdout result)) "")
       then Eff.ret (Some (Path.of_string (Str.strip (stdout result))))
       else Eff.ret None)
      (on_timeout_or_oserror (Eff.ret None)) in
  match found with
  | Some p => Eff.ret p
  | None => ask getcwd
  end.

Fixpoint first_existing (candidates : list (list string)) : M (option (list string)) :=
  match candidates with
  | [] => Eff.ret None
  | c :: rest =>
      let* there := ask (path_exists c) in
      if there then Eff.ret (Some c) else first_existing rest
  end.

Definition find_validator : M (option (list string)) :=
  let* repo_root := get_repo_root in
  first_existing
    [ repo_root ++ ["scripts"; "validate_plugin.py"];
      repo_root ++ ["claude-plugins-validation"; "scripts"; "validate_plugin.py"];
      Path.parent (Path.parent script_file) ++ ["scripts"; "validate_plugin.py"] ].

Definition newline : ascii := "010"%char.

Definition has_uncommitted_changes (repo_root : list string) : M bool :=
  Eff.try_except
    (let* result := run ["git"; "status"; "--porcelain"] (Some repo_root) 30 in
     if negb (returncode result =? 0) then Eff.ret false
     else
       let lines :=
         List.filter
           (fun l => negb (String.eqb l "") && negb (Str.startswith l "??"))
           (Str.split newline (Str.strip (stdout result))) in
       Eff.ret (0 <? List.length lines)%nat)
    (on_timeout_or_oserror (Eff.ret false)).

Definition exclude_dirs : list string :=
  [".venv"; "venv"; "__pycache__"; ".git"; "node_modules";
   ".mypy_cache"; ".ruff_cache"; "build"; "dist"; ".tox"].

Definition should_include (p : list string) : bool :=
  negb (existsb (fun part => existsb (String.eqb part) exclude_dirs) p).

(** [[f for f in repo_root.glob(pattern) if should_include(f)]] *)
Definition globbed (repo_root : list string) (pattern : string) (w : World)
    : list (list string) :=
  List.filter should_include (glob repo_root pattern w).

(** The dictionary [languages], as its items in insertion order. *)
Definition detect_languages (repo_root : list string)
    : M (list (string * list (list string))) :=
  ask (fun w =>
    let g pattern := globbed repo_root pattern w in
    let entry (name : string) (files : list (list string)) :=
      match files with [] => [] | _ => [(name, files)] end in
    entry "python" (g "**/*.py")
    ++ entry "javascript" (g "**/*.js" ++ g "**/*.ts" ++ g "**/*.jsx" ++ g "**/*.tsx")
    ++ entry "shell" (g "**/*.sh" ++ g "**/*.bash")
    ++ entry "go" (g "**/*.go")
    ++ entry "rust" (g "**/*.rs")
    ++ entry "markdown" (g "**/*.md" ++ g "**/*.mdx")
    ++ entry "json" (g "**/*.json")
    ++ entry "yaml" (g "**/*.yml" ++ g "**/*.yaml")).

(** One installation attempt inside [try: ... except TimeoutExpired
    ... except OSError]: [Some true] is [return True]. *)
Definition attempt (a : list string) (t : nat)
    (accept : CompletedProcess -> bool) : M bool :=
  Eff.try_except
    (let* result := run a None t in Eff.ret (accept result))
    (on_timeout_or_oserror (Eff.ret false)).

(** The methods of an installer chain, tried in order until one
    returns [True]. *)
Fixpoint first_success (methods : list (M bool)) : M bool :=
  match methods with
  | [] => Eff.ret false
  | m :: rest => let* ok := m in if ok then Eff.ret true else first_success rest
  end.

Definition when_available (tool : string) (m : M bool) : M bool :=
  let* there := ask (which tool) in
  if there then m else Eff.ret false.

Definition install_python_tool (tool : string) : M bool :=
  first_success
    [ when_available "uv"
        (attempt ["uv"; "tool"; "install"; "--python"; "3.12"; tool] 120
           (fun r => (returncode r =? 0)
                     || Str.contains "already installed" (Str.lower (stderr r))));
      when_available "pipx"
        (attempt ["pipx"; "install"; tool] 120
           (fun r => (returncode r =? 0)
                     || Str.contains "already installed" (Str.lower (stderr r))
                     || Str.contains "already installed" (Str.lower (stdout r))));
      when_available "pip3"
        (attempt ["pip3"; "install"; "--user"; tool] 120
           (fun r => returncode r =? 0));
      when_available "pip"
        (attempt ["pip"; "install"; "--user"; tool] 120
           (fun r => returncode r =? 0)) ].

Definition shellcheck_installers (os_name : string) : list (string * list string) :=
  if String.eqb os_name "darwin" then
    [ ("brew", ["brew"; "install"; "shellcheck"]);
      ("port", ["sudo"; "port"; "install"; "shellcheck"]) ]
  else if String.eqb os_name "linux" then
    [ ("apt-get", ["sudo"; "apt-get"; "install"; "-y"; "shellcheck"]);
      ("dnf", ["sudo"; "dnf"; "install"; "-y"; "ShellCheck"]);
      ("yum", ["sudo"; "yum"; "install"; "-y"; "ShellCheck"]);
      ("pacman", ["sudo"; "pacman"; "-S"; "--noconfirm"; "shellcheck"]);
      ("zypper", ["sudo"; "zypper"; "install"; "-y"; "ShellCheck"]);
      ("apk", ["sudo"; "apk"; "add"; "shellcheck"]);
      ("brew", ["brew"; "install"; "shellcheck"]) ]
  else if String.eqb os_name "windows" then
    [ ("scoop", ["scoop"; "install"; "shellcheck"]);
      ("choco", ["choco"; "install"; "shellcheck"; "-y"]);
      ("winget", ["winget"; "install"; "--id"; "koalaman.shellcheck"; "-e"]) ]
  else [].

(** [rustup component add c], whose result is only printed *)
Definition rustup_component (component : string) : M unit :=
  Eff.try_except
    (let* _ := run ["rustup"; "component"; "add"; component] None 120 in Eff.ret tt)
    (on_timeout (Eff.ret tt)).

Definition ensure_linter_installed (language : string) (repo_root : list string)
    : M bool :=
  if String.eqb language "python" then
    let* has_ruff := ask (which "ruff") in
    let* ruff_ok := (if negb has_ruff then install_python_tool "ruff"
                     else Eff.ret true) in
    if negb ruff_ok then Eff.ret false
    else
      let* has_mypy := ask (which "mypy") in
      do* (if negb has_mypy
           then let* _ := install_python_tool "mypy" in Eff.ret tt
           else Eff.ret tt) in
      Eff.ret true
  else if String.eqb language "javascript" then
    let local_eslint := repo_root ++ ["node_modules"; ".bin"; "eslint"] in
    let* there := ask (fun w => path_exists local_eslint w || which "eslint" w) in
    if there then Eff.ret true
    else
      let package_json := Path.child repo_root "package.json" in
      let* has_package := ask (path_exists package_json) in
      if has_package then
        first_success
          (List.map
             (fun pkg_mgr =>
                when_available pkg_mgr
                  (let* result :=
                     run [pkg_mgr; "install"; "eslint"; "--save-dev"]
                         (Some repo_root) 120 in
                   Eff.ret (returncode result =? 0)))
             ["bun"; "npm"; "pnpm"])
      else Eff.ret false
  else if String.eqb language "shell" then
    let* there := ask (which "shellcheck") in
    if there then Eff.ret true
    else
      let* os_name := ask os_type in
      first_success
        (List.map
           (fun entry : string * list string =>
              let (pkg_mgr, cmd) := entry in
              when_available pkg_mgr
                (attempt cmd 180 (fun r => returncode r =? 0)))
           (shellcheck_installers os_name))
  else if String.eqb language "go" then
    ask (which "gofmt")
  else if String.eqb language "rust" then
    let* has_cargo := ask (which "cargo") in
    if has_cargo then
      let* has_rustup := ask (which "rustup") in
      let* has_rustfmt := ask (which "rustfmt") in
      do* (if negb has_rustfmt && has_rustup then rustup_component "rustfmt"
           else Eff.ret tt) in
      let* has_clippy := ask (which "cargo-clippy") in
      do* (if negb has_clippy && has_rustup then rustup_component "clippy"
           else Eff.ret tt) in
      Eff.ret true
    else Eff.ret false
  else if String.eqb language "markdown" then
    let* runner := ask (fun w => which "bun" w || which "npx" w) in
    if runner then Eff.ret true
    else
      let* there := ask (which "markdownlint") in
      if there then Eff.ret true
      else
        first_success
          (List.map
             (fun entry : string * list string =>
                let (pkg_mgr, cmd) := entry in
                when_available pkg_mgr
                  (attempt cmd 120 (fun r => returncode r =? 0)))
             [ ("bun", ["bun"; "add"; "-g"; "markdownlint-cli"]);
               ("npm", ["npm"; "install"; "-g"; "markdownlint-cli"]) ])
  else if String.eqb language "json" then
    Eff.ret true
  else if String.eqb language "yaml" then
    let* there := ask (which "yamllint") in
    if there then Eff.ret true
    else install_python_tool "yamllint"
  else Eff.ret false.

(** *** The linters.  Each returns [(success, files_changed)]. *)

Definition lint_python (repo_root : list string) : M (bool * bool) :=
  let files_changed := false in
  let* found :=
    Eff.try_except
      (let* _ := run ["ruff"; "check"; "--fix"; "--select=E,F,W,I";
                      Path.str repo_root] None 120 in
       Eff.ret true)
      (on_timeout_or_missing (Eff.ret true) (Eff.ret false)) in
  if negb found then Eff.ret (false, files_changed)
  else
    let* dirty := has_uncommitted_changes repo_root in
    let files_changed := if dirty then true else files_changed in
    let* has_mypy := ask (which "mypy") in
    let* typed :=
      (if has_mypy then
         Eff.try_except
           (let* result := run ["mypy"; "--ignore-missing-imports";
                                Path.str repo_root] None 180 in
            Eff.ret (returncode result =? 0))
           (on_timeout (Eff.ret true))
       else Eff.ret true) in
    if negb typed then Eff.ret (false, files_changed)
    else
      let* verified :=
        Eff.try_except
          (let* result := run ["ruff"; "check"; "--select=E,F,W";
                               Path.str repo_root] None 120 in
           Eff.ret (returncode result =? 0))
          (on_timeout (Eff.ret true)) in
      if negb verified then Eff.ret (false, files_changed)
      else
        do* Eff.try_except
              (let* _ := run ["ruff"; "format"; Path.str repo_root] None 120 in
               Eff.ret tt)
              (on_timeout (Eff.ret tt)) in
        let* dirty := has_uncommitted_changes repo_root in
        let files_changed := if dirty then true else files_changed in
        Eff.ret (true, files_changed).

(** The final check the JavaScript, Go, Rust and Markdown linters end
    with: the verdict of [cmd], or [True] if it cannot be had. *)
Definition final_check (cmd : list string) (repo_root : list string)
    (files_changed : bool) : M (bool * bool) :=
  Eff.try_except
    (let* result := run cmd (Some repo_root) 120 in
     Eff.ret (returncode result =? 0, files_changed))
    (on_timeout_or_missing (Eff.ret (true, files_changed))
                           (Eff.ret (true, files_changed))).

Definition lint_javascript (repo_root : list string) : M (bool * bool) :=
  let files_changed := false in
  let local_eslint := repo_root ++ ["node_modules"; ".bin"; "eslint"] in
  let* eslint_cmd :=
    ask (fun w =>
           if which "bun" w then Some ["bun"; "x"; "eslint"]
           else if which "npx" w then Some ["npx"; "eslint"]
           else if path_exists local_eslint w then Some [Path.str local_eslint]
           else if which "eslint" w then Some ["eslint"]
           else None) in
  match eslint_cmd with
  | None => Eff.ret (true, false)
  | Some eslint_cmd =>
      let config_files := [".eslintrc"; ".eslintrc.js"; ".eslintrc.json";
                           ".eslintrc.yml"; "eslint.config.js"] in
      let* has_config :=
        ask (fun w => existsb (fun cfg => path_exists (Path.child repo_root cfg) w)
                        config_files) in
      if negb has_config then Eff.ret (true, false)
      else
        let* found :=
          Eff.try_except
            (let* _ := run (eslint_cmd ++ ["--fix"; "."]) (Some repo_root) 120 in
             Eff.ret true)
            (on_timeout_or_missing (Eff.ret true) (Eff.ret false)) in
        if negb found then Eff.ret (true, false)
        else
          let* dirty := has_uncommitted_changes repo_root in
          let files_changed := if dirty then true else files_changed in
          final_check (eslint_cmd ++ ["."]) repo_root files_changed
  end.

Fixpoint lint_shell_files (files : list (list string)) (all_passed : bool)
    : M (bool * bool) :=
  match files with
  | [] => Eff.ret (all_passed, false)
  | f :: rest =>
      let* outcome :=
        Eff.try_except
          (let* result := run ["shellcheck"; "-x"; Path.str f] None 60 in
           Eff.ret (Some (if negb (returncode result =? 0) then false
                          else all_passed)))
          (on_timeout_or_missing (Eff.ret (Some all_passed)) (Eff.ret None)) in
      match outcome with
      | None => Eff.ret (true, false)
      | Some all_passed => lint_shell_files rest all_passed
      end
  end.

Definition lint_shell (repo_root : list string) (files : list (list string))
    : M (bool * bool) :=
  lint_shell_files files true.

Definition lint_go (repo_root : list string) : M (bool * bool) :=
  let files_changed := false in
  let* found :=
    Eff.try_except
      (let* _ := run ["gofmt"; "-w"; "."] (Some repo_root) 120 in Eff.ret true)
      (on_timeout_or_missing (Eff.ret true) (Eff.ret false)) in
  if negb found then Eff.ret (false, files_changed)
  else
    let* dirty := has_uncommitted_changes repo_root in
    let files_changed := if dirty then true else files_changed in
    final_check ["go"; "vet"; "./..."] repo_root files_changed.

Definition lint_rust (repo_root : list string) : M (bool * bool) :=
  let files_changed := false in
  let* has_manifest := ask (path_exists (Path.child repo_root "Cargo.toml")) in
  if negb has_manifest then Eff.ret (true, false)
  else
    let* found :=
      Eff.try_except
        (let* _ := run ["cargo"; "fmt"] (Some repo_root) 120 in Eff.ret true)
        (on_timeout_or_missing (Eff.ret true) (Eff.ret false)) in
    if negb found then Eff.ret (false, files_changed)
    else
      let* dirty := has_uncommitted_changes repo_root in
      let files_changed := if dirty then true else files_changed in
      do* Eff.try_except
            (let* _ := run ["cargo"; "clippy"; "--fix"; "--allow-dirty";
                            "--allow-staged"] (Some repo_root) 180 in
             Eff.ret tt)
            (on_timeout (Eff.ret tt)) in
      let* dirty := has_uncommitted_changes repo_root in
      let files_changed := if dirty then true else files_changed in
      final_check ["cargo"; "clippy"] repo_root files_changed.

Definition lint_markdown (repo_root : list string) (files : list (list string))
    : M (bool * bool) :=
  let files_changed := false in
  match files with
  | [] => Eff.ret (true, false)
  | _ =>
      let* lint_cmd :=
        ask (fun w =>
               if which "bun" w then Some ["bun"; "x"; "markdownlint-cli"]
               else if which "npx" w then Some ["npx"; "markdownlint-cli"]
               else if which "markdownlint" w then Some ["markdownlint"]
               else None) in
      match lint_cmd with
      | None => Eff.ret (true, false)
      | Some lint_cmd =>
          let file_paths := List.map Path.str files in
          let* found :=
            Eff.try_except
              (let* _ := run (lint_cmd ++ ["--fix"] ++ file_paths)
                             (Some repo_root) 120 in
               Eff.ret true)
              (on_timeout_or_missing (Eff.ret true) (Eff.ret false)) in
          if negb found then Eff.ret (true, false)
          else
            let* dirty := has_uncommitted_changes repo_root in
            let files_changed := if dirty then true else files_changed in
            final_check (lint_cmd ++ file_paths) repo_root files_changed
      end
  end.

(** The hook imports [shutil], [subprocess], [sys] and [Path] at its
    top, and [json] only inside [run_validation_cycle].  In [lint_json]
    the name [json] is therefore unbound: with a file to look at, the
    first round of the loop reaches [json.load(fp)], or, if [open]
    fails, the clause [except json.JSONDecodeError], and either one
    raises [NameError] before anything is formatted. *)
Definition lint_json (repo_root : list string) (files : list (list string))
    : M (bool * bool) :=
  match files with
  | [] => Eff.ret (true, false)
  | _ => Eff.raise NameError
  end.

(** Here and in [lint_markdown] the output of the check is split into
    lines only to print some of them; these four [split] calls are
    where the installed file stops being Python (see [pre_push_hook]). *)
Definition lint_yaml (repo_root : list string) (files : list (list string))
    : M (bool * bool) :=
  let files_changed := false in
  match files with
  | [] => Eff.ret (true, false)
  | _ =>
      let* there := ask (which "yamllint") in
      if negb there then Eff.ret (true, false)
      else
        let file_paths := List.map Path.str files in
        Eff.try_except
          (let* result :=
             run (["yamllint"; "-d"; "relaxed"; "--format"; "parsable"]
                  ++ file_paths) (Some repo_root) 120 in
           if negb (returncode result =? 0)
              && Str.contains "[error]" (stdout result)
           then Eff.ret (false, files_changed)
           else Eff.ret (true, files_changed))
          (on_timeout_or_missing (Eff.ret (true, files_changed))
                                 (Eff.ret (true, files_changed)))
  end.

(** The [if lang == ...] chain of [run_linting]; [None] is its final
    [else: continue]. *)
Definition lint_language (lang : string) (repo_root : list string)
    (files : list (list string)) : option (M (bool * bool)) :=
  if String.eqb lang "python" then Some (lint_python repo_root)
  else if String.eqb lang "javascript" then Some (lint_javascript repo_root)
  else if String.eqb lang "shell" then Some (lint_shell repo_root files)
  else if String.eqb lang "go" then Some (lint_go repo_root)
  else if String.eqb lang "rust" then Some (lint_rust repo_root)
  else if String.eqb lang "markdown" then Some (lint_markdown repo_root files)
  else if String.eqb lang "json" then Some (lint_json repo_root files)
  else if String.eqb lang "yaml" then Some (lint_yaml repo_root files)
  else None.

(** The [for lang, files in languages.items()] loop, carrying
    [all_passed] and [files_changed]. *)
Fixpoint lint_each (repo_root : list string)
    (languages : list (string * list (list string)))
    (all_passed files_changed : bool) : M (bool * bool) :=
  match languages with
  | [] => Eff.ret (all_passed, files_changed)
  | (lang, files) :: rest =>
      let* available := ensure_linter_installed lang repo_root in
      if negb available then lint_each repo_root rest all_passed files_changed
      else
        match lint_language lang repo_root files with
        | None => lint_each repo_root rest all_passed files_changed
        | Some linter =>
            let* '(passed, changed) := linter in
            let all_passed := if negb passed then false else all_passed in
            let files_changed := if changed then true else files_changed in
            lint_each repo_root rest all_passed files_changed
        end
  end.

Definition run_linting (repo_root : list string) : M (bool * bool) :=
  let files_changed := false in
  let all_passed := true in
  let* languages := detect_languages repo_root in
  match languages with
  | [] => Eff.ret (true, false)
  | _ => lint_each repo_root languages all_passed files_changed
  end.

Definition commit_message (iteration : nat) : string :=
  "chore: Auto-fix lint/format issues (iteration "
  ++ NilZero.string_of_uint (Nat.to_uint iteration) ++ ")".

Definition commit_auto_fixes (repo_root : list string) (iteration : nat) : M bool :=
  let* result := run ["git"; "add"; "-u"] (Some repo_root) 30 in
  if negb (returncode result =? 0) then Eff.ret false
  else
    let* result := run ["git"; "diff"; "--cached"; "--quiet"] (Some repo_root) 30 in
    if returncode result =? 0 then Eff.ret true
    else
      let* result := run ["git"; "commit"; "-m"; commit_message iteration;
                          "--no-verify"] (Some repo_root) 30 in
      if negb (returncode result =? 0) then Eff.ret false
      else Eff.ret true.

Definition validate_plugin (plugin_path validator : list string) : M bool :=
  let* result := run ["python3"; Path.str validator; Path.str plugin_path] None 120 in
  Eff.ret (returncode result =? 0).

Fixpoint validate_plugins (repo_root validator : list string)
    (plugins : list (option string * option string)) (issues : list string)
    : M (list string) :=
  match plugins with
  | [] => Eff.ret issues
  | (name_option, source_option) :: rest =>
      let name := match name_option with Some n => n | None => "unknown" end in
      let source := match source_option with
                    | Some src => src
                    | None => ("./" ++ name)%string
                    end in
      let plugin_path :=
        Path.join repo_root (Path.of_string (Str.lstrip_dot_slash source)) in
      let* there := ask (path_exists plugin_path) in
      if there then
        let* ok := validate_plugin plugin_path validator in
        validate_plugins repo_root validator rest
          (if ok then issues else issues ++ [name])
      else validate_plugins repo_root validator rest issues
  end.

Definition run_validation_cycle (repo_root validator : list string)
    : M (list string) :=
  let issues := [] in
  let marketplace_json := repo_root ++ [".claude-plugin"; "marketplace.json"] in
  let plugin_json := repo_root ++ [".claude-plugin"; "plugin.json"] in
  let* is_marketplace := ask (path_exists marketplace_json) in
  if is_marketplace then
    let* data := ask (marketplace_plugins marketplace_json) in
    match data with
    | inl e => Eff.raise e
    | inr plugins => validate_plugins repo_root validator plugins issues
    end
  else
    let* is_plugin := ask (path_exists plugin_json) in
    if is_plugin then
      let* ok := validate_plugin repo_root validator in
      Eff.ret (if ok then issues else issues ++ ["plugin"])
    else Eff.ret issues.

(** The [while iteration < MAX_FIX_ITERATIONS] loop of [main].  The
    result carries the value of [iteration] at the [return]; [None]
    is a loop that has used up its [fuel]. *)
Fixpoint fix_loop (fuel : nat) (repo_root validator : list string)
    (iteration : nat) : M (option (Verdict * nat)) :=
  if (iteration <? MAX_FIX_ITERATIONS)%nat then
    match fuel with
    | O => Eff.ret None
    | S fuel =>
        let iteration := S iteration in
        let* '(lint_passed, files_changed) := run_linting repo_root in
        if files_changed then
          let* committed := commit_auto_fixes repo_root iteration in
          if negb committed then Eff.ret (Some (CommitFailed, iteration))
          else fix_loop fuel repo_root validator iteration
        else if negb lint_passed then Eff.ret (Some (LintBlocked, iteration))
        else
          let* issues := run_validation_cycle repo_root validator in
          match issues with
          | [] => Eff.ret (Some (ValidationPassed, iteration))
          | _ => Eff.ret (Some (ValidationFailed issues, iteration))
          end
    end
  else Eff.ret (Some (MaxIterationsReached, iteration)).

Definition main_report : M (option (Verdict * nat)) :=
  let* repo_root := get_repo_root in
  let* validator := find_validator in
  match validator with
  | None => Eff.ret (Some (ValidatorNotFound, O))
  | Some validator => fix_loop MAX_FIX_ITERATIONS repo_root validator O
  end.

Definition main : M (option Z) :=
  let* report := main_report in
  Eff.ret (option_map (fun r => exit_code (fst r)) report).

(** *** The installed file

    [python3 file]: the interpreter compiles the whole file before it
    runs any of it, and a text the tokenizer refuses ends the process
    with [SyntaxError]: nothing of the program has run. *)
Definition python3 {A} (text : string) (program : M A) : M A :=
  match Py.unterminated text with
  | Some _ => Eff.raise SyntaxError
  | None => program
  end.

(** [.git/hooks/pre-push] as [_fix_hooks] writes it, run by Git before
    a push: [if __name__ == "__main__": sys.exit(main())]. *)
Definition pre_push_hook : M (option Z) :=
  python3 Template.PRE_PUSH_HOOK main.

(** The exit status of the interpreter: that of [sys.exit], and 1 after
    an exception nobody caught. *)
Definition exit_status (r : exn + option Z) : option Z :=
  match r with
  | inl _ => Some 1
  | inr code => code
  end.

(** *** Reading the log *)

Definition succeeded (r : exn + CompletedProcess) : bool :=
  match r with inr c => returncode c =? 0 | inl _ => false end.

(** The process ran and exited with a nonzero code. *)
Definition reported_failure (r : exn + CompletedProcess) : bool :=
  match r with inr c => negb (returncode c =? 0) | inl _ => false end.

(** [a[:len(prefix)] == prefix] *)
Fixpoint begins (prefix a : list string) : bool :=
  match prefix, a with
  | [], _ => true
  | x :: prefix', y :: a' => String.eqb x y && begins prefix' a'
  | _ :: _, [] => false
  end.

(** A [git commit] that created a commit. *)
Definition is_commit (entry : Call * (exn + CompletedProcess)) : bool :=
  begins ["git"; "commit"] (args (fst entry)) && succeeded (snd entry).

Definition commits_created (l : list (Call * (exn + CompletedProcess))) : nat :=
  List.length (List.filter is_commit l).

(** Does the process start with the words [prefix]? *)
Definition is_call (prefix : list string) (e : Call * (exn + CompletedProcess)) : bool :=
  begins prefix (args (fst e)).

(** The Git commands of the commit step: [git add], [git diff] and
    [git commit]. *)
Definition plumbing (e : Call * (exn + CompletedProcess)) : bool :=
  is_call ["git"; "add"] e || is_call ["git"; "diff"] e || is_call ["git"; "commit"] e.

(** How often the commit step was entered: its [git add -u] runs. *)
Definition staging_runs (l : list (Call * (exn + CompletedProcess))) : nat :=
  List.length (List.filter (is_call ["git"; "add"]) l).

(** How often [git diff --cached --quiet] found something staged. *)
Definition staged_changes (l : list (Call * (exn + CompletedProcess))) : nat :=
  List.length
    (List.filter (fun e => is_call ["git"; "diff"] e && reported_failure (snd e)) l).

(** Every process a computation starts satisfies [Q]: whatever the state
    it is run in, the log it leaves is the log it found followed by
    entries that satisfy [Q]. *)
Definition emits {A} (Q : Call * (exn + CompletedProcess) -> Prop) (m : M A) : Prop :=
  forall s r s', m s = (r, s') ->
    exists d, log s' = log s ++ d /\ Forall Q d.

(** An entry that is none of the commit step's Git commands. *)
Definition quiet (e : Call * (exn + CompletedProcess)) : Prop := plumbing e = false.

(** The part of the log written since it had length [n]. *)
Definition since (n : nat) (s : state) : list (Call * (exn + CompletedProcess)) :=
  skipn n (log s).

(** A hook run starts with an empty log. *)
Definition start (w : World) : state := {| world := w; log := [] |}.

(** The steps of a linter that fixes and formats. *)
Inductive Step := StepFix | StepTypecheck | StepVerify | StepFormat.

(** Which step a process is: [ruff check --fix] and [cargo clippy
    --fix] fix, [mypy] checks types, [ruff check] and [cargo clippy]
    without [--fix] verify, [ruff format] and [cargo fmt] format.  A
    [git status] query is no step. *)
Definition step_of (c : Call) : option Step :=
  let a := args c in
  if begins ["ruff"; "check"; "--fix"] a then Some StepFix
  else if begins ["ruff"; "check"] a then Some StepVerify
  else if begins ["ruff"; "format"] a then Some StepFormat
  else if begins ["mypy"] a then Some StepTypecheck
  else if begins ["cargo"; "fmt"] a then Some StepFormat
  else if begins ["cargo"; "clippy"; "--fix"] a then Some StepFix
  else if begins ["cargo"; "clippy"] a then Some StepVerify
  else None.

Fixpoint steps (l : list (Call * (exn + CompletedProcess))) : list Step :=
  match l with
  | [] => []
  | e :: rest => match step_of (fst e) with
                 | Some st => st :: steps rest
                 | None => steps rest
                 end
  end.

End Hook.

End PrePush.

(** ** The other hooks the installer writes

    The pre-commit hook ([PRE_COMMIT_HOOK]) and the two changelog hooks
    ([POST_REWRITE_HOOK], [POST_MERGE_HOOK]), over the same operating
    system as the pre-push hook. *)

Module OtherHooks.
Import PrePush.

(** What the pre-commit hook reads besides: the outcome of
    [json.load(open(f))] on a staged file ([None] when it loads,
    otherwise the exception raised with its text [str(e)]), and whether
    [re.search(pattern, line, re.IGNORECASE)] finds a match. *)
Class Inspect {os : OS} := {
  json_open : string -> World -> option (exn * string);
  re_search : string -> string -> bool
}.

Section PreCommit.

Context {os : OS} {inspect : Inspect}.

Definition is_rebase_in_progress : M bool :=
  let* result := run ["git"; "rev-parse"; "--git-dir"] None 10 in
  if negb (returncode result =? 0) then Eff.ret false
  else
    ask (fun w =>
           let git_dir :=
             Path.resolve
               (Path.join (getcwd w) (Path.of_string (Str.strip (stdout result)))) in
           existsb (fun indicator => path_exists (Path.child git_dir indicator) w)
             ["rebase-merge"; "rebase-apply"; "CHERRY_PICK_HEAD"; "MERGE_HEAD";
              "BISECT_LOG"]).

Definition get_staged_files : M (list string) :=
  let* result := run ["git"; "diff"; "--cached"; "--name-only"] None 30 in
  if returncode result =? 0 then
    Eff.ret (List.filter (fun f => negb (String.eqb f ""))
               (Str.split newline (Str.strip (stdout result))))
  else Eff.ret [].

Definition lint_python_files (files : list string) : M bool :=
  let* py_files :=
    ask (fun w => List.filter
                    (fun f => Str.endswith f ".py" && path_exists (Path.of_string f) w)
                    files) in
  match py_files with
  | [] => Eff.ret true
  | _ =>
      Eff.try_except
        (let* result := run (["ruff"; "check"] ++ py_files) None 60 in
         Eff.ret (returncode result =? 0))
        (on_timeout_or_missing (Eff.ret true) (Eff.ret true))
  end.

(** The loop of [validate_json_files] over the JSON files, collecting
    [errors]. *)
Fixpoint json_errors (json_files : list string) (errors : list string)
    : M (list string) :=
  match json_files with
  | [] => Eff.ret errors
  | f :: rest =>
      let* outcome := ask (json_open f) in
      match outcome with
      | None => json_errors rest errors
      | Some (JSONDecodeError, e) =>
          json_errors rest (errors ++ [(f ++ ": " ++ e)%string])
      | Some (FileNotFoundError, _) => json_errors rest errors
      | Some (OSError, e) =>
          json_errors rest (errors ++ [(f ++ ": I/O error: " ++ e)%string])
      | Some (e, _) => Eff.raise e
      end
  end.

(** Does [f] get through the loop without an entry in [errors]: it
    loads, or it is gone ([FileNotFoundError])? *)
Definition passes_json_check (f : string) (w : World) : bool :=
  match json_open f w with
  | None | Some (FileNotFoundError, _) => true
  | Some _ => false
  end.

Definition validate_json_files (files : list string) : M (bool * list string) :=
  let json_files := List.filter (fun f => Str.endswith f ".json") files in
  let* errors := json_errors json_files [] in
  Eff.ret ((List.length errors =? 0)%nat, errors).

(** The character class the patterns end in: a quote of either kind,
    each behind a backslash. *)
Definition quotes : string :=
  ("[\'" ++ String "092"%char (String Str.quote "]"))%string.

(** [patterns] of [check_sensitive_data], as the hook file holds them. *)
Definition patterns : list (string * string) :=
  [ (("password\s*[:=]\s*" ++ quotes ++ ".+" ++ quotes)%string, "password");
    (("api[_-]?key\s*[:=]\s*" ++ quotes ++ ".+" ++ quotes)%string, "API key");
    (("secret\s*[:=]\s*" ++ quotes ++ ".+" ++ quotes)%string, "secret");
    (("token\s*[:=]\s*" ++ quotes ++ "[a-zA-Z0-9]{20,}" ++ quotes)%string, "token") ].

(** The inner loop: the warning of the first pattern that matches. *)
Definition first_match (line : string) : list string :=
  match List.find (fun entry => re_search (fst entry) line) patterns with
  | Some (_, name) => [("Potential " ++ name ++ " detected")%string]
  | None => []
  end.

Definition excused (line : string) : bool :=
  existsb (fun x => Str.contains x (Str.lower line))
    ["example"; "placeholder"; "your_"; "<"].

Definition check_sensitive_data (diff : string) : list string :=
  List.flat_map
    (fun line =>
       if Str.startswith line "-" then []
       else if excused line then []
       else first_match line)
    (Str.split newline diff).

(** [main] of the pre-commit hook; the warnings are only printed. *)
Definition pre_commit_main : M Z :=
  let* rebasing := is_rebase_in_progress in
  if rebasing then Eff.ret 0
  else
    let failed := false in
    let* staged_files := get_staged_files in
    let* '(json_ok, json_errors) := validate_json_files staged_files in
    let failed := if json_ok then failed else true in
    let* lint_ok := lint_python_files staged_files in
    let* diff :=
      Eff.try_except
        (let* diff_result := run ["git"; "diff"; "--cached"; "-U0"] None 30 in
         Eff.ret (stdout diff_result))
        (on_timeout (Eff.ret ""%string)) in
    let warnings := check_sensitive_data diff in
    if failed then Eff.ret 1 else Eff.ret 0.

End PreCommit.

Section Changelog.

Context {os : OS}.

(** [main] of the post-rewrite hook. *)
Definition post_rewrite_main : M Z :=
  let* has_cliff := ask (which "git-cliff") in
  if negb has_cliff then Eff.ret 0
  else
    let* result := run ["git"; "rev-parse"; "--show-toplevel"] None 30 in
    let repo_root := Path.of_string (Str.strip (stdout result)) in
    let cliff_toml := Path.child repo_root "cliff.toml" in
    let* configured := ask (path_exists cliff_toml) in
    if negb configured then Eff.ret 0
    else
      let* result := run ["git-cliff"; "-o"; "CHANGELOG.md"] (Some repo_root) 60 in
      if negb (returncode result =? 0) then Eff.ret 0
      else
        let* status := run ["git"; "diff"; "--quiet"; "CHANGELOG.md"]
                           (Some repo_root) 30 in
        Eff.ret 0.

(** [main] of the post-merge hook: the same steps, with other messages. *)
Definition post_merge_main : M Z :=
  let* has_cliff := ask (which "git-cliff") in
  if negb has_cliff then Eff.ret 0
  else
    let* result := run ["git"; "rev-parse"; "--show-toplevel"] None 30 in
    let repo_root := Path.of_string (Str.strip (stdout result)) in
    let cliff_toml := Path.child repo_root "cliff.toml" in
    let* configured := ask (path_exists cliff_toml) in
    if negb configured then Eff.ret 0
    else
      let* result := run ["git-cliff"; "-o"; "CHANGELOG.md"] (Some repo_root) 60 in
      if negb (returncode result =? 0) then Eff.ret 0
      else
        let* status := run ["git"; "diff"; "--quiet"; "CHANGELOG.md"]
                           (Some repo_root) 30 in
        Eff.ret 0.

(** The processes of a changelog hook, in the order it starts them. *)
Definition changelog_commands : list (list string) :=
  [ ["git"; "rev-parse"; "--show-toplevel"];
    ["git-cliff"; "-o"; "CHANGELOG.md"];
    ["git"; "diff"; "--quiet"; "CHANGELOG.md"] ].

End Changelog.

End OtherHooks.

(** ** Reading a run of the pre-push hook *)

Module PrePushRun.
Import PrePush.

(** Does the verdict come from a round that did not reach the commit
    step (it ended at the lint check or at plugin validation)? *)
Definition ends_before_commit (v : Verdict) : bool :=
  match v with
  | LintBlocked | ValidationPassed | ValidationFailed _ => true
  | ValidatorNotFound | CommitFailed | MaxIterationsReached => false
  end.

(** The places [find_validator] looks for the validator in, for the
    repository root it was given. *)
Definition validator_candidates {os : OS} (repo_root : list string)
    : list (list string) :=
  [ repo_root ++ ["scripts"; "validate_plugin.py"];
    repo_root ++ ["claude-plugins-validation"; "scripts"; "validate_plugin.py"];
    Path.parent (Path.parent script_file) ++ ["scripts"; "validate_plugin.py"] ].

(** The words of a process in the log. *)
Definition words (e : Call * (exn + CompletedProcess)) : list string := args (fst e).

(** A [git add] that is [git add -u], and a [git commit] that carries
    [--no-verify]. *)
Definition careful (e : Call * (exn + CompletedProcess)) : Prop :=
  (is_call ["git"; "add"] e = true -> words e = ["git"; "add"; "-u"])
  /\ (is_call ["git"; "commit"] e = true -> In "--no-verify" (words e)).

(** The languages [detect_languages] knows, in the order it lists them. *)
Definition language_names : list string :=
  ["python"; "javascript"; "shell"; "go"; "rust"; "markdown"; "json"; "yaml"].

(** One item of the dictionary of [detect_languages]: a language is
    listed when it has files. *)
Definition entry (name : string) (files : list (list string))
    : list (string * list (list string)) :=
  match files with [] => [] | _ => [(name, files)] end.

(** The commands [install_python_tool] has for a tool, in the order it
    tries them. *)
Definition python_installers (tool : string) : list (list string) :=
  [ ["uv"; "tool"; "install"; "--python"; "3.12"; tool];
    ["pipx"; "install"; tool];
    ["pip3"; "install"; "--user"; tool];
    ["pip"; "install"; "--user"; tool] ].

(** The name [run_validation_cycle] reports a marketplace entry under. *)
Definition plugin_name (plugin : option string * option string) : string :=
  match fst plugin with Some n => n | None => "unknown" end.

(** A [git status] query that exited with 0 and listed a tracked file:
    what [has_uncommitted_changes] takes for a change. *)
Definition saw_change (e : Call * (exn + CompletedProcess)) : bool :=
  is_call ["git"; "status"] e
  && match snd e with
     | inr c =>
         (returncode c =? 0)
         && existsb (fun l => negb (String.eqb l "") && negb (Str.startswith l "??"))
              (Str.split newline (Str.strip (stdout c)))
     | inl _ => false
     end.

Definition changes_seen (l : list (Call * (exn + CompletedProcess))) : nat :=
  List.length (List.filter saw_change l).

(** A process that exited with a nonzero code, or whose program was not
    found. *)
Definition went_wrong (e : Call * (exn + CompletedProcess)) : bool :=
  match snd e with
  | inr c => negb (returncode c =? 0)
  | inl FileNotFoundError => true
  | inl _ => false
  end.

(** Is the process the step [st] of a linter? *)
Definition is_step (st : Step) (e : Call * (exn + CompletedProcess)) : bool :=
  match step_of (fst e), st with
  | Some StepFix, StepFix | Some StepTypecheck, StepTypecheck
  | Some StepVerify, StepVerify | Some StepFormat, StepFormat => true
  | _, _ => false
  end.

(** Did a process of the step [st] run and exit with a nonzero code? *)
Definition step_failed (st : Step) (l : list (Call * (exn + CompletedProcess)))
    : bool :=
  existsb (fun e => is_step st e && reported_failure (snd e)) l.

(** A [git rev-parse] query. *)
Definition only_rev_parse (e : Call * (exn + CompletedProcess)) : Prop :=
  is_call ["git"; "rev-parse"] e = true.

(** Any process at all. *)
Definition anything (e : Call * (exn + CompletedProcess)) : Prop := True.

Section Grounds.

Context {os : OS}.

(** A linter entered with the flag [files_changed] reports a change
    only if the flag was set or a status query has shown one. *)
Definition grounded_from (files_changed : bool) (m : M (bool * bool)) : Prop :=
  forall s r s', m s = (r, s') ->
    exists d, log s' = log s ++ d
      /\ match r with
         | inr (_, true) => files_changed = true \/ (0 < changes_seen d)%nat
         | _ => True
         end.

(** A linter entered with the flag [all_passed] reports a failure only
    if the flag was down or a process went wrong. *)
Definition caused_from (all_passed : bool) (m : M (bool * bool)) : Prop :=
  forall s r s', m s = (r, s') ->
    exists d, log s' = log s ++ d
      /\ match r with
         | inr (false, _) => all_passed = false \/ existsb went_wrong d = true
         | _ => True
         end.

(** A step that answers [False] only after a process went wrong. *)
Definition tells (m : M bool) : Prop :=
  forall s r s', m s = (r, s') ->
    exists d, log s' = log s ++ d
      /\ match r with
         | inr false => existsb went_wrong d = true
         | _ => True
         end.

End Grounds.

End PrePushRun.

(** ** Reading the tree the way [validate] does *)

Module PipelineRun.
Import Pipeline.

Section Reading.

Variable self : PipelineSetup.
Variable fs : gmap (list string) node.

(** No [post-commit] hook, and each required hook there and executable. *)
Definition hooks_in_order : bool :=
  let hooks_dir := _get_hooks_dir self fs in
  negb (exists_ fs (Path.child hooks_dir "post-commit"))
  && forallb (fun hook : string * string =>
                exists_ fs (Path.child hooks_dir (fst hook))
                && access_x fs (Path.child hooks_dir (fst hook)))
       required_hooks.

(** A submodule without a [post-commit] hook in its hooks directory. *)
Definition submodule_in_order (submodule : string) : bool :=
  let hooks_dir := submodule_hooks_dir self submodule in
  negb (exists_ fs hooks_dir && exists_ fs (Path.child hooks_dir "post-commit")).

End Reading.

(** [after] is [before] with, at most, empty directories added. *)
Definition only_new_dirs (before after : gmap (list string) node) : Prop :=
  forall p, match before !! p with
            | Some n => after !! p = Some n
            | None => after !! p = None \/ after !! p = Some (Dir rwx O)
            end.

(** The issue [_fix_hook] records when it cannot install a hook. *)
Definition install_failure (i : PipelineIssue) : Prop :=
  level i = CRITICAL /\ component i = "hooks" /\ fix_available i = false.

(** [after] is the status [before] with install failures appended. *)
Definition gains (before after : state) : Prop :=
  project_type (status after) = project_type (status before)
  /\ status_path (status after) = status_path (status before)
  /\ hooks_installed (status after) = hooks_installed (status before)
  /\ config_files (status after) = config_files (status before)
  /\ submodules (status after) = submodules (status before)
  /\ exists extra, issues (status after) = issues (status before) ++ extra
                   /\ Forall install_failure extra.

(** The status is as it was. *)
Definition same_status (before after : state) : Prop :=
  status after = status before.

(** [after] differs from [before] by new empty directories at most. *)
Definition dry (before after : state) : Prop :=
  status after = status before /\ only_new_dirs (tree before) (tree after).

(** The tree has, at most, gained empty directories. *)
Definition dry_tree (before after : state) : Prop :=
  only_new_dirs (tree before) (tree after).

(** Every run of [m] leaves a state that [R] relates to the one it
    started in, whether it returns or raises. *)
Definition keeps {A} (R : state -> state -> Prop) (m : M A) : Prop :=
  forall s, R s (snd (m s)).

(** The bare example plugin with the status of a new [PipelineSetup]. *)
Definition fresh_plugin : state :=
  {| tree := bare_plugin; status := new_status plugin_root |}.

End PipelineRun.

(** * Facts about the validator and fixer *)

Module PipelineFacts.
Import Pipeline.

Lemma blocking_spec (i : PipelineIssue) :
    blocking i = true <-> level i = CRITICAL \/ level i = MAJOR.
Proof.
  unfold blocking. destruct (level i); simpl; split; intros H;
    try tauto; try discriminate; destruct H; discriminate.
Qed.

(** C6: a status is valid exactly when none of its issues is critical
    or major; minor and informational issues play no part. *)
Theorem is_valid_iff_no_blocking_issue (st : PipelineStatus) :
    is_valid st = true <->
    ~ exists i, In i (issues st) /\ (level i = CRITICAL \/ level i = MAJOR).
Proof.
  unfold is_valid. rewrite negb_true_iff. split.
  - intros H [i [Hin Hl]].
    assert (existsb blocking (issues st) = true) as E.
    { apply existsb_exists. exists i. split; [assumption | now apply blocking_spec]. }
    congruence.
  - intros H. destruct (existsb blocking (issues st)) eqn:E; [| reflexivity].
    exfalso. apply H. apply existsb_exists in E as [i [Hin Hb]].
    exists i. split; [assumption | now apply blocking_spec].
Qed.

(** Folding a step that keeps a component of the status keeps it. *)
Lemma fold_keeps {X B} (proj : PipelineStatus -> B)
    (g : PipelineStatus -> X -> PipelineStatus) :
  (forall st x, proj (g st x) = proj st) ->
  forall l st, proj (fold_left g l st) = proj st.
Proof.
  intros Hg l. induction l as [| x l IH]; intros st; simpl; [reflexivity |].
  now rewrite IH, Hg.
Qed.

(** Folding a step that only appends issues only appends issues. *)
Lemma fold_extends {X} (g : PipelineStatus -> X -> PipelineStatus) :
  (forall st x, exists d, issues (g st x) = issues st ++ d) ->
  forall l st, exists d, issues (fold_left g l st) = issues st ++ d.
Proof.
  intros Hg l. induction l as [| x l IH]; intros st; simpl.
  - exists []. now rewrite app_nil_r.
  - destruct (IH (g st x)) as [d Hd]. destruct (Hg st x) as [d' Hd'].
    exists (d' ++ d). now rewrite Hd, Hd', app_assoc.
Qed.

(** Folding a step whose findings do not depend on the status appends
    the findings of each element in turn. *)
Lemma fold_appends {X} (g : PipelineStatus -> X -> PipelineStatus)
    (G : X -> list PipelineIssue) :
  (forall st x, issues (g st x) = issues st ++ G x) ->
  forall l st, issues (fold_left g l st) = issues st ++ flat_map G l.
Proof.
  intros Hg l. induction l as [| x l IH]; intros st; simpl.
  - now rewrite app_nil_r.
  - now rewrite IH, Hg, app_assoc.
Qed.

Ltac branches :=
  repeat match goal with
         | |- context [if ?b then _ else _] => destruct b
         | |- context [match ?o with Some _ => _ | None => _ end] => destruct o
         end.

Section OneTree.

Variable configparser_sections : string -> option (list (string * option string)).
Variable self : PipelineSetup.
Variable fs : gmap (list string) node.

Lemma validate_hook_issues d st h :
  issues (_validate_hook fs d st h) = issues st ++ issues (_validate_hook fs d (new_status []) h).
Proof. destruct h as [n desc]. unfold _validate_hook. branches; simpl; now rewrite ?app_nil_r. Qed.

Lemma validate_hook_keeps {B} (proj : PipelineStatus -> B) d :
  (forall i st, proj (add_issue i st) = proj st) ->
  (forall k v st, proj (set_hook k v st) = proj st) ->
  forall st h, proj (_validate_hook fs d st h) = proj st.
Proof.
  intros Ha Hs st [n desc]. unfold _validate_hook.
  branches; now rewrite ?Ha, ?Hs.
Qed.

Lemma validate_hook_hooks d st h :
  hooks_installed (_validate_hook fs d st h)
  = <[fst h := exists_ fs (Path.child d (fst h))]> (hooks_installed st).
Proof. destruct h as [n desc]. unfold _validate_hook. branches; reflexivity. Qed.

(** Folding a step that rewrites the hooks map by [H] folds [H]. *)
Lemma fold_hooks {X} (g : PipelineStatus -> X -> PipelineStatus)
    (H : X -> gmap string bool -> gmap string bool) :
  (forall st x, hooks_installed (g st x) = H x (hooks_installed st)) ->
  forall l st, hooks_installed (fold_left g l st)
               = fold_left (fun m x => H x m) l (hooks_installed st).
Proof.
  intros Hg l. induction l as [| x l IH]; intros st; simpl; [reflexivity |].
  now rewrite IH, Hg.
Qed.

Lemma validate_hooks_issues st :
  issues (_validate_hooks self fs st)
  = issues st ++ issues (_validate_hooks self fs (new_status [])).
Proof.
  unfold _validate_hooks.
  rewrite !(fold_appends _ _ (validate_hook_issues _)).
  branches; simpl; now rewrite <- ?app_assoc.
Qed.

Lemma validate_hooks_keeps {B} (proj : PipelineStatus -> B) :
  (forall i st, proj (add_issue i st) = proj st) ->
  (forall k v st, proj (set_hook k v st) = proj st) ->
  forall st, proj (_validate_hooks self fs st) = proj st.
Proof.
  intros Ha Hs st. unfold _validate_hooks.
  rewrite (fold_keeps proj _ (validate_hook_keeps proj _ Ha Hs)).
  branches; now rewrite ?Ha.
Qed.

Lemma validate_hooks_hooks st :
  hooks_installed (_validate_hooks self fs st)
  = fold_left (fun m h => <[fst h := exists_ fs (Path.child (_get_hooks_dir self fs) (fst h))]> m)
      required_hooks (hooks_installed st).
Proof.
  unfold _validate_hooks.
  rewrite (fold_hooks _
             (fun h m => <[fst h := exists_ fs (Path.child (_get_hooks_dir self fs) (fst h))]> m)
             (validate_hook_hooks _)).
  branches; reflexivity.
Qed.

Lemma validate_config_issues st :
  issues (_validate_config_files self fs st)
  = issues st ++ issues (_validate_config_files self fs (new_status [])).
Proof.
  unfold _validate_config_files. simpl fold_left.
  branches; simpl. all: rewrite <- ?app_assoc, ?app_nil_r. all: reflexivity.
Qed.

Lemma validate_config_keeps {B} (proj : PipelineStatus -> B) :
  (forall i st, proj (add_issue i st) = proj st) ->
  (forall k v st, proj (set_config k v st) = proj st) ->
  forall st, proj (_validate_config_files self fs st) = proj st.
Proof.
  intros Ha Hs st. unfold _validate_config_files. simpl fold_left.
  branches; repeat (rewrite Ha || rewrite Hs); reflexivity.
Qed.

Lemma validate_config_config st :
  config_files (_validate_config_files self fs st)
  = config_files (_validate_config_files self fs (new_status []))
    ∪ config_files st.
Proof.
  unfold _validate_config_files. simpl fold_left.
  branches; simpl; apply map_eq; intros k;
    rewrite ?lookup_union, ?lookup_insert, ?lookup_empty;
    repeat case_decide; simpl; try reflexivity;
    now destruct (config_files st !! k).
Qed.

Lemma validate_submodule_keeps {B} (proj : PipelineStatus -> B) :
  (forall i st, proj (add_issue i st) = proj st) ->
  forall st sub, proj (_validate_submodule self fs st sub) = proj st.
Proof.
  intros Ha st sub. unfold _validate_submodule. simpl fold_left.
  branches; repeat rewrite Ha; reflexivity.
Qed.

Lemma validate_submodule_extends st sub :
  exists d, issues (_validate_submodule self fs st sub) = issues st ++ d.
Proof.
  unfold _validate_submodule. simpl fold_left.
  branches; simpl; rewrite <- ?app_assoc; eexists; reflexivity || (rewrite app_nil_r; reflexivity).
Qed.

Lemma validate_submodules_keeps {B} (proj : PipelineStatus -> B) :
  (forall i st, proj (add_issue i st) = proj st) ->
  forall st, proj (_validate_submodule_hooks self fs st) = proj st.
Proof.
  intros Ha st. unfold _validate_submodule_hooks.
  apply fold_keeps. now apply validate_submodule_keeps.
Qed.

Lemma validate_submodules_extends st :
  exists d, issues (_validate_submodule_hooks self fs st) = issues st ++ d.
Proof. apply fold_extends. apply validate_submodule_extends. Qed.

Lemma detect_submodules_keeps {B} (proj : PipelineStatus -> B) :
  (forall p st, proj (add_submodule p st) = proj st) ->
  forall st, proj (_detect_submodules configparser_sections self fs st) = proj st.
Proof.
  intros Ha st. unfold _detect_submodules.
  destruct (negb _); [reflexivity |].
  destruct (match read_text fs _ with Some _ => _ | None => _ end); [| reflexivity].
  apply fold_keeps. intros st' [section path_option].
  branches; now rewrite ?Ha.
Qed.

(** The type [detect_project_type] finds is read off the tree alone. *)
Lemma detect_type st st' :
  project_type (detect_project_type configparser_sections self fs st)
  = project_type (detect_project_type configparser_sections self fs st').
Proof.
  unfold detect_project_type.
  branches; rewrite ?detect_submodules_keeps; reflexivity.
Qed.

Lemma detect_keeps {B} (proj : PipelineStatus -> B) :
  (forall p st, proj (add_submodule p st) = proj st) ->
  (forall t st, proj (set_project_type t st) = proj st) ->
  forall st, proj (detect_project_type configparser_sections self fs st) = proj st.
Proof.
  intros Ha Ht st. unfold detect_project_type.
  branches; rewrite ?detect_submodules_keeps, ?Ht; auto.
Qed.

(** The check that the project is a Git repository. *)
Lemma git_check_keeps {B} (proj : PipelineStatus -> B) (b : bool) i st :
  (forall i st, proj (add_issue i st) = proj st) ->
  proj (if b then add_issue i st else st) = proj st.
Proof. intros Ha. destruct b; now rewrite ?Ha. Qed.

Lemma validate_type st :
  project_type (validate configparser_sections self fs st)
  = project_type (detect_project_type configparser_sections self fs st).
Proof.
  unfold validate.
  destruct (ProjectType_eqb _ UNKNOWN); [reflexivity |].
  destruct (ProjectType_eqb _ MARKETPLACE);
    rewrite ?validate_submodules_keeps, validate_config_keeps,
      validate_hooks_keeps, git_check_keeps by reflexivity; reflexivity.
Qed.

Lemma validate_hooks_map st :
  hooks_installed (validate configparser_sections self fs st)
  = if ProjectType_eqb
         (project_type (detect_project_type configparser_sections self fs st)) UNKNOWN
    then hooks_installed st
    else fold_left
           (fun m h => <[fst h := exists_ fs (Path.child (_get_hooks_dir self fs) (fst h))]> m)
           required_hooks (hooks_installed st).
Proof.
  unfold validate.
  destruct (ProjectType_eqb _ UNKNOWN).
  - simpl. now rewrite detect_keeps.
  - destruct (ProjectType_eqb _ MARKETPLACE);
      rewrite ?validate_submodules_keeps, validate_config_keeps by reflexivity;
      rewrite validate_hooks_hooks, git_check_keeps, detect_keeps by reflexivity;
      reflexivity.
Qed.

Lemma validate_config_map st :
  config_files (validate configparser_sections self fs st)
  = if ProjectType_eqb
         (project_type (detect_project_type configparser_sections self fs st)) UNKNOWN
    then config_files st
    else config_files (_validate_config_files self fs (new_status []))
         ∪ config_files st.
Proof.
  unfold validate.
  destruct (ProjectType_eqb _ UNKNOWN).
  - simpl. now rewrite detect_keeps.
  - destruct (ProjectType_eqb _ MARKETPLACE);
      rewrite ?validate_submodules_keeps by reflexivity;
      rewrite validate_config_config, validate_hooks_keeps, git_check_keeps,
        detect_keeps by reflexivity;
      reflexivity.
Qed.

Lemma validate_extends st :
  exists d, issues (validate configparser_sections self fs st) = issues st ++ d.
Proof.
  unfold validate.
  destruct (ProjectType_eqb _ UNKNOWN).
  - simpl. rewrite detect_keeps by reflexivity. eexists; reflexivity.
  - match goal with
    | |- context [_validate_config_files self fs ?x] => set (st3 := x)
    end.
    assert (exists d, issues (_validate_config_files self fs st3) = issues st ++ d) as [d Hd].
    { rewrite validate_config_issues. subst st3. rewrite validate_hooks_issues.
      match goal with
      | |- context [if ?b then add_issue ?i ?x else ?x] =>
          assert (exists d, issues (if b then add_issue i x else x) = issues st ++ d) as [d Hd]
      end.
      { destruct (negb _); simpl; rewrite detect_keeps by reflexivity;
          eexists; reflexivity || (rewrite app_nil_r; reflexivity). }
      rewrite Hd, <- !app_assoc. eexists; reflexivity. }
    destruct (ProjectType_eqb _ MARKETPLACE).
    + destruct (validate_submodules_extends (_validate_config_files self fs st3)) as [d' Hd'].
      rewrite Hd', Hd, <- app_assoc. eexists; reflexivity.
    + eexists; eassumption.
Qed.

Ltac plain_case :=
  lazymatch goal with
  | |- issues (_validate_config_files _ _ (_validate_hooks _ _ ?x))
       = _ ++ issues (_validate_config_files _ _ (_validate_hooks _ _ ?y)) =>
      rewrite (validate_config_issues (_validate_hooks self fs x)),
        (validate_config_issues (_validate_hooks self fs y)),
        (validate_hooks_issues x), (validate_hooks_issues y)
  end;
  destruct (negb _); simpl; rewrite !detect_keeps by reflexivity; simpl;
  now rewrite <- ?app_assoc.

(** Outside a marketplace the findings of [validate] do not depend on
    the status it starts from. *)
Lemma validate_issues_plain st :
  project_type (validate configparser_sections self fs st) <> MARKETPLACE ->
  issues (validate configparser_sections self fs st)
  = issues st ++ issues (validate configparser_sections self fs (new_status [])).
Proof.
  rewrite validate_type. intros Hm.
  unfold validate.
  repeat (rewrite (validate_config_keeps project_type) by reflexivity).
  repeat (rewrite (validate_hooks_keeps project_type) by reflexivity).
  repeat (rewrite (git_check_keeps project_type) by reflexivity).
  rewrite (detect_type (new_status []) st).
  destruct (project_type (detect_project_type configparser_sections self fs st)) eqn:E;
    try congruence; simpl ProjectType_eqb; cbv iota.
  - plain_case.
  - plain_case.
  - simpl. now rewrite !detect_keeps by reflexivity.
Qed.

End OneTree.





(** Where [_get_hooks_dir] returns, it returns what the total function
    of the validation section gives. *)
Lemma get_hooks_dir_where_it_returns (self : PipelineSetup)
    (fs : gmap (list string) node) (d : list string) :
  Raising._get_hooks_dir self fs = inr d -> _get_hooks_dir self fs = d.
Proof.
  unfold Raising._get_hooks_dir, _get_hooks_dir.
  destruct (stat_denied fs _); [discriminate |].
  destruct (is_file fs _); [| congruence].
  destruct (read_text fs _) as [text |]; [| congruence].
  destruct (Str.startswith _ _); [| congruence].
  destruct (has_nul _); [discriminate | congruence].
Qed.

(** C10: [_get_hooks_dir] raises.  With a [.git] file that reads
    [gitdir: a], NUL, [b], the text passes the test for the redirection
    prefix, [resolve] is called on a path that holds NUL and its
    [ValueError] leaves the function; in a project below a directory
    that may not be searched, [is_file] raises [PermissionError] before
    the [try] is entered.  With the ordinary redirection the function
    returns the resolved target. *)
Theorem get_hooks_dir_raises :
  Raising._get_hooks_dir submodule_setup nul_git_file = inl ValueError
  /\ Raising._get_hooks_dir submodule_setup closed_checkout = inl PermissionError
  /\ Raising._get_hooks_dir submodule_setup submodule_checkout
     = inr ["/"; "work"; "market"; ".git"; "modules"; "plugin"; "hooks"].
Proof. split; [| split]; vm_compute; reflexivity. Qed.

Ltac run_step :=
  match goal with
  | |- context [fix_ ?t ?s ?x] =>
      let e := fresh "e" in let n := fresh "n" in let s' := fresh "s" in
      destruct (fix_ t s x) as [[e | n] s']
  | |- context [if ?b then _ else _] => let E := fresh "E" in destruct b eqn:E
  | |- context [match ?l with [] => _ | _ :: _ => _ end] => destruct l
  end.

Ltac settle :=
  simpl in *;
  first
    [ split;
      [ intros H;
        first [ discriminate H | split; [eexists; reflexivity | congruence] ]
      | intros [[c Hc] Hv]; congruence ]
    | intros c Hc; congruence ].

(** C8 (amended): a path that does not exist exits with 1.  On an
    existing path, with [--json], [--validate] or [--fix] the exit code is
    0 exactly when the run completes and the final status is valid; in the
    default setup mode a run that completes returns 0 whatever the
    status. *)
Theorem exit_code_of_main
    (configparser_sections : string -> option (list (string * option string)))
    (tpl : Templates) (args : Args) (t : gmap (list string) node) :
  let r := run_main configparser_sections tpl args t in
  (exists_ t (path args) = false -> fst r = inr 1%Z)
  /\ (exists_ t (path args) = true ->
      (arg_json args || arg_validate args || arg_fix args = true ->
       (exit_code (fst r) = 0%Z
        <-> (exists c, fst r = inr c) /\ is_valid (status (snd r)) = true))
      /\ (arg_json args || arg_validate args || arg_fix args = false ->
          forall c, fst r = inr c -> c = 0%Z)).
Proof.
  intros r. subst r.
  unfold run_main, main, exit_status, run_validate, on_tree, on_status.
  unfold Eff.bind, Eff.gets, Eff.modify, Eff.ret. simpl.
  split; intros Hpath; rewrite Hpath; simpl; [reflexivity |].
  destruct (arg_json args), (arg_validate args), (arg_fix args); simpl;
    (split; intros Hm; try discriminate Hm; clear Hm).
  all: unfold Eff.bind, Eff.gets, Eff.modify, Eff.ret; simpl.
  all: repeat run_step.
  all: settle.
Qed.

(** C8: in the default setup mode the exit code says nothing about
    validity.  On a directory that is no plugin the status carries a
    critical issue, [fix] cannot do anything, and [main] still returns 0. *)
Lemma default_mode_exits_zero_when_invalid :
  let r := run_main no_sections example_templates default_args not_a_plugin in
  fst r = inr 0 /\ is_valid (status (snd r)) = false.
Proof. vm_compute. split; reflexivity. Qed.

Lemma exit_code_of_main_witness :
  (let r := run_main no_sections example_templates validate_args bare_plugin in
   exit_code (fst r) = 0
   <-> (exists c, fst r = inr c) /\ is_valid (status (snd r)) = true)
  /\ fst (run_main no_sections example_templates validate_args ∅) = inr 1.
Proof.
  split.
  - apply (proj1 (proj2 (exit_code_of_main no_sections example_templates validate_args
                           bare_plugin) eq_refl)).
    reflexivity.
  - apply (proj1 (exit_code_of_main no_sections example_templates validate_args ∅)).
    reflexivity.
Defined.



(** C3: [fix] is not idempotent.  The markers it looks for in
    [.gitignore] before appending include [.mypy_cache], which the text
    it appends does not contain: on the configured plugin the first [fix]
    creates [.gitignore], and the second one, on the tree the first one
    left, appends the same text again and returns 1. *)
Theorem fix_twice_appends_again (tpl : Templates) :
  let s0 := {| tree := configured_plugin;
               status := validate no_sections plugin_setup configured_plugin
                           (new_status plugin_root) |} in
  let s1 := snd (fix_ tpl plugin_setup s0) in
  let s2 := snd (fix_ tpl plugin_setup s1) in
  Str.contains ".mypy_cache" GITIGNORE_ADDITIONS = false
  /\ fst (fix_ tpl plugin_setup s0) = inr 1%nat
  /\ read_text (tree s1) (plugin_root ++ [".gitignore"]) = Some GITIGNORE_ADDITIONS
  /\ fst (fix_ tpl plugin_setup s1) = inr 1%nat
  /\ read_text (tree s2) (plugin_root ++ [".gitignore"])
     = Some (GITIGNORE_ADDITIONS ++ newline ++ GITIGNORE_ADDITIONS)%string.
Proof.
  cbv zeta.
  split; [vm_compute; reflexivity |].
  split; [vm_compute; reflexivity |].
  split; [vm_compute; reflexivity |].
  split; vm_compute; reflexivity.
Qed.

(** C5: [validate] does not apply the size floor.  With a nine-byte
    executable [pre-commit], validation records the hook as installed,
    raises no issue about hooks and finds the pipeline valid, while
    [_hook_is_valid], which [_fix_hooks] consults, rejects the same file. *)
Theorem stub_hook_passes_validation :
  let hook := plugin_root ++ [".git"; "hooks"; "pre-commit"] in
  let st := validate no_sections plugin_setup stub_hook_plugin (new_status plugin_root) in
  st_size stub_hook_plugin hook = 9%nat
  /\ access_x stub_hook_plugin hook = true
  /\ _hook_is_valid stub_hook_plugin hook = false
  /\ hooks_installed st !! "pre-commit" = Some true
  /\ List.filter (fun i => String.eqb (component i) "hooks") (issues st) = []
  /\ is_valid st = true.
Proof. vm_compute. repeat split; reflexivity. Qed.

End PipelineFacts.

(** * Facts about the pre-push hook *)

Module PrePushFacts.
Import PrePush.

Section Log.

Context {os : OS}.

Variable Q : Call * (exn + CompletedProcess) -> Prop.

Lemma emits_ret {A} (a : A) : emits Q (Eff.ret a).
Proof.
  intros s r s' H. injection H as <- <-. exists []. now rewrite app_nil_r.
Qed.

Lemma emits_raise {A} (e : exn) : emits Q (@Eff.raise state exn A e).
Proof.
  intros s r s' H. injection H as <- <-. exists []. now rewrite app_nil_r.
Qed.

Lemma emits_ask {A} (f : World -> A) : emits Q (ask f).
Proof.
  intros s r s' H. injection H as <- <-. exists []. now rewrite app_nil_r.
Qed.

Lemma emits_bind {A B} (m : M A) (k : A -> M B) :
  emits Q m -> (forall a, emits Q (k a)) -> emits Q (Eff.bind m k).
Proof.
  intros Hm Hk s r s' H. unfold Eff.bind in H.
  destruct (m s) as [[e | a] s1] eqn:E.
  - injection H as <- <-. exact (Hm _ _ _ E).
  - destruct (Hm _ _ _ E) as [d1 [H1 F1]].
    destruct (Hk a _ _ _ H) as [d2 [H2 F2]].
    exists (d1 ++ d2). split.
    + now rewrite H2, H1, app_assoc.
    + now apply Forall_app.
Qed.

Lemma emits_try_except {A} (m : M A) (h : exn -> option (M A)) :
  emits Q m -> (forall e k, h e = Some k -> emits Q k) ->
  emits Q (Eff.try_except m h).
Proof.
  intros Hm Hh s r s' H. unfold Eff.try_except in H.
  destruct (m s) as [[e | a] s1] eqn:E.
  - destruct (h e) as [k |] eqn:Ek.
    + destruct (Hm _ _ _ E) as [d1 [H1 F1]].
      destruct (Hh e k Ek _ _ _ H) as [d2 [H2 F2]].
      exists (d1 ++ d2). split.
      * now rewrite H2, H1, app_assoc.
      * now apply Forall_app.
    + injection H as <- <-. exact (Hm _ _ _ E).
  - injection H as <- <-. exact (Hm _ _ _ E).
Qed.

Lemma emits_run (a : list string) (d : option (list string)) (t : nat) :
  (forall r, Q ({| args := a; cwd := d; timeout := t |}, r)) ->
  emits Q (run a d t).
Proof.
  intros Hq s r s' H. unfold run in H.
  destruct (subprocess_run _ (world s)) as [r0 w].
  injection H as <- <-. simpl. eexists. split; [reflexivity |].
  constructor; [apply Hq | constructor].
Qed.

Lemma emits_on_timeout {A} (h : M A) e k :
  emits Q h -> on_timeout h e = Some k -> emits Q k.
Proof. intros Hh. destruct e; simpl; intros H; try discriminate H; now injection H as <-. Qed.

Lemma emits_on_timeout_or_oserror {A} (h : M A) e k :
  emits Q h -> on_timeout_or_oserror h e = Some k -> emits Q k.
Proof. intros Hh. destruct e; simpl; intros H; try discriminate H; now injection H as <-. Qed.

Lemma emits_on_timeout_or_missing {A} (h1 h2 : M A) e k :
  emits Q h1 -> emits Q h2 -> on_timeout_or_missing h1 h2 e = Some k -> emits Q k.
Proof.
  intros H1 H2. destruct e; simpl; intros H; try discriminate H; now injection H as <-.
Qed.

Lemma emits_first_success (methods : list (M bool)) :
  Forall (emits Q) methods -> emits Q (first_success methods).
Proof.
  induction 1 as [| m rest Hm Hrest IH]; simpl.
  - apply emits_ret.
  - apply emits_bind; [assumption |]. intros [|]; [apply emits_ret | assumption].
Qed.

Lemma emits_first_existing (candidates : list (list string)) :
  emits Q (first_existing candidates).
Proof.
  induction candidates as [| c rest IH]; simpl.
  - apply emits_ret.
  - apply emits_bind; [apply emits_ask |]. intros [|]; [apply emits_ret | assumption].
Qed.

Lemma emits_bind_ask {A B} (f : World -> A) (k : A -> M B) :
  (forall w, emits Q (k (f w))) -> emits Q (Eff.bind (ask f) k).
Proof.
  intros Hk s r s' H. unfold Eff.bind, ask, Eff.gets in H.
  exact (Hk (world s) _ _ _ H).
Qed.

End Log.

(** *** Linting leaves the commit step's Git commands alone *)

Section Quiet.

Context {os : OS}.

Create HintDb emits.

Ltac not_plumbing :=
  intros ?; unfold quiet, plumbing, is_call; simpl;
  rewrite ?andb_false_r; reflexivity.

Ltac emits_step :=
  lazymatch goal with
  | |- emits _ (Eff.ret _) => apply emits_ret
  | |- emits _ (Eff.raise _) => apply emits_raise
  | |- emits _ (Eff.bind (ask _) _) => apply emits_bind_ask; intros ?
  | |- emits _ (ask _) => apply emits_ask
  | |- emits _ (Eff.bind _ _) => apply emits_bind; [| intros ?]
  | |- emits _ (Eff.try_except _ (on_timeout _)) =>
      apply emits_try_except;
      [| let e := fresh in let k := fresh in let E := fresh in
         intros e k E; eapply emits_on_timeout; [| exact E]]
  | |- emits _ (Eff.try_except _ (on_timeout_or_oserror _)) =>
      apply emits_try_except;
      [| let e := fresh in let k := fresh in let E := fresh in
         intros e k E; eapply emits_on_timeout_or_oserror; [| exact E]]
  | |- emits _ (Eff.try_except _ (on_timeout_or_missing _ _)) =>
      apply emits_try_except;
      [| let e := fresh in let k := fresh in let E := fresh in
         intros e k E; eapply emits_on_timeout_or_missing; [| | exact E]]
  | |- emits _ (run _ _ _) => apply emits_run; not_plumbing
  | |- emits _ (first_success _) =>
      apply emits_first_success;
      repeat match goal with
             | |- Forall _ (map _ (if ?b then _ else _)) => destruct b
             end;
      simpl; repeat constructor
  | |- emits _ (when_available _ _) => unfold when_available
  | |- emits _ (attempt _ _ _) => unfold attempt
  | |- emits _ (if ?b then _ else _) => destruct b
  | |- emits _ (match (if ?b then _ else _) with _ => _ end) => destruct b
  | |- emits _ (match ?x with _ => _ end) => destruct x
  | |- emits _ _ => solve [auto with emits]
  end.

Ltac emits_all := cbv zeta; repeat emits_step.

Lemma has_uncommitted_changes_quiet root : emits quiet (has_uncommitted_changes root).
Proof. unfold has_uncommitted_changes. emits_all. Qed.
Hint Resolve has_uncommitted_changes_quiet : emits.

Lemma install_python_tool_quiet tool : emits quiet (install_python_tool tool).
Proof. unfold install_python_tool. emits_all. Qed.
Hint Resolve install_python_tool_quiet : emits.

Lemma rustup_component_quiet c : emits quiet (rustup_component c).
Proof. unfold rustup_component. emits_all. Qed.
Hint Resolve rustup_component_quiet : emits.

Lemma ensure_linter_installed_quiet language root :
  emits quiet (ensure_linter_installed language root).
Proof.
  unfold ensure_linter_installed, shellcheck_installers. emits_all.
Qed.
Hint Resolve ensure_linter_installed_quiet : emits.

Lemma final_check_quiet cmd root changed :
  (forall r, quiet ({| args := cmd; cwd := Some root; timeout := 120 |}, r)) ->
  emits quiet (final_check cmd root changed).
Proof.
  intros Hc. unfold final_check.
  apply emits_try_except.
  - apply emits_bind; [now apply emits_run | intros ?; apply emits_ret].
  - intros e k E. eapply emits_on_timeout_or_missing; [| | exact E]; apply emits_ret.
Qed.

Ltac emits_final :=
  lazymatch goal with
  | |- emits _ (final_check _ _ _) => apply final_check_quiet; not_plumbing
  end.

Ltac emits_more := cbv zeta; repeat first [emits_final | emits_step].

Lemma lint_python_quiet root : emits quiet (lint_python root).
Proof. unfold lint_python. emits_more. Qed.

Lemma lint_javascript_quiet root : emits quiet (lint_javascript root).
Proof. unfold lint_javascript. emits_more. Qed.

Lemma lint_shell_files_quiet files all_passed :
  emits quiet (lint_shell_files files all_passed).
Proof.
  revert all_passed. induction files as [| f rest IH]; intros all_passed; simpl.
  - apply emits_ret.
  - emits_more.
Qed.

Lemma lint_go_quiet root : emits quiet (lint_go root).
Proof. unfold lint_go. emits_more. Qed.

Lemma lint_rust_quiet root : emits quiet (lint_rust root).
Proof. unfold lint_rust. emits_more. Qed.

Lemma lint_markdown_quiet root files : emits quiet (lint_markdown root files).
Proof. unfold lint_markdown. emits_more. Qed.

Lemma lint_json_quiet root files : emits quiet (lint_json root files).
Proof. unfold lint_json. emits_more. Qed.

Lemma lint_yaml_quiet root files : emits quiet (lint_yaml root files).
Proof. unfold lint_yaml. emits_more. Qed.

Lemma lint_language_quiet lang root files linter :
  lint_language lang root files = Some linter -> emits quiet linter.
Proof.
  unfold lint_language.
  repeat match goal with
         | |- (if ?b then _ else _) = _ -> _ => destruct b
         end;
    intros H; try discriminate H; injection H as <-.
  - apply lint_python_quiet.
  - apply lint_javascript_quiet.
  - apply lint_shell_files_quiet.
  - apply lint_go_quiet.
  - apply lint_rust_quiet.
  - apply lint_markdown_quiet.
  - apply lint_json_quiet.
  - apply lint_yaml_quiet.
Qed.

Lemma lint_each_quiet root languages all_passed files_changed :
  emits quiet (lint_each root languages all_passed files_changed).
Proof.
  revert all_passed files_changed.
  induction languages as [| [lang files] rest IH]; intros all_passed files_changed; simpl.
  - apply emits_ret.
  - apply emits_bind; [apply ensure_linter_installed_quiet |].
    intros [|]; simpl; [| apply IH].
    destruct (lint_language lang root files) as [linter |] eqn:E; [| apply IH].
    apply emits_bind; [exact (lint_language_quiet _ _ _ _ E) |].
    intros [passed changed]. apply IH.
Qed.

(** [run_linting] never stages, diffs the index or commits. *)
Lemma run_linting_quiet root : emits quiet (run_linting root).
Proof.
  unfold run_linting. cbv zeta.
  apply emits_bind; [apply emits_ask |].
  intros [| l rest]; [apply emits_ret | apply lint_each_quiet].
Qed.

End Quiet.

(** *** The commit step and the loop *)

Section Loop.

Context {os : OS}.

Lemma quiet_counts (d : list (Call * (exn + CompletedProcess))) :
  Forall quiet d ->
  staging_runs d = 0%nat /\ commits_created d = 0%nat /\ staged_changes d = 0%nat.
Proof.
  unfold staging_runs, commits_created, staged_changes.
  induction 1 as [| e d He Hd IH]; simpl; [auto |].
  unfold quiet, plumbing in He.
  apply orb_false_iff in He as [He Hc]. apply orb_false_iff in He as [Ha Hd'].
  unfold is_commit. fold (is_call ["git"; "commit"] e).
  rewrite Ha, Hd', Hc. simpl. exact IH.
Qed.

Lemma staging_runs_app (a b : list (Call * (exn + CompletedProcess))) :
  staging_runs (a ++ b) = (staging_runs a + staging_runs b)%nat.
Proof. unfold staging_runs. now rewrite List.filter_app, List.length_app. Qed.

Lemma commits_created_app (a b : list (Call * (exn + CompletedProcess))) :
  commits_created (a ++ b) = (commits_created a + commits_created b)%nat.
Proof. unfold commits_created. now rewrite List.filter_app, List.length_app. Qed.

Lemma staged_changes_app (a b : list (Call * (exn + CompletedProcess))) :
  staged_changes (a ++ b) = (staged_changes a + staged_changes b)%nat.
Proof. unfold staged_changes. now rewrite List.filter_app, List.length_app. Qed.

(** A commit step that returns [True] has staged once, and has created
    a commit exactly when it found something staged. *)
Lemma commit_auto_fixes_log root iteration s s' :
  commit_auto_fixes root iteration s = (inr true, s') ->
  exists d, log s' = log s ++ d
            /\ staging_runs d = 1%nat
            /\ commits_created d = staged_changes d
            /\ (commits_created d <= 1)%nat.
Proof.
  unfold commit_auto_fixes, Eff.bind, run, Eff.ret.
  destruct (subprocess_run _ (world s)) as [[e | add] w1]; [discriminate |].
  simpl. destruct (returncode add =? 0) eqn:Eadd; simpl; [| discriminate].
  destruct (subprocess_run _ w1) as [[e | diff] w2]; [discriminate |].
  simpl. destruct (returncode diff =? 0) eqn:Ediff; simpl.
  - intros H. injection H as <-. simpl. rewrite <- app_assoc. eexists. split; [reflexivity |].
    unfold staging_runs, commits_created, staged_changes, is_commit, is_call; simpl.
    rewrite Ediff. simpl. auto.
  - destruct (subprocess_run _ w2) as [[e | commit] w3]; [discriminate |].
    simpl. destruct (returncode commit =? 0) eqn:Ecommit; simpl; [| discriminate].
    intros H. injection H as <-. simpl. rewrite <- !app_assoc. eexists. split; [reflexivity |].
    unfold staging_runs, commits_created, staged_changes, is_commit, is_call; simpl.
    rewrite Ediff, Ecommit. simpl. auto.
Qed.

Lemma fix_loop_at_bound fuel root validator s :
  fix_loop fuel root validator MAX_FIX_ITERATIONS s
  = (inr (Some (MaxIterationsReached, MAX_FIX_ITERATIONS)), s).
Proof. destruct fuel; reflexivity. Qed.

(** With fuel for every iteration the bound allows, the loop returns. *)
Lemma fix_loop_returns root validator fuel :
  forall iteration s,
    (MAX_FIX_ITERATIONS <= fuel + iteration)%nat ->
    fst (fix_loop fuel root validator iteration s) <> inr None.
Proof.
  induction fuel as [| fuel IH]; intros iteration s Hf.
  - simpl. destruct (iteration <? MAX_FIX_ITERATIONS)%nat eqn:E; [| discriminate].
    apply Nat.ltb_lt in E. lia.
  - simpl. destruct (iteration <? MAX_FIX_ITERATIONS)%nat eqn:E; [| discriminate].
    unfold Eff.bind at 1.
    destruct (run_linting root s) as [[e | [passed [|]]] s1]; [discriminate | |].
    + unfold Eff.bind at 1.
      destruct (commit_auto_fixes root (S iteration) s1) as [[e | [|]] s2];
        simpl; try discriminate.
      apply IH. lia.
    + destruct passed; simpl; [| discriminate].
      unfold Eff.bind.
      destruct (run_validation_cycle root validator s1) as [[e | [| i l]] s2];
        discriminate.
Qed.

Lemma main_report_returns (s : state) : fst (main_report s) <> inr None.
Proof.
  unfold main_report, Eff.bind.
  destruct (get_repo_root s) as [[e | root] s1]; [discriminate |].
  destruct (find_validator s1) as [[e | [validator |]] s2]; try discriminate.
  apply fix_loop_returns. unfold MAX_FIX_ITERATIONS. lia.
Qed.

End Loop.

(** *** The installed file *)

Section Installed.

Context {os : OS}.

(** Line 771 of the installed file is line 1081 of the script.  The
    literal spells the separator with one backslash, so the file has a
    line end there, inside a string literal; lines 774, 881 and 888 are
    alike. *)
Lemma line_771_of_the_hook :
  nth_error Template.PRE_PUSH_HOOK_lines 770
  = Some "            lines = result.stdout.strip().split(`\n`)[:5]".
Proof. reflexivity. Qed.

Lemma pre_push_hook_does_not_compile :
  Py.unterminated Template.PRE_PUSH_HOOK = Some 771%nat.
Proof. vm_compute. reflexivity. Qed.

(** The literal uses two escape sequences only, the doubled backslash
    and the line end: [Py.literal] leaves out none that it has. *)
Lemma escapes_of_the_hook :
  forallb (fun c => Ascii.eqb c Py.backslash || Ascii.eqb c "n")
    (Py.escapes (Template.requote (Template.unlines Template.PRE_PUSH_HOOK_lines)))
  = true.
Proof. vm_compute. reflexivity. Qed.

Lemma pre_push_hook_stops_at_once (s : state) :
  pre_push_hook s = (inl SyntaxError, s).
Proof.
  unfold pre_push_hook, python3.
  rewrite pre_push_hook_does_not_compile. reflexivity.
Qed.




Lemma lint_each_stops_at_json root files :
  files <> [] ->
  forall languages all_passed files_changed (s : state),
    In ("json", files) languages ->
    forall result, fst (lint_each root languages all_passed files_changed s)
                   <> inr result.
Proof.
  intros Hfiles.
  induction languages as [| [lang fs] rest IH];
    intros all_passed files_changed s Hin result; [destruct Hin |].
  destruct Hin as [Hhere | Hrest].
  - injection Hhere as -> ->.
    cbn [lint_each].
    change (ensure_linter_installed "json" root) with (@Eff.ret state exn bool true).
    change (lint_language "json" root files) with (Some (lint_json root files)).
    unfold lint_json. destruct files as [| f l]; [contradiction |].
    discriminate.
  - cbn [lint_each]. unfold Eff.bind at 1.
    destruct (ensure_linter_installed lang root s) as [[e | [|]] s1];
      cbn [negb]; [discriminate | | now apply IH].
    destruct (lint_language lang root fs) as [linter |]; [| now apply IH].
    unfold Eff.bind at 1.
    destruct (linter s1) as [[e | [passed changed]] s2]; [discriminate |].
    now apply IH.
Qed.


End Installed.

End PrePushFacts.

(** * More facts about the hooks *)

Module HookLogFacts.
Import PrePush PrePushFacts OtherHooks.

Section Weaken.

Context {os : OS}.

Lemma emits_weaken {A} (Q Q' : Call * (exn + CompletedProcess) -> Prop) (m : M A) :
  (forall e, Q e -> Q' e) -> emits Q m -> emits Q' m.
Proof.
  intros HQ Hm s r s' H. destruct (Hm s r s' H) as [d [Hd Fd]].
  exists d. split; [exact Hd |]. eapply Forall_impl; eauto.
Qed.

End Weaken.

(** One step of a proof that a computation emits only [Q]-entries;
    [check] proves [Q] of a process whose words are known. *)
Ltac emits_with check :=
  cbv zeta;
  repeat
    lazymatch goal with
    | |- emits _ (Eff.ret _) => apply emits_ret
    | |- emits _ (Eff.raise _) => apply emits_raise
    | |- emits _ (Eff.bind (ask _) _) => apply emits_bind_ask; intros ?
    | |- emits _ (ask _) => apply emits_ask
    | |- emits _ (Eff.bind _ _) => apply emits_bind; [| intros ?]
    | |- emits _ (Eff.try_except _ (on_timeout _)) =>
        apply emits_try_except;
        [| let e := fresh in let k := fresh in let E := fresh in
           intros e k E; eapply emits_on_timeout; [| exact E]]
    | |- emits _ (Eff.try_except _ (on_timeout_or_oserror _)) =>
        apply emits_try_except;
        [| let e := fresh in let k := fresh in let E := fresh in
           intros e k E; eapply emits_on_timeout_or_oserror; [| exact E]]
    | |- emits _ (Eff.try_except _ (on_timeout_or_missing _ _)) =>
        apply emits_try_except;
        [| let e := fresh in let k := fresh in let E := fresh in
           intros e k E; eapply emits_on_timeout_or_missing; [| | exact E]]
    | |- emits _ (run _ _ _) => apply emits_run; intros ?; check
    | |- emits _ (first_success _) =>
        apply emits_first_success;
        repeat match goal with
               | |- Forall _ (map _ (if ?b then _ else _)) => destruct b
               end;
        simpl; repeat constructor
    | |- emits _ (when_available _ _) => unfold when_available
    | |- emits _ (attempt _ _ _) => unfold attempt
    | |- emits _ (if ?b then _ else _) => destruct b
    | |- emits _ (match (if ?b then _ else _) with _ => _ end) => destruct b
    | |- emits _ (match ?x with _ => _ end) => destruct x
    | |- emits _ _ => solve [auto]
    end.

Ltac check_quiet :=
  unfold quiet, plumbing, is_call; simpl; rewrite ?andb_false_r; reflexivity.

Section Quiet.

Context {os : OS}.

Lemma get_repo_root_quiet : emits quiet get_repo_root.
Proof. unfold get_repo_root. emits_with check_quiet. Qed.

Lemma find_validator_quiet : emits quiet find_validator.
Proof.
  unfold find_validator.
  apply emits_bind; [apply get_repo_root_quiet | intros ?; apply emits_first_existing].
Qed.

Lemma validate_plugin_quiet p v : emits quiet (validate_plugin p v).
Proof. unfold validate_plugin. emits_with check_quiet. Qed.

Lemma validate_plugins_quiet root v plugins issues :
  emits quiet (validate_plugins root v plugins issues).
Proof.
  revert issues. induction plugins as [| [n src] rest IH]; intros issues; simpl.
  - apply emits_ret.
  - apply emits_bind_ask. intros w. destruct (path_exists _ w); [| apply IH].
    apply emits_bind; [apply validate_plugin_quiet | intros ?; apply IH].
Qed.

Lemma run_validation_cycle_quiet root v : emits quiet (run_validation_cycle root v).
Proof.
  unfold run_validation_cycle. cbv zeta.
  apply emits_bind_ask. intros w. destruct (path_exists _ w).
  - apply emits_bind_ask. intros w'. destruct (marketplace_plugins _ w').
    + apply emits_raise.
    + apply validate_plugins_quiet.
  - apply emits_bind_ask. intros w'. destruct (path_exists _ w'); [| apply emits_ret].
    apply emits_bind; [apply validate_plugin_quiet | intros ?; apply emits_ret].
Qed.

(** The commit step stages exactly once, whatever its outcome, and
    creates at most one commit. *)
Lemma commit_auto_fixes_counts root iteration s r s' :
  commit_auto_fixes root iteration s = (r, s') ->
  exists d, log s' = log s ++ d
            /\ staging_runs d = 1%nat /\ (commits_created d <= 1)%nat.
Proof.
  unfold commit_auto_fixes, Eff.bind, run, Eff.ret.
  destruct (subprocess_run _ (world s)) as [[e | add] w1]; simpl.
  { intros H. injection H as <- <-. simpl. eexists. split; [reflexivity |].
    unfold staging_runs, commits_created, is_commit, is_call. simpl. lia. }
  destruct (returncode add =? 0); simpl.
  2:{ intros H. injection H as <- <-. simpl. eexists. split; [reflexivity |].
      unfold staging_runs, commits_created, is_commit, is_call. simpl. lia. }
  destruct (subprocess_run _ w1) as [[e | diff] w2]; simpl.
  { intros H. injection H as <- <-. simpl. rewrite <- app_assoc.
    eexists. split; [reflexivity |].
    unfold staging_runs, commits_created, is_commit, is_call. simpl. lia. }
  destruct (returncode diff =? 0); simpl.
  { intros H. injection H as <- <-. simpl. rewrite <- app_assoc.
    eexists. split; [reflexivity |].
    unfold staging_runs, commits_created, is_commit, is_call. simpl. lia. }
  destruct (subprocess_run _ w2) as [[e | commit] w3]; simpl.
  { intros H. injection H as <- <-. simpl. rewrite <- !app_assoc.
    eexists. split; [reflexivity |].
    unfold staging_runs, commits_created, is_commit, is_call. simpl. lia. }
  destruct (returncode commit =? 0) eqn:E; simpl;
    intros H; injection H as <- <-; simpl; rewrite <- !app_assoc;
    (eexists; split; [reflexivity |]);
    unfold staging_runs, commits_created, is_commit, is_call; simpl;
    rewrite ?E; simpl; lia.
Qed.

End Quiet.

(** *** The loop, round by round *)

Section Accounting.

Context {os : OS}.

Import PrePushRun.

Lemma quiet_log root s r s' :
  run_linting root s = (r, s') ->
  exists d, log s' = log s ++ d /\ staging_runs d = 0%nat /\ commits_created d = 0%nat.
Proof.
  intros H. destruct (run_linting_quiet root _ _ _ H) as [d [Hd Q]].
  destruct (quiet_counts d Q) as [S0 [C0 _]]. eauto.
Qed.

Lemma quiet_validation root v s r s' :
  run_validation_cycle root v s = (r, s') ->
  exists d, log s' = log s ++ d /\ staging_runs d = 0%nat /\ commits_created d = 0%nat.
Proof.
  intros H. destruct (run_validation_cycle_quiet root v _ _ _ H) as [d [Hd Q]].
  destruct (quiet_counts d Q) as [S0 [C0 _]]. eauto.
Qed.

Ltac glue :=
  repeat match goal with
         | H : log ?a = log ?b ++ _ |- context [log ?a] => rewrite H
         end;
  rewrite <- ?app_assoc.

(** Whatever the tools do, the loop from [iteration] on enters the
    commit step at most once per remaining iteration, and when it
    returns a verdict the iteration counter tells how often it did. *)
Lemma fix_loop_accounting root validator fuel :
  forall iteration s r s',
    (iteration <= MAX_FIX_ITERATIONS)%nat ->
    fix_loop fuel root validator iteration s = (r, s') ->
    exists d, log s' = log s ++ d
      /\ (staging_runs d + iteration <= MAX_FIX_ITERATIONS)%nat
      /\ (commits_created d <= staging_runs d)%nat
      /\ (forall v n, r = inr (Some (v, n)) ->
            (n <= MAX_FIX_ITERATIONS)%nat
            /\ (staging_runs d + iteration
                + (if ends_before_commit v then 1 else 0))%nat = n
            /\ v <> ValidatorNotFound).
Proof.
  unfold MAX_FIX_ITERATIONS.
  induction fuel as [| fuel IH]; intros iteration s r s' Hi.
  - simpl. unfold MAX_FIX_ITERATIONS. destruct (iteration <? 5)%nat eqn:E;
      intros H; injection H as <- <-; exists []; rewrite app_nil_r;
      (split; [reflexivity |]); simpl; change (commits_created []) with 0%nat;
      change (staging_runs []) with 0%nat; (split; [lia |]); (split; [lia |]);
      intros v n Hv; try discriminate Hv.
    injection Hv as <- <-. apply Nat.ltb_ge in E. simpl. repeat split; try lia.
    discriminate.
  - simpl. unfold MAX_FIX_ITERATIONS. destruct (iteration <? 5)%nat eqn:E.
    2:{ intros H. injection H as <- <-. exists []. rewrite app_nil_r.
        split; [reflexivity |]. simpl. change (commits_created []) with 0%nat.
        change (staging_runs []) with 0%nat. split; [lia |]. split; [lia |].
        intros v n Hv. injection Hv as <- <-. apply Nat.ltb_ge in E. simpl.
        repeat split; try lia. discriminate. }
    apply Nat.ltb_lt in E.
    unfold Eff.bind at 1.
    destruct (run_linting root s) as [[e | [passed changed]] s1] eqn:El;
      destruct (quiet_log _ _ _ _ El) as [d1 [H1 [S1 C1]]].
    { intros H. injection H as <- <-. exists d1. split; [exact H1 |].
      split; [lia |]. split; [lia |]. intros v n Hv. discriminate Hv. }
    destruct changed.
    + unfold Eff.bind at 1.
      destruct (commit_auto_fixes root (S iteration) s1) as [[e | committed] s2] eqn:Ec;
        destruct (commit_auto_fixes_counts _ _ _ _ _ Ec) as [d2 [H2 [S2 C2]]].
      { intros H. injection H as <- <-. exists (d1 ++ d2). split; [glue; reflexivity |].
        rewrite staging_runs_app, commits_created_app.
        split; [lia |]. split; [lia |]. intros v n Hv. discriminate Hv. }
      destruct committed; simpl.
      * intros H. destruct (IH (S iteration) s2 r s' ltac:(lia) H)
          as [d3 [H3 [S3 [C3 V3]]]].
        exists (d1 ++ d2 ++ d3). split; [glue; reflexivity |].
        rewrite !staging_runs_app, !commits_created_app.
        split; [lia |]. split; [lia |]. intros v n Hv.
        destruct (V3 v n Hv) as [Hn [Hs Hv']]. repeat split; try lia. exact Hv'.
      * intros H. injection H as <- <-. exists (d1 ++ d2). split; [glue; reflexivity |].
        rewrite staging_runs_app, commits_created_app.
        split; [lia |]. split; [lia |]. intros v n Hv. injection Hv as <- <-.
        simpl. repeat split; try lia. discriminate.
    + destruct passed; simpl.
      2:{ intros H. injection H as <- <-. exists d1. split; [exact H1 |].
          split; [lia |]. split; [lia |]. intros v n Hv. injection Hv as <- <-.
          simpl. repeat split; try lia. discriminate. }
      unfold Eff.bind.
      destruct (run_validation_cycle root validator s1) as [[e | issues] s2] eqn:Ev;
        destruct (quiet_validation _ _ _ _ _ Ev) as [d2 [H2 [S2 C2]]].
      { intros H. injection H as <- <-. exists (d1 ++ d2). split; [glue; reflexivity |].
        rewrite staging_runs_app, commits_created_app.
        split; [lia |]. split; [lia |]. intros v n Hv. discriminate Hv. }
      destruct issues; intros H; injection H as <- <-;
        exists (d1 ++ d2); (split; [glue; reflexivity |]);
        rewrite staging_runs_app, commits_created_app;
        (split; [lia |]); (split; [lia |]); intros v n Hv; injection Hv as <- <-;
        simpl; repeat split; try lia; discriminate.
Qed.

End Accounting.

(** *** The whole run *)

Section WholeRun.

Context {os : OS}.

Import PrePushRun.

Lemma since_app (s s' : state) d :
  log s' = log s ++ d -> since (List.length (log s)) s' = d.
Proof. intros H. unfold since. rewrite H. apply drop_app_length. Qed.

Lemma quiet_counts_of {A} (m : M A) s r s' :
  emits quiet m -> m s = (r, s') ->
  exists d, log s' = log s ++ d /\ staging_runs d = 0%nat /\ commits_created d = 0%nat.
Proof.
  intros Hm H. destruct (Hm _ _ _ H) as [d [Hd Q]].
  destruct (quiet_counts d Q) as [S0 [C0 _]]. eauto.
Qed.

(** X1: whatever the tools do, one run of the pre-push hook returns
    (the loop never outlives its bound), enters the commit step at most
    [MAX_FIX_ITERATIONS] times and creates at most one commit per commit
    step.  When it returns a verdict at iteration [n], the commit step
    has run [n] times, or [n - 1] times if the last round ended at the
    lint check or at plugin validation. *)
Theorem push_hook_accounting (s : state) :
  let r := main_report s in
  let d := since (List.length (log s)) (snd r) in
  log (snd r) = log s ++ d
  /\ (staging_runs d <= MAX_FIX_ITERATIONS)%nat
  /\ (commits_created d <= staging_runs d)%nat
  /\ match fst r with
     | inr (Some (v, n)) =>
         (n <= MAX_FIX_ITERATIONS)%nat
         /\ (staging_runs d + (if ends_before_commit v then 1 else 0))%nat = n
     | inr None => False
     | inl _ => True
     end.
Proof.
  cbv zeta.
  assert (exists d, log (snd (main_report s)) = log s ++ d
            /\ (staging_runs d <= MAX_FIX_ITERATIONS)%nat
            /\ (commits_created d <= staging_runs d)%nat
            /\ match fst (main_report s) with
               | inr (Some (v, n)) =>
                   (n <= MAX_FIX_ITERATIONS)%nat
                   /\ (staging_runs d + (if ends_before_commit v then 1 else 0))%nat = n
               | inr None => False
               | inl _ => True
               end) as [d [Hd Hrest]].
  2:{ rewrite (since_app _ _ _ Hd). split; [exact Hd | exact Hrest]. }
  unfold main_report, Eff.bind.
  destruct (get_repo_root s) as [[e | root] s1] eqn:E1;
    destruct (quiet_counts_of _ _ _ _ get_repo_root_quiet E1) as [d1 [H1 [S1 C1]]].
  { simpl. exists d1. repeat split; try lia; assumption. }
  destruct (find_validator s1) as [[e | [validator |]] s2] eqn:E2;
    destruct (quiet_counts_of _ _ _ _ find_validator_quiet E2) as [d2 [H2 [S2 C2]]].
  - simpl. exists (d1 ++ d2). rewrite H2, H1, <- app_assoc.
    rewrite staging_runs_app, commits_created_app. repeat split; try lia.
  - destruct (fix_loop MAX_FIX_ITERATIONS root validator 0 s2) as [r s3] eqn:E3.
    destruct (fix_loop_accounting root validator _ _ _ _ _ (Nat.le_0_l _) E3)
      as [d3 [H3 [S3 [C3 V3]]]].
    pose proof (fix_loop_returns root validator MAX_FIX_ITERATIONS 0%nat s2
                  ltac:(lia)) as Hret.
    rewrite E3 in Hret. simpl in *.
    exists (d1 ++ d2 ++ d3). rewrite H3, H2, H1, <- !app_assoc.
    rewrite !staging_runs_app, !commits_created_app.
    split; [reflexivity |]. split; [lia |]. split; [lia |].
    destruct r as [e | [[v n] |]]; [exact I | | congruence].
    destruct (V3 v n eq_refl) as [Hn [Hs _]]. split; [exact Hn | lia].
  - simpl. exists (d1 ++ d2). rewrite H2, H1, <- app_assoc.
    rewrite staging_runs_app, commits_created_app.
    change (ends_before_commit ValidatorNotFound) with false.
    repeat split; try lia.
Qed.

End WholeRun.

(** *** What the hook stages and commits *)

Section Careful.

Context {os : OS}.

Import PrePushRun.

Lemma quiet_careful e : quiet e -> careful e.
Proof.
  unfold quiet, plumbing, careful. intros H.
  apply orb_false_iff in H as [H Hc]. apply orb_false_iff in H as [Ha _].
  split; intros E; congruence.
Qed.

Ltac check_careful :=
  unfold careful, words, is_call; simpl;
  split; intros H; first [discriminate H | reflexivity | simpl; auto 10].

Lemma commit_auto_fixes_careful root iteration :
  emits careful (commit_auto_fixes root iteration).
Proof. unfold commit_auto_fixes. emits_with check_careful. Qed.

Lemma fix_loop_careful root validator fuel :
  forall iteration, emits careful (fix_loop fuel root validator iteration).
Proof.
  induction fuel as [| fuel IH]; intros iteration; simpl;
    destruct (iteration <? MAX_FIX_ITERATIONS)%nat; try apply emits_ret.
  apply emits_bind.
  { apply (emits_weaken quiet); [apply quiet_careful | apply run_linting_quiet]. }
  intros [passed [|]].
  - apply emits_bind; [apply commit_auto_fixes_careful |].
    intros [|]; simpl; [apply IH | apply emits_ret].
  - destruct passed; simpl; [| apply emits_ret].
    apply emits_bind.
    { apply (emits_weaken quiet); [apply quiet_careful | apply run_validation_cycle_quiet]. }
    intros [| i l]; apply emits_ret.
Qed.

Lemma main_report_careful : emits careful main_report.
Proof.
  unfold main_report.
  apply emits_bind.
  { apply (emits_weaken quiet); [apply quiet_careful | apply get_repo_root_quiet]. }
  intros root. apply emits_bind.
  { apply (emits_weaken quiet); [apply quiet_careful | apply find_validator_quiet]. }
  intros [validator |]; [apply fix_loop_careful | apply emits_ret].
Qed.

(** X2: in a run of the pre-push hook, whatever the tools do, every
    [git add] is [git add -u] (untracked files are never staged) and
    every [git commit] carries [--no-verify] (the commit never re-enters
    the hooks). *)
Theorem push_hook_stages_tracked_and_skips_hooks (s : state) :
  let s' := snd (main_report s) in
  let d := since (List.length (log s)) s' in
  log s' = log s ++ d /\ Forall careful d.
Proof.
  cbv zeta. destruct (main_report s) as [r s'] eqn:E. simpl.
  destruct (main_report_careful _ _ _ E) as [d [Hd Fd]].
  rewrite (since_app _ _ _ Hd). auto.
Qed.

Lemma get_repo_root_only_rev_parse : emits only_rev_parse get_repo_root.
Proof. unfold get_repo_root. emits_with ltac:(reflexivity). Qed.

Lemma find_validator_only_rev_parse : emits only_rev_parse find_validator.
Proof.
  unfold find_validator.
  apply emits_bind; [apply get_repo_root_only_rev_parse |].
  intros ?; apply emits_first_existing.
Qed.

Lemma first_existing_none (candidates : list (list string)) (s : state) :
  existsb (fun c => path_exists c (world s)) candidates = false ->
  first_existing candidates s = (inr None, s).
Proof.
  induction candidates as [| c rest IH]; intros H; [reflexivity |].
  cbn [existsb] in H. apply orb_false_iff in H as [Hc Hrest].
  cbn [first_existing]. unfold Eff.bind, ask, Eff.gets. rewrite Hc. now apply IH.
Qed.

(** X3: without a validator the hook is written to let the push
    through on the spot.  [main] asks for the repository root, and so
    does [find_validator] after it; if none of the three places that
    [find_validator] then looks in holds the script, the run starts no
    process but [git rev-parse] queries (no linter, no commit, no
    validation), and where [main] returns it returns 0, the verdict
    being reached before the first round. *)
Theorem push_hook_without_validator (s : state) :
  let asked := get_repo_root (snd (get_repo_root s)) in
  let r := main_report s in
  let d := since (List.length (log s)) (snd r) in
  match fst asked with
  | inr root =>
      if existsb (fun c => path_exists c (world (snd asked)))
           (PrePushRun.validator_candidates root)
      then True
      else log (snd r) = log s ++ d
           /\ Forall only_rev_parse d
           /\ match fst r with
              | inr report => report = Some (ValidatorNotFound, 0%nat)
              | inl _ => True
              end
           /\ match fst (main s) with
              | inr code => code = Some 0
              | inl _ => True
              end
  | inl _ => True
  end.
Proof.
  cbv zeta. unfold main, main_report, find_validator. unfold Eff.bind.
  destruct (get_repo_root s) as [[e1 | root1] s1] eqn:E1; cbn [fst snd];
    destruct (get_repo_root_only_rev_parse _ _ _ E1) as [d1 [H1 F1]];
    destruct (get_repo_root s1) as [[e2 | root] s2] eqn:E2; cbn [fst snd];
    try exact I;
    destruct (get_repo_root_only_rev_parse _ _ _ E2) as [d2 [H2 F2]];
    destruct (existsb _ (PrePushRun.validator_candidates root)) eqn:Ex;
    try exact I.
  - rewrite (since_app _ _ _ H1). auto.
  - unfold PrePushRun.validator_candidates in Ex.
    rewrite (first_existing_none _ _ Ex). cbn [fst snd Eff.ret].
    assert (log s2 = log s ++ d1 ++ d2) as Hd by (rewrite H2, H1, app_assoc; reflexivity).
    rewrite (since_app _ _ _ Hd).
    repeat split; try assumption. now apply Forall_app.
Qed.

End Careful.

(** *** The parts of a lint round *)

Section Parts.

Context {os : OS}.

Import PrePushRun.

Lemma Forall_filter_true {X} (p : X -> bool) (l : list X) :
  Forall (fun x => p x = true) (List.filter p l).
Proof.
  induction l as [| x l IH]; simpl; [constructor |].
  destruct (p x) eqn:E; [constructor |]; assumption.
Qed.

Lemma entry_listed name files :
  Forall (fun f => should_include f = true) files ->
  Forall (fun e : string * list (list string) =>
            snd e <> [] /\ Forall (fun f => should_include f = true) (snd e))
    (entry name files).
Proof.
  intros H. destruct files as [| f l]; [constructor |].
  constructor; [| constructor]. split; [discriminate | exact H].
Qed.

Lemma entry_name name files : sublist (List.map fst (entry name files)) [name].
Proof.
  destruct files; simpl; [apply sublist_nil_l | reflexivity].
Qed.

(** X8: [detect_languages] reads and changes nothing; the languages it
    lists come in the fixed order python, javascript, shell, go, rust,
    markdown, json, yaml, each at most once; every language listed has
    at least one file, and no file listed lies under an excluded
    directory ([.venv], [node_modules], [.git], ...). *)
Theorem detect_languages_listing (root : list string) (s : state) :
  let r := detect_languages root s in
  snd r = s
  /\ match fst r with
     | inr languages =>
         sublist (List.map fst languages) language_names
         /\ Forall (fun e => snd e <> []
                             /\ Forall (fun f => should_include f = true) (snd e))
              languages
     | inl _ => False
     end.
Proof.
  cbv zeta. unfold detect_languages, ask, Eff.gets. cbn [fst snd].
  split; [reflexivity |].
  pose proof (fun pattern => Forall_filter_true should_include
                               (glob root pattern (world s))) as G.
  repeat match goal with
         | |- context [match ?l with [] => [] | _ :: _ => [(?n, ?l)] end] =>
             change (match l with [] => [] | _ :: _ => [(n, l)] end) with (entry n l)
         end.
  split.
  - rewrite !map_app.
    change language_names
      with (["python"] ++ ["javascript"] ++ ["shell"] ++ ["go"] ++ ["rust"]
            ++ ["markdown"] ++ ["json"] ++ ["yaml"]).
    repeat (apply sublist_app; [apply entry_name |]). apply entry_name.
  - repeat (apply Forall_app; split);
      apply entry_listed; repeat (apply Forall_app; split); apply G.
Qed.

(** One method of an installer chain: without its program on the
    [PATH] it starts nothing, and with it one process. *)
Lemma method_log tool a t accept (s : state) :
  let r := when_available tool (attempt a t accept) s in
  (which tool (world s) = false /\ r = (inr false, s))
  \/ exists res w,
       snd r = {| world := w;
                  log := log s ++ [({| args := a; cwd := None; timeout := t |}, res)] |}
       /\ match fst r with
          | inr true => exists c, res = inr c
          | inr false => True
          | inl e => e <> TimeoutExpired /\ is_OSError e = false
          end.
Proof.
  cbv zeta. unfold when_available, attempt, Eff.bind, Eff.try_except, run, ask, Eff.gets.
  cbn [fst snd].
  destruct (which tool (world s)); [| left; split; reflexivity].
  right. destruct (subprocess_run _ (world s)) as [[e | c] w].
  - exists (inl e), w. destruct e; simpl; repeat split; discriminate.
  - exists (inr c), w. simpl. split; [reflexivity |].
    destruct (accept c); eauto.
Qed.

Ltac next_method :=
  match goal with
  | |- context [when_available ?tool (attempt ?a ?t ?accept) ?s] =>
      let H := fresh "H" in let W := fresh "W" in
      let res := fresh "res" in let w := fresh "w" in let E := fresh "E" in
      destruct (method_log tool a t accept s) as [[W H] | (res & w & E & H)];
      [ rewrite H
      | destruct (when_available tool (attempt a t accept) s) as [[? | [|]] ?];
        cbn [fst snd] in E, H; subst ]
  end; cbn [fst snd log world] in *.

(** An installer that is always on the [PATH] was not found missing. *)
Ltac was_tried :=
  let cmd := fresh "cmd" in let Hin := fresh "Hin" in let Hw := fresh "Hw" in
  intros cmd Hin Hw;
  repeat (destruct Hin as [<- | Hin]); [.. | destruct Hin];
  cbn [hd] in Hw;
  first [ solve [cbn [List.map words fst args app In]; auto 10]
        | exfalso;
          repeat match goal with
                 | W : which _ _ = false |- _ => rewrite Hw in W; discriminate W
                 end ].

Ltac read_installs :=
  unfold since; cbn [log];
  rewrite <- ?app_assoc;
  first [rewrite drop_app_length | rewrite drop_all, ?app_nil_r];
  split; [reflexivity |];
  split;
  [ cbn [List.map words fst args app];
    repeat first [apply sublist_nil_l | apply sublist_skip | apply sublist_cons]
  | first [ exact I | assumption
          | match goal with
            | H : exists c, _ = inr c |- _ => destruct H as [? ->]; simpl; eauto
            end
          | was_tried ] ].

(** X9: [install_python_tool] tries [uv], [pipx], [pip3] and [pip] in
    this order, each at most once, and starts nothing else.  It returns
    [False] only when it is through with the four: an installer that is
    on the [PATH] whenever it is asked for has then been started.  When
    it returns [True] the last process it started has run to its end; a
    timeout or an [OSError] of an installer never escapes. *)
Theorem install_python_tool_order (tool : string) (s : state) :
  let r := install_python_tool tool s in
  let d := since (List.length (log s)) (snd r) in
  log (snd r) = log s ++ d
  /\ sublist (List.map words d) (python_installers tool)
  /\ match fst r with
     | inr true => exists e c, last d = Some (e, inr c)
     | inr false =>
         forall cmd, In cmd (python_installers tool) ->
                     (forall w, which (hd "" cmd) w = true) ->
                     In cmd (List.map words d)
     | inl e => e <> TimeoutExpired /\ is_OSError e = false
     end.
Proof.
  cbv zeta. unfold install_python_tool, python_installers.
  cbn [first_success]. unfold Eff.bind.
  repeat (next_method; cbn [Eff.ret fst snd log world]).
  all: read_installs.
Qed.

Lemma lint_shell_files_unchanged files :
  forall all_passed (s : state),
    match fst (lint_shell_files files all_passed s) with
    | inr (_, changed) => changed = false
    | inl _ => True
    end.
Proof.
  induction files as [| f rest IH]; intros all_passed s; [reflexivity |].
  cbn [lint_shell_files]. unfold Eff.bind.
  destruct (Eff.try_except _ _ s) as [[e | [passed |]] s1]; cbn [fst snd];
    [exact I | apply IH | reflexivity].
Qed.

Lemma check_only_yaml (root : list string) (files : list (list string)) (s : state) :
  match fst (lint_yaml root files s) with
  | inr (_, changed) => changed = false
  | inl _ => True
  end.
Proof.
  unfold lint_yaml, Eff.bind, ask, Eff.gets, Eff.try_except, run. cbn [fst snd].
  destruct files as [| f l]; [reflexivity |].
  destruct (which "yamllint" (world s)); [| reflexivity]. cbn [negb].
  destruct (subprocess_run _ (world s)) as [[e | c] w].
  - destruct e; simpl; auto.
  - simpl. destruct (negb (returncode c =? 0) && _); reflexivity.
Qed.

(** X10: the shell and YAML linters only check: whatever [shellcheck]
    and [yamllint] do, [lint_shell] and [lint_yaml] never report that
    files were changed, so they alone never lead to a commit. *)
Theorem check_only_linters (root : list string) (files : list (list string))
    (s : state) :
  Forall
    (fun linter : M (bool * bool) =>
       match fst (linter s) with
       | inr (_, changed) => changed = false
       | inl _ => True
       end)
    [lint_shell root files; lint_yaml root files].
Proof.
  constructor; [apply lint_shell_files_unchanged |].
  constructor; [apply check_only_yaml | constructor].
Qed.


(** X12: the loop over the languages never forgets: if it is entered
    with a failure recorded it ends with a failure, and if it is entered
    with a change recorded it ends with a change, whatever the later
    linters return. *)
Theorem lint_each_keeps_verdicts (root : list string)
    (languages : list (string * list (list string)))
    (all_passed files_changed : bool) (s : state) :
  match fst (lint_each root languages all_passed files_changed s) with
  | inr (passed, changed) =>
      implb passed all_passed = true /\ implb files_changed changed = true
  | inl _ => True
  end.
Proof.
  revert all_passed files_changed s.
  induction languages as [| [lang files] rest IH]; intros all_passed files_changed s.
  - simpl. destruct all_passed, files_changed; auto.
  - cbn [lint_each]. unfold Eff.bind.
    destruct (ensure_linter_installed lang root s) as [[e | available] s1];
      cbn [fst snd]; [exact I |].
    destruct available; cbn [negb]; [| apply IH].
    destruct (lint_language lang root files) as [linter |]; [| apply IH].
    destruct (linter s1) as [[e | [passed changed]] s2]; cbn [fst snd]; [exact I |].
    specialize (IH (if negb passed then false else all_passed)
                   (if changed then true else files_changed) s2).
    destruct (fst (lint_each root rest _ _ s2)) as [e | [p c]]; [exact I |].
    destruct passed, changed, all_passed, files_changed, p, c; simpl in *;
      destruct IH; split; congruence.
Qed.

Lemma validate_plugins_names root validator plugins :
  forall issues (s : state),
    match fst (validate_plugins root validator plugins issues s) with
    | inr issues' =>
        exists extra, issues' = issues ++ extra
                      /\ sublist extra (List.map plugin_name plugins)
    | inl _ => True
    end.
Proof.
  induction plugins as [| [name_option source_option] rest IH]; intros issues s.
  - simpl. exists []. rewrite app_nil_r. split; [reflexivity | apply sublist_nil_l].
  - cbn [validate_plugins]. unfold Eff.bind, ask, Eff.gets. cbn [fst snd].
    destruct (path_exists _ (world s)).
    + destruct (validate_plugin _ validator s) as [[e | ok] s1]; cbn [fst snd];
        [exact I |].
      destruct ok.
      * specialize (IH issues s1).
        destruct (fst (validate_plugins root validator rest issues s1))
          as [e | issues']; [exact I |].
        destruct IH as [extra [-> H]]. exists extra.
        split; [reflexivity |]. simpl. apply sublist_cons, H.
      * match goal with
        | |- context [validate_plugins root validator rest (issues ++ [?n]) s1] =>
            specialize (IH (issues ++ [n]) s1);
            destruct (fst (validate_plugins root validator rest (issues ++ [n]) s1))
              as [e | issues']; [exact I |];
            destruct IH as [extra [-> H]]; exists (n :: extra);
            rewrite <- app_assoc; split; [reflexivity |];
            simpl; apply sublist_skip, H
        end.
    + specialize (IH issues s).
      destruct (fst (validate_plugins root validator rest issues s))
        as [e | issues']; [exact I |].
      destruct IH as [extra [-> H]]. exists extra.
      split; [reflexivity |]. simpl. apply sublist_cons, H.
Qed.

(** X13: what [run_validation_cycle] can report.  For a marketplace the
    issues are names of its listed plugins (an entry without a name
    counts as [unknown]), in the order of the listing; for a single
    plugin the only possible issue is [plugin]; and a repository with
    neither manifest has no issues and no validator is started. *)
Theorem run_validation_cycle_issues (root validator : list string) (s : state) :
  let r := run_validation_cycle root validator s in
  let marketplace_json := root ++ [".claude-plugin"; "marketplace.json"] in
  let plugin_json := root ++ [".claude-plugin"; "plugin.json"] in
  match fst r with
  | inr issues =>
      if path_exists marketplace_json (world s) then
        match marketplace_plugins marketplace_json (world s) with
        | inr plugins => sublist issues (List.map plugin_name plugins)
        | inl _ => False
        end
      else if path_exists plugin_json (world s) then sublist issues ["plugin"]
      else issues = [] /\ snd r = s
  | inl _ => True
  end.
Proof.
  cbv zeta. unfold run_validation_cycle, Eff.bind, ask, Eff.gets. cbn [fst snd].
  destruct (path_exists (root ++ [".claude-plugin"; "marketplace.json"]) (world s)).
  - destruct (marketplace_plugins _ (world s)) as [e | plugins]; [exact I |].
    pose proof (validate_plugins_names root validator plugins [] s) as H.
    destruct (fst (validate_plugins root validator plugins [] s)) as [e | issues];
      [exact I |].
    destruct H as [extra [-> H]]. exact H.
  - destruct (path_exists (root ++ [".claude-plugin"; "plugin.json"]) (world s)).
    + destruct (validate_plugin root validator s) as [[e | ok] s1]; cbn [fst snd];
        [exact I |].
      destruct ok; simpl; [apply sublist_nil_l | reflexivity].
    + simpl. auto.
Qed.

(** X14: [mypy] is optional.  With [ruff] on the [PATH] the Python
    tool chain counts as available whether or not [mypy] is there or
    can be installed; and when [ruff] and [mypy] are both there no
    process is started. *)
Theorem python_needs_only_ruff (root : list string) (s : state) :
  let r := ensure_linter_installed "python" root s in
  if which "ruff" (world s) then
    match fst r with
    | inr available => available = true
    | inl e => e <> TimeoutExpired /\ is_OSError e = false
    end
    /\ (if which "mypy" (world s) then snd r = s else True)
  else True.
Proof.
  cbv zeta.
  assert (match fst (install_python_tool "mypy" s) with
          | inr _ => True
          | inl e => e <> TimeoutExpired /\ is_OSError e = false
          end) as H.
  { unfold install_python_tool. cbn [first_success]. unfold Eff.bind.
    repeat (next_method; cbn [Eff.ret fst snd log world]); try exact I; assumption. }
  unfold ensure_linter_installed. cbn [String.eqb Ascii.eqb Bool.eqb].
  unfold Eff.bind, ask, Eff.gets. cbn [fst snd].
  destruct (which "ruff" (world s)); [| exact I]. cbn [negb Eff.ret fst snd].
  destruct (which "mypy" (world s)); cbn [negb Eff.ret fst snd]; [auto |].
  split; [| exact I].
  destruct (install_python_tool "mypy" s) as [[e | ok] s1]; cbn [fst snd] in *;
    [exact H | reflexivity].
Qed.

End Parts.

(** *** What leads to a commit *)

Section Grounded.

Context {os : OS}.

Import PrePushRun.

Lemma changes_seen_app a b : changes_seen (a ++ b) = (changes_seen a + changes_seen b)%nat.
Proof. unfold changes_seen. rewrite List.filter_app, length_app. reflexivity. Qed.

Lemma some_left_iff {X} (p : X -> bool) (l : list X) :
  (0 <? List.length (List.filter p l))%nat = existsb p l.
Proof.
  induction l as [| x l IH]; simpl; [reflexivity |].
  destruct (p x); simpl; [reflexivity | exact IH].
Qed.

Lemma has_uncommitted_changes_seen root (s : state) r s' :
  has_uncommitted_changes root s = (r, s') ->
  exists d, log s' = log s ++ d
    /\ match r with inr true => (0 < changes_seen d)%nat | _ => True end.
Proof.
  unfold has_uncommitted_changes, Eff.try_except, Eff.bind, run, Eff.ret.
  destruct (subprocess_run _ (world s)) as [[e | c] w] eqn:E.
  - destruct e; simpl; intros H; injection H as <- <-; simpl; eauto.
  - simpl. destruct (returncode c =? 0) eqn:Ec; simpl;
      intros H; injection H as <- <-; simpl; eexists; (split; [reflexivity |]);
      [| exact I].
    rewrite some_left_iff.
    destruct (existsb _ _) eqn:Ex; [| exact I].
    unfold changes_seen, saw_change, is_call. simpl. rewrite Ec, Ex. simpl. lia.
Qed.

Lemma grounded_ret fc passed changed :
  implb changed fc = true -> grounded_from fc (Eff.ret (passed, changed)).
Proof.
  intros H s r s' E. injection E as <- <-. exists []. rewrite app_nil_r.
  split; [reflexivity |]. destruct changed; [| exact I]. left. now destruct fc.
Qed.

Lemma grounded_bind {A} fc (m : M A) (k : A -> M (bool * bool)) :
  emits anything m -> (forall a, grounded_from fc (k a)) ->
  grounded_from fc (Eff.bind m k).
Proof.
  intros Hm Hk s r s'. unfold Eff.bind.
  destruct (m s) as [[e | a] s1] eqn:E1.
  - intros H. injection H as <- <-.
    destruct (Hm _ _ _ E1) as [d [Hd _]]. exists d. auto.
  - intros E2. destruct (Hm _ _ _ E1) as [d1 [H1 _]].
    destruct (Hk a _ _ _ E2) as [d2 [H2 G2]].
    exists (d1 ++ d2). rewrite H2, H1, app_assoc. split; [reflexivity |].
    destruct r as [e | [p [|]]]; try exact I.
    destruct G2 as [G2 | G2]; [left; exact G2 | right].
    rewrite changes_seen_app. lia.
Qed.

Lemma grounded_bind_status fc root (k : bool -> M (bool * bool)) :
  (forall dirty : bool, grounded_from (if dirty then true else fc) (k dirty)) ->
  grounded_from fc (Eff.bind (has_uncommitted_changes root) k).
Proof.
  intros Hk s r s'. unfold Eff.bind.
  destruct (has_uncommitted_changes root s) as [[e | dirty] s1] eqn:E1.
  - intros H. injection H as <- <-.
    destruct (has_uncommitted_changes_seen _ _ _ _ E1) as [d [Hd _]]. exists d. auto.
  - intros E2. destruct (has_uncommitted_changes_seen _ _ _ _ E1) as [d1 [H1 G1]].
    destruct (Hk dirty _ _ _ E2) as [d2 [H2 G2]].
    exists (d1 ++ d2). rewrite H2, H1, app_assoc. split; [reflexivity |].
    destruct r as [e | [p [|]]]; try exact I.
    rewrite changes_seen_app.
    destruct G2 as [G2 | G2]; [| right; lia].
    destruct dirty; [right; lia | left; exact G2].
Qed.

Lemma grounded_final_check cmd root fc : grounded_from fc (final_check cmd root fc).
Proof.
  intros s r s'. unfold final_check, Eff.try_except, Eff.bind, run, Eff.ret.
  destruct (subprocess_run _ (world s)) as [[e | c] w].
  - destruct e; simpl; intros H; injection H as <- <-; simpl;
      eexists; (split; [reflexivity |]); try exact I; destruct fc; auto.
  - simpl. intros H; injection H as <- <-; simpl.
    eexists; (split; [reflexivity |]). destruct fc; auto.
Qed.

Ltac plain := solve [emits_with ltac:(exact I)].

Ltac grounded :=
  cbv zeta;
  repeat
    lazymatch goal with
    | |- grounded_from _ (Eff.ret _) =>
        apply grounded_ret;
        repeat match goal with
               | |- context [if ?b then _ else _] => destruct b
               end;
        reflexivity
    | |- grounded_from _ (Eff.bind (has_uncommitted_changes _) _) =>
        apply grounded_bind_status; intros ?
    | |- grounded_from _ (Eff.bind _ _) =>
        apply grounded_bind; [plain | intros ?]
    | |- grounded_from _ (final_check _ _ _) => apply grounded_final_check
    | |- grounded_from _ (if ?b then _ else _) => destruct b
    | |- grounded_from _ (match ?x with _ => _ end) => destruct x
    end.

Lemma lint_python_grounded root : grounded_from false (lint_python root).
Proof. unfold lint_python. grounded. Qed.

Lemma lint_javascript_grounded root : grounded_from false (lint_javascript root).
Proof. unfold lint_javascript. grounded. Qed.

Lemma lint_go_grounded root : grounded_from false (lint_go root).
Proof. unfold lint_go. grounded. Qed.

Lemma lint_rust_grounded root : grounded_from false (lint_rust root).
Proof. unfold lint_rust. grounded. Qed.

Lemma lint_markdown_grounded root files : grounded_from false (lint_markdown root files).
Proof. unfold lint_markdown. grounded. Qed.

Lemma lint_json_grounded root files : grounded_from false (lint_json root files).
Proof.
  intros s r s' E. unfold lint_json in E.
  exists []. rewrite app_nil_r.
  destruct files; injection E as <- <-; split; try reflexivity; exact I.
Qed.

Lemma unchanged_grounded (m : M (bool * bool)) :
  emits anything m ->
  (forall s, match fst (m s) with inr (_, changed) => changed = false | inl _ => True end) ->
  grounded_from false m.
Proof.
  intros Hm Hc s r s' E. destruct (Hm _ _ _ E) as [d [Hd _]]. exists d.
  split; [exact Hd |]. specialize (Hc s). rewrite E in Hc. simpl in Hc.
  destruct r as [e | [p [|]]]; try exact I. discriminate.
Qed.

Lemma quiet_anything {A} (m : M A) : emits quiet m -> emits anything m.
Proof. apply emits_weaken. intros; exact I. Qed.

Lemma lint_language_grounded lang root files linter :
  lint_language lang root files = Some linter -> grounded_from false linter.
Proof.
  unfold lint_language.
  repeat match goal with
         | |- (if ?b then _ else _) = _ -> _ => destruct b
         end;
    intros H; try discriminate H; injection H as <-.
  - apply lint_python_grounded.
  - apply lint_javascript_grounded.
  - apply unchanged_grounded;
      [apply quiet_anything, lint_shell_files_quiet
      | intros s; apply lint_shell_files_unchanged].
  - apply lint_go_grounded.
  - apply lint_rust_grounded.
  - apply lint_markdown_grounded.
  - apply lint_json_grounded.
  - apply unchanged_grounded; [apply quiet_anything, lint_yaml_quiet |].
    intros s.
    pose proof (check_only_yaml root files s) as H. exact H.
Qed.

Lemma grounded_bind_linter fc (m : M (bool * bool)) (k : bool * bool -> M (bool * bool)) :
  grounded_from false m ->
  (forall (passed changed : bool),
      grounded_from (if changed then true else fc) (k (passed, changed))) ->
  grounded_from fc (Eff.bind m k).
Proof.
  intros Hm Hk s r s'. unfold Eff.bind.
  destruct (m s) as [[e | [passed changed]] s1] eqn:E1.
  - intros H. injection H as <- <-.
    destruct (Hm _ _ _ E1) as [d [Hd _]]. exists d. auto.
  - intros E2. destruct (Hm _ _ _ E1) as [d1 [H1 G1]].
    destruct (Hk passed changed _ _ _ E2) as [d2 [H2 G2]].
    exists (d1 ++ d2). rewrite H2, H1, app_assoc. split; [reflexivity |].
    destruct r as [e | [p [|]]]; try exact I.
    rewrite changes_seen_app.
    destruct G2 as [G2 | G2]; [| right; lia].
    destruct changed; [| left; exact G2].
    destruct G1 as [G1 | G1]; [discriminate | right; lia].
Qed.

Lemma lint_each_grounded root languages :
  forall all_passed files_changed,
    grounded_from files_changed (lint_each root languages all_passed files_changed).
Proof.
  induction languages as [| [lang files] rest IH]; intros all_passed files_changed.
  - simpl. apply grounded_ret. now destruct files_changed.
  - cbn [lint_each]. apply grounded_bind.
    { apply quiet_anything, ensure_linter_installed_quiet. }
    intros available. destruct available; cbn [negb]; [| apply IH].
    destruct (lint_language lang root files) as [linter |] eqn:E; [| apply IH].
    apply grounded_bind_linter; [eapply lint_language_grounded, E |].
    intros passed changed. apply IH.
Qed.

Lemma run_linting_grounded root : grounded_from false (run_linting root).
Proof.
  unfold run_linting. cbv zeta. apply grounded_bind.
  { unfold detect_languages. apply emits_ask. }
  intros [| l ls]; [apply grounded_ret; reflexivity | apply lint_each_grounded].
Qed.

(** A lint round: it stages nothing, and a change it reports was seen. *)
Lemma run_linting_seen root (s : state) r s' :
  run_linting root s = (r, s') ->
  exists d, log s' = log s ++ d /\ staging_runs d = 0%nat
    /\ match r with inr (_, true) => (0 < changes_seen d)%nat | _ => True end.
Proof.
  intros H. destruct (quiet_log root _ _ _ H) as [d [Hd [S0 _]]].
  destruct (run_linting_grounded root _ _ _ H) as [d' [Hd' G]].
  assert (d' = d) as -> by (rewrite Hd in Hd'; eapply app_inv_head; eauto).
  exists d. repeat split; try assumption.
  destruct r as [e | [p [|]]]; try exact I.
  destruct G as [G | G]; [discriminate | exact G].
Qed.

Lemma fix_loop_seen root validator fuel :
  forall iteration (s : state) r s',
    fix_loop fuel root validator iteration s = (r, s') ->
    exists d, log s' = log s ++ d /\ (staging_runs d <= changes_seen d)%nat.
Proof.
  assert (forall s : state, exists d, log s = log s ++ d
                                      /\ (staging_runs d <= changes_seen d)%nat) as Hnil.
  { intros s. exists []. rewrite app_nil_r. split; [reflexivity |].
    unfold staging_runs, changes_seen. simpl. lia. }
  induction fuel as [| fuel IH]; intros iteration s r s'; simpl;
    destruct (iteration <? MAX_FIX_ITERATIONS)%nat;
    try (intros H; injection H as <- <-; apply Hnil).
  unfold Eff.bind at 1.
  destruct (run_linting root s) as [[e | [passed changed]] s1] eqn:E1.
  { intros H. injection H as <- <-.
    destruct (run_linting_seen _ _ _ _ E1) as [d1 [H1 [S1 _]]].
    exists d1. split; [exact H1 | lia]. }
  destruct (run_linting_seen _ _ _ _ E1) as [d1 [H1 [S1 G1]]].
  destruct changed.
  - unfold Eff.bind at 1.
    destruct (commit_auto_fixes root (S iteration) s1) as [[e | committed] s2] eqn:E2;
      destruct (commit_auto_fixes_counts _ _ _ _ _ E2) as [d2 [H2 [S2 _]]].
    { intros H. injection H as <- <-. exists (d1 ++ d2).
      rewrite H2, H1, app_assoc. split; [reflexivity |].
      rewrite staging_runs_app, changes_seen_app. lia. }
    destruct committed; cbn [negb].
    + intros E3. destruct (IH _ _ _ _ E3) as [d3 [H3 G3]].
      exists (d1 ++ d2 ++ d3). rewrite H3, H2, H1, <- !app_assoc.
      split; [reflexivity |].
      rewrite !staging_runs_app, !changes_seen_app. lia.
    + intros H. injection H as <- <-. exists (d1 ++ d2).
      rewrite H2, H1, app_assoc. split; [reflexivity |].
      rewrite staging_runs_app, changes_seen_app. lia.
  - destruct passed; cbn [negb].
    + unfold Eff.bind.
      destruct (run_validation_cycle root validator s1) as [[e | issues] s2] eqn:E2;
        destruct (quiet_validation _ _ _ _ _ E2) as [d2 [H2 [S2 _]]];
        [| destruct issues];
        intros H; injection H as <- <-; exists (d1 ++ d2);
        rewrite H2, H1, app_assoc; (split; [reflexivity |]);
        rewrite staging_runs_app, changes_seen_app; lia.
    + intros H. injection H as <- <-. exists d1. split; [exact H1 | lia].
Qed.

(** X15: the hook stages only what was seen to change.  In a run of
    the pre-push hook, whatever the tools do, [git add] is started at
    most as often as [git status] has exited with 0 and listed a
    tracked file, and no more commits are created than that; a run in
    which [git status] never shows a change stages and commits
    nothing. *)
Theorem push_hook_stages_only_seen_changes (s : state) :
  let s' := snd (main_report s) in
  let d := since (List.length (log s)) s' in
  log s' = log s ++ d
  /\ (staging_runs d <= changes_seen d)%nat
  /\ (commits_created d <= changes_seen d)%nat.
Proof.
  cbv zeta. unfold main_report, Eff.bind.
  destruct (get_repo_root s) as [[e | root] s1] eqn:E1;
    destruct (quiet_counts_of _ _ _ _ get_repo_root_quiet E1) as [d1 [H1 [S1 C1]]];
    cbn [fst snd].
  { rewrite (since_app _ _ _ H1). repeat split; [exact H1 | lia | lia]. }
  destruct (find_validator s1) as [[e | [validator |]] s2] eqn:E2;
    destruct (quiet_counts_of _ _ _ _ find_validator_quiet E2) as [d2 [H2 [S2 C2]]];
    cbn [fst snd].
  - assert (log s2 = log s ++ d1 ++ d2) as H by (rewrite H2, H1, app_assoc; reflexivity).
    rewrite (since_app _ _ _ H). split; [exact H |].
    rewrite staging_runs_app, commits_created_app. lia.
  - destruct (fix_loop MAX_FIX_ITERATIONS root validator 0 s2) as [r s3] eqn:E3.
    cbn [fst snd].
    destruct (fix_loop_seen _ _ _ _ _ _ _ E3) as [d3 [H3 G3]].
    destruct (fix_loop_accounting root validator _ _ _ _ _ (Nat.le_0_l _) E3)
      as [d3' [H3' [_ [C3 _]]]].
    assert (d3' = d3) as -> by (rewrite H3 in H3'; eapply app_inv_head; eauto).
    assert (log s3 = log s ++ d1 ++ d2 ++ d3) as H
        by (rewrite H3, H2, H1, <- !app_assoc; reflexivity).
    rewrite (since_app _ _ _ H). split; [exact H |].
    rewrite !staging_runs_app, !commits_created_app, !changes_seen_app. lia.
  - assert (log s2 = log s ++ d1 ++ d2) as H by (rewrite H2, H1, app_assoc; reflexivity).
    cbn [Eff.ret fst snd].
    rewrite (since_app _ _ _ H). split; [exact H |].
    rewrite staging_runs_app, commits_created_app. lia.
Qed.

End Grounded.

(** *** What makes linting fail *)

Section Caused.

Context {os : OS}.

Import PrePushRun.

Lemma caused_ret ap passed changed :
  implb ap passed = true -> caused_from ap (Eff.ret (passed, changed)).
Proof.
  intros H s r s' E. injection E as <- <-. exists []. rewrite app_nil_r.
  split; [reflexivity |]. destruct passed; [exact I |]. left. now destruct ap.
Qed.

Lemma caused_bind {A} ap (m : M A) (k : A -> M (bool * bool)) :
  emits anything m -> (forall a, caused_from ap (k a)) ->
  caused_from ap (Eff.bind m k).
Proof.
  intros Hm Hk s r s'. unfold Eff.bind.
  destruct (m s) as [[e | a] s1] eqn:E1.
  - intros H. injection H as <- <-.
    destruct (Hm _ _ _ E1) as [d [Hd _]]. exists d. auto.
  - intros E2. destruct (Hm _ _ _ E1) as [d1 [H1 _]].
    destruct (Hk a _ _ _ E2) as [d2 [H2 G2]].
    exists (d1 ++ d2). rewrite H2, H1, app_assoc. split; [reflexivity |].
    destruct r as [e | [[|] c]]; try exact I.
    destruct G2 as [G2 | G2]; [left; exact G2 | right].
    rewrite existsb_app, G2. apply orb_true_r.
Qed.

Lemma caused_bind_tells ap (m : M bool) (k : bool -> M (bool * bool)) :
  tells m -> caused_from ap (k true) -> caused_from false (k false) ->
  caused_from ap (Eff.bind m k).
Proof.
  intros Hm Ht Hf s r s'. unfold Eff.bind.
  destruct (m s) as [[e | a] s1] eqn:E1.
  - intros H. injection H as <- <-.
    destruct (Hm _ _ _ E1) as [d [Hd _]]. exists d. auto.
  - intros E2. destruct (Hm _ _ _ E1) as [d1 [H1 G1]].
    destruct a.
    + destruct (Ht _ _ _ E2) as [d2 [H2 G2]].
      exists (d1 ++ d2). rewrite H2, H1, app_assoc. split; [reflexivity |].
      destruct r as [e | [[|] c]]; try exact I.
      destruct G2 as [G2 | G2]; [left; exact G2 | right].
      rewrite existsb_app, G2. apply orb_true_r.
    + destruct (Hf _ _ _ E2) as [d2 [H2 _]].
      exists (d1 ++ d2). rewrite H2, H1, app_assoc. split; [reflexivity |].
      destruct r as [e | [[|] c]]; try exact I.
      right. rewrite existsb_app, G1. reflexivity.
Qed.

Lemma caused_bind_linter ap (m : M (bool * bool)) (k : bool * bool -> M (bool * bool)) :
  caused_from true m ->
  (forall (passed changed : bool),
      caused_from (if negb passed then false else ap) (k (passed, changed))) ->
  caused_from ap (Eff.bind m k).
Proof.
  intros Hm Hk s r s'. unfold Eff.bind.
  destruct (m s) as [[e | [passed changed]] s1] eqn:E1.
  - intros H. injection H as <- <-.
    destruct (Hm _ _ _ E1) as [d [Hd _]]. exists d. auto.
  - intros E2. destruct (Hm _ _ _ E1) as [d1 [H1 G1]].
    destruct (Hk passed changed _ _ _ E2) as [d2 [H2 G2]].
    exists (d1 ++ d2). rewrite H2, H1, app_assoc. split; [reflexivity |].
    destruct r as [e | [[|] c]]; try exact I.
    rewrite existsb_app.
    destruct G2 as [G2 | G2]; [| right; rewrite G2; apply orb_true_r].
    destruct passed; cbn [negb] in G2; [left; exact G2 |].
    destruct G1 as [G1 | G1]; [discriminate | right; rewrite G1; reflexivity].
Qed.

(** The two shapes of a step whose answer is taken for a verdict. *)
Lemma tool_found_tells a d t :
  tells (Eff.try_except (let* _ := run a d t in Eff.ret true)
           (on_timeout_or_missing (Eff.ret true) (Eff.ret false))).
Proof.
  intros s r s'. unfold Eff.try_except, Eff.bind, run, Eff.ret.
  destruct (subprocess_run _ (world s)) as [[e | c] w].
  - destruct e; simpl; intros H; injection H as <- <-; simpl;
      eexists; (split; [reflexivity |]); try exact I. reflexivity.
  - simpl. intros H; injection H as <- <-; simpl. eexists. split; [reflexivity | exact I].
Qed.

Lemma exit_code_tells a d t :
  tells (Eff.try_except
           (let* result := run a d t in Eff.ret (returncode result =? 0))
           (on_timeout (Eff.ret true))).
Proof.
  intros s r s'. unfold Eff.try_except, Eff.bind, run, Eff.ret.
  destruct (subprocess_run _ (world s)) as [[e | c] w].
  - destruct e; simpl; intros H; injection H as <- <-; simpl;
      eexists; (split; [reflexivity |]); exact I.
  - simpl. intros H; injection H as <- <-; simpl. eexists. split; [reflexivity |].
    destruct (returncode c =? 0) eqn:E; [exact I |].
    unfold went_wrong. simpl. now rewrite E.
Qed.

Lemma tells_ret_true : tells (Eff.ret true).
Proof.
  intros s r s' E. injection E as <- <-. exists []. rewrite app_nil_r. auto.
Qed.

Lemma caused_final_check cmd root ap fc : caused_from ap (final_check cmd root fc).
Proof.
  intros s r s'. unfold final_check, Eff.try_except, Eff.bind, run, Eff.ret.
  destruct (subprocess_run _ (world s)) as [[e | c] w].
  - destruct e; simpl; intros H; injection H as <- <-; simpl;
      eexists; (split; [reflexivity |]); exact I.
  - simpl. intros H; injection H as <- <-; simpl. eexists. split; [reflexivity |].
    destruct (returncode c =? 0) eqn:E; [exact I |].
    right. unfold went_wrong. simpl. now rewrite E.
Qed.

Ltac any_step :=
  first [ apply quiet_anything, has_uncommitted_changes_quiet
        | solve [emits_with ltac:(exact I)] ].

Ltac caused :=
  cbv zeta;
  repeat
    lazymatch goal with
    | |- caused_from _ (Eff.ret _) =>
        apply caused_ret;
        repeat match goal with
               | |- context [if ?b then _ else _] => destruct b
               end;
        reflexivity
    | |- caused_from _ (Eff.bind (Eff.try_except _ (on_timeout_or_missing (Eff.ret true)
                                                       (Eff.ret false))) _) =>
        apply caused_bind_tells; [apply tool_found_tells | |]; cbn [negb]
    | |- caused_from _ (Eff.bind (Eff.try_except _ (on_timeout (Eff.ret true))) _) =>
        apply caused_bind_tells; [apply exit_code_tells | |]; cbn [negb]
    | |- caused_from _ (Eff.bind (Eff.ret true) _) =>
        apply caused_bind_tells; [apply tells_ret_true | |]; cbn [negb]
    | |- caused_from _ (Eff.bind (if ?b then _ else _) _) => destruct b
    | |- caused_from _ (Eff.bind _ _) =>
        apply caused_bind; [any_step | intros ?]
    | |- caused_from _ (final_check _ _ _) => apply caused_final_check
    | |- caused_from _ (if ?b then _ else _) => destruct b
    | |- caused_from _ (match ?x with _ => _ end) => destruct x
    end.

Lemma lint_python_caused root : caused_from true (lint_python root).
Proof. unfold lint_python. caused. Qed.

Lemma lint_javascript_caused root : caused_from true (lint_javascript root).
Proof. unfold lint_javascript. caused. Qed.

Lemma lint_go_caused root : caused_from true (lint_go root).
Proof. unfold lint_go. caused. Qed.

Lemma lint_rust_caused root : caused_from true (lint_rust root).
Proof. unfold lint_rust. caused. Qed.

Lemma lint_markdown_caused root files : caused_from true (lint_markdown root files).
Proof. unfold lint_markdown. caused. Qed.

Lemma lint_shell_files_caused files :
  forall all_passed, caused_from all_passed (lint_shell_files files all_passed).
Proof.
  induction files as [| f rest IH]; intros all_passed.
  - simpl. apply caused_ret. now destruct all_passed.
  - cbn [lint_shell_files]. intros s r s'. unfold Eff.bind.
    unfold Eff.try_except at 1. unfold run at 1.
    destruct (subprocess_run _ (world s)) as [[e | c] w] eqn:E.
    + destruct e; simpl;
        try (intros H; injection H as <- <-; simpl; eexists;
             split; [reflexivity | exact I]).
      * intros H. destruct (IH all_passed _ _ _ H) as [d [Hd G]].
        simpl in Hd. rewrite <- app_assoc in Hd. eexists. split; [exact Hd |].
        destruct r as [e | [[|] c]]; try exact I.
        destruct G as [G | G]; [left; exact G | right].
        simpl. rewrite G, ?orb_true_r. reflexivity.
    + simpl. intros H.
      destruct (IH _ _ _ _ H) as [d [Hd G]].
      simpl in Hd. rewrite <- app_assoc in Hd. eexists. split; [exact Hd |].
      destruct r as [e | [[|] c']]; try exact I.
      destruct (returncode c =? 0) eqn:Ec; cbn [negb] in G.
      * destruct G as [G | G]; [left; exact G | right].
        simpl. rewrite G, ?orb_true_r. reflexivity.
      * right. simpl. unfold went_wrong at 1. simpl. rewrite Ec. reflexivity.
Qed.

Lemma lint_yaml_caused root files : caused_from true (lint_yaml root files).
Proof.
  unfold lint_yaml. cbv zeta.
  destruct files as [| f l]; [apply caused_ret; reflexivity |].
  apply caused_bind; [any_step |]. intros there.
  destruct there; cbn [negb]; [| apply caused_ret; reflexivity].
  intros s r s'. unfold Eff.try_except, Eff.bind, run, Eff.ret.
  destruct (subprocess_run _ (world s)) as [[e | c] w].
  - destruct e; simpl; intros H; injection H as <- <-; simpl;
      eexists; (split; [reflexivity |]); exact I.
  - simpl. destruct (returncode c =? 0) eqn:E; simpl;
      [| destruct (Str.contains "[error]" (stdout c))];
      intros H; injection H as <- <-; simpl;
      eexists; (split; [reflexivity |]); try exact I.
    right. unfold went_wrong. simpl. now rewrite E.
Qed.

Lemma lint_json_caused root files : caused_from true (lint_json root files).
Proof.
  intros s r s' E. unfold lint_json in E.
  exists []. rewrite app_nil_r.
  destruct files; injection E as <- <-; split; try reflexivity; exact I.
Qed.

Lemma lint_language_caused lang root files linter :
  lint_language lang root files = Some linter -> caused_from true linter.
Proof.
  unfold lint_language.
  repeat match goal with
         | |- (if ?b then _ else _) = _ -> _ => destruct b
         end;
    intros H; try discriminate H; injection H as <-.
  - apply lint_python_caused.
  - apply lint_javascript_caused.
  - apply lint_shell_files_caused.
  - apply lint_go_caused.
  - apply lint_rust_caused.
  - apply lint_markdown_caused.
  - apply lint_json_caused.
  - apply lint_yaml_caused.
Qed.

Lemma lint_each_caused root languages :
  forall all_passed files_changed,
    caused_from all_passed (lint_each root languages all_passed files_changed).
Proof.
  induction languages as [| [lang files] rest IH]; intros all_passed files_changed.
  - simpl. apply caused_ret. now destruct all_passed.
  - cbn [lint_each]. apply caused_bind.
    { apply quiet_anything, ensure_linter_installed_quiet. }
    intros available. destruct available; cbn [negb]; [| apply IH].
    destruct (lint_language lang root files) as [linter |] eqn:E; [| apply IH].
    apply caused_bind_linter; [eapply lint_language_caused, E |].
    intros passed changed. apply IH.
Qed.

(** X27: what makes linting fail.  [run_linting] reports a failure
    only if one of the processes started in the round, linters and
    installers alike, exited with a nonzero code or its program was not
    found.  A round all of whose processes exit with 0 or time out does
    not report a failure. *)
Theorem lint_failure_has_a_cause (root : list string) (s : state) :
  let r := run_linting root s in
  let d := since (List.length (log s)) (snd r) in
  log (snd r) = log s ++ d
  /\ match fst r with
     | inr (false, _) => existsb went_wrong d = true
     | _ => True
     end.
Proof.
  cbv zeta. destruct (run_linting root s) as [r s'] eqn:E. cbn [fst snd].
  assert (caused_from true (run_linting root)) as H.
  { unfold run_linting. cbv zeta. apply caused_bind.
    { unfold detect_languages. apply emits_ask. }
    intros [| l ls]; [apply caused_ret; reflexivity | apply lint_each_caused]. }
  destruct (H _ _ _ E) as [d [Hd G]].
  rewrite (since_app _ _ _ Hd). split; [exact Hd |].
  destruct r as [e | [[|] c]]; try exact I.
  destruct G as [G | G]; [discriminate | exact G].
Qed.

End Caused.

(** *** The order of the steps of a linter *)

Section Steps.

Context {os : OS}.

Import PrePushRun.

(** The status query starts one process, [git status], and nothing else. *)
Lemma has_uncommitted_changes_log root (s : state) :
  exists res r w,
    has_uncommitted_changes root s
    = (res, {| world := w;
               log := log s ++ [({| args := ["git"; "status"; "--porcelain"];
                                    cwd := Some root; timeout := 30 |}, r)] |}).
Proof.
  unfold has_uncommitted_changes, Eff.try_except, Eff.bind, run, Eff.ret.
  destruct (subprocess_run _ (world s)) as [[e | c] w].
  - destruct e; simpl; eauto.
  - simpl. destruct (negb (returncode c =? 0)); eauto.
Qed.

Local Opaque has_uncommitted_changes.

Ltac exec :=
  match goal with
  | |- context [has_uncommitted_changes ?root ?st] =>
      let res := fresh "res" in let r := fresh "r" in
      let w := fresh "w" in let H := fresh "H" in
      destruct (has_uncommitted_changes_log root st) as (res & r & w & H);
      rewrite H; clear H; destruct res as [? | ?]
  | |- context [subprocess_run ?c ?w] =>
      let e := fresh "e" in let c' := fresh "c" in let w' := fresh "w" in
      destruct (subprocess_run c w) as [[e | c'] w']; [destruct e |]
  | |- context [returncode ?c =? 0] =>
      let E := fresh "E" in destruct (returncode c =? 0) eqn:E
  | |- context [which ?t ?w] =>
      let W := fresh "W" in destruct (which t w) eqn:W
  | |- context [path_exists ?p ?w] => destruct (path_exists p w)
  end; simpl.

Ltac open_log :=
  unfold since; simpl;
  rewrite <- ?app_assoc; rewrite ?app_nil_r;
  repeat match goal with
         | |- context [skipn (length ?l) (?l ++ ?k)] => rewrite (drop_app_length l k)
         | |- context [skipn (length ?l) ?l] => rewrite (drop_all l)
         end;
  unfold step_failed, is_step; simpl;
  repeat match goal with
         | E : (returncode _ =? 0) = _ |- _ => rewrite E
         end;
  simpl; rewrite ?app_nil_r.

Ltac initial_part := solve [eexists; reflexivity].

Ltac not_on_path :=
  let Hm := fresh "Hm" in
  intros Hm;
  first [ initial_part
        | exfalso;
          match goal with
          | W : which _ _ = _ |- _ => rewrite Hm in W; discriminate W
          end ].

Ltac read_python :=
  open_log;
  split; [reflexivity |];
  split; [first [left; initial_part | right; initial_part] |];
  split; [not_on_path |];
  split; [not_on_path |];
  split;
  [ let H := fresh in
    intros H; first [split; reflexivity | exfalso; simpl in H; intuition discriminate]
  | first [exact I | simpl; auto 6] ].

(** X28: the steps of the Python linter.  [lint_python] starts its
    processes in the order fix ([ruff check --fix]), type check ([mypy]),
    verification ([ruff check]), formatting ([ruff format]), and stops
    at the first step that ends the run.  The type check is there when
    [mypy] is on the [PATH] and left out when it is not.  The formatter
    is started only after a type check and a verification that did not
    exit with a nonzero code, and a run that reports success has got as
    far as the formatter. *)
Theorem lint_python_steps (root : list string) (s : state) :
  let r := lint_python root s in
  let d := since (List.length (log s)) (snd r) in
  log (snd r) = log s ++ d
  /\ (steps d `prefix_of` [StepFix; StepTypecheck; StepVerify; StepFormat]
      \/ steps d `prefix_of` [StepFix; StepVerify; StepFormat])
  /\ ((forall w, which "mypy" w = true) ->
      steps d `prefix_of` [StepFix; StepTypecheck; StepVerify; StepFormat])
  /\ ((forall w, which "mypy" w = false) ->
      steps d `prefix_of` [StepFix; StepVerify; StepFormat])
  /\ (In StepFormat (steps d) ->
      step_failed StepTypecheck d = false /\ step_failed StepVerify d = false)
  /\ match fst r with
     | inr (true, _) => In StepFormat (steps d)
     | _ => True
     end.
Proof.
  cbv zeta. unfold lint_python.
  unfold Eff.bind, Eff.try_except, run, Eff.ret, ask, Eff.gets. simpl.
  repeat exec.
  all: read_python.
Qed.

Ltac read_rust :=
  open_log;
  split; [reflexivity |];
  split; [initial_part |];
  first [ exact I
        | left; split; reflexivity
        | right; left; repeat split; reflexivity
        | right; right; reflexivity ].

(** X29: the steps of the Rust linter.  [lint_rust] formats first:
    its processes are [cargo fmt], then [cargo clippy --fix], then
    [cargo clippy], and the later steps do not wait for the formatter to
    succeed.  Where it returns, it has started nothing (no [Cargo.toml]),
    or the formatter alone, which was not found, or all three. *)
Theorem lint_rust_steps (root : list string) (s : state) :
  let r := lint_rust root s in
  let d := since (List.length (log s)) (snd r) in
  log (snd r) = log s ++ d
  /\ steps d `prefix_of` [StepFormat; StepFix; StepVerify]
  /\ match fst r with
     | inr (passed, _) =>
         (steps d = [] /\ passed = true)
         \/ (steps d = [StepFormat] /\ passed = false
             /\ step_failed StepFormat d = false)
         \/ steps d = [StepFormat; StepFix; StepVerify]
     | inl _ => True
     end.
Proof.
  cbv zeta. unfold lint_rust, final_check.
  unfold Eff.bind, Eff.try_except, run, Eff.ret, ask, Eff.gets. simpl.
  repeat exec.
  all: read_rust.
Qed.

End Steps.

End HookLogFacts.

(** ** Facts about the pre-commit hook and the changelog hooks *)

Module CommitHookFacts.
Import PrePush PrePushFacts OtherHooks.

Section PreCommitFacts.

Context {os : OS} {inspect : Inspect}.

Lemma forallb_filter {X} (q p : X -> bool) (l : list X) :
  forallb p (List.filter q l) = forallb (fun x => negb (q x) || p x) l.
Proof.
  induction l as [| x l IH]; simpl; [reflexivity |].
  destruct (q x); simpl; rewrite IH; reflexivity.
Qed.

(** The loop of [validate_json_files] reads and does not write; it adds
    one error for each file that neither loads nor is gone. *)
Lemma json_errors_spec (files : list string) :
  forall (errors : list string) (s : state),
    snd (json_errors files errors s) = s
    /\ match fst (json_errors files errors s) with
       | inr errors' =>
           exists extra, errors' = errors ++ extra
             /\ (List.length extra <= List.length files)%nat
             /\ (match extra with [] => true | _ => false end)
                = forallb (fun f => passes_json_check f (world s)) files
       | inl e => e <> JSONDecodeError /\ is_OSError e = false
       end.
Proof.
  induction files as [| f rest IH]; intros errors s.
  - simpl. split; [reflexivity |]. exists []. rewrite app_nil_r. auto.
  - cbn [json_errors]. unfold Eff.bind, ask, Eff.gets. cbn [fst snd].
    cbn [forallb]. unfold passes_json_check at 1.
    destruct (json_open f (world s)) as [[e text] |].
    + destruct e.
      * simpl. split; [reflexivity | split; [discriminate | reflexivity]].
      * destruct (IH errors s) as [Hs Hr]. split; [exact Hs |].
        destruct (fst (json_errors rest errors s)) as [e' | errors']; [exact Hr |].
        destruct Hr as [extra [-> [Hl Hb]]]. exists extra.
        repeat split; [simpl; lia | exact Hb].
      * destruct (IH (errors ++ [(f ++ ": I/O error: " ++ text)%string]) s) as [Hs Hr].
        split; [exact Hs |].
        destruct (fst (json_errors rest _ s)) as [e' | errors']; [exact Hr |].
        destruct Hr as [extra [-> [Hl Hb]]].
        exists ((f ++ ": I/O error: " ++ text)%string :: extra).
        rewrite <- app_assoc. repeat split; simpl; lia.
      * destruct (IH (errors ++ [(f ++ ": " ++ text)%string]) s) as [Hs Hr].
        split; [exact Hs |].
        destruct (fst (json_errors rest _ s)) as [e' | errors']; [exact Hr |].
        destruct Hr as [extra [-> [Hl Hb]]].
        exists ((f ++ ": " ++ text)%string :: extra).
        rewrite <- app_assoc. repeat split; simpl; lia.
      * simpl. split; [reflexivity | split; [discriminate | reflexivity]].
      * simpl. split; [reflexivity | split; [discriminate | reflexivity]].
      * simpl. split; [reflexivity | split; [discriminate | reflexivity]].
    + destruct (IH errors s) as [Hs Hr]. split; [exact Hs |].
      destruct (fst (json_errors rest errors s)) as [e' | errors']; [exact Hr |].
      destruct Hr as [extra [-> [Hl Hb]]]. exists extra.
      repeat split; [simpl; lia | exact Hb].
Qed.

Lemma validate_json_files_spec (files : list string) (s : state) :
  snd (validate_json_files files s) = s
  /\ match fst (validate_json_files files s) with
     | inr (ok, errors) =>
         ok = (match errors with [] => true | _ => false end)
         /\ (List.length errors
             <= List.length (List.filter (fun f => Str.endswith f ".json") files))%nat
         /\ ok = forallb (fun f => negb (Str.endswith f ".json")
                                   || passes_json_check f (world s)) files
     | inl e => e <> JSONDecodeError /\ is_OSError e = false
     end.
Proof.
  unfold validate_json_files, Eff.bind.
  pose proof (json_errors_spec
                (List.filter (fun f => Str.endswith f ".json") files) [] s) as [Hs Hr].
  destruct (json_errors _ [] s) as [[e | errors] s']; simpl in *; subst s'.
  - split; [reflexivity | exact Hr].
  - split; [reflexivity |].
    destruct Hr as [extra [-> [Hl Hb]]]. simpl.
    rewrite forallb_filter in Hb. rewrite <- Hb.
    repeat split; try assumption; now destruct extra.
Qed.

(** X4: [validate_json_files] looks only at the names ending in
    [.json], changes nothing, and reports success exactly when every
    such file loads or is gone ([FileNotFoundError] is passed over); it
    collects at most one error per JSON file and lets neither
    [JSONDecodeError] nor [OSError] escape. *)
Theorem validate_json_files_outcome (files : list string) (s : state) :
  let r := validate_json_files files s in
  snd r = s
  /\ match fst r with
     | inr (ok, errors) =>
         ok = (match errors with [] => true | _ => false end)
         /\ (List.length errors
             <= List.length (List.filter (fun f => Str.endswith f ".json") files))%nat
         /\ ok = forallb (fun f => negb (Str.endswith f ".json")
                                   || passes_json_check f (world s)) files
     | inl e => e <> JSONDecodeError /\ is_OSError e = false
     end.
Proof. cbv zeta. apply validate_json_files_spec. Qed.

Lemma first_match_length line : (List.length (first_match line) <= 1)%nat.
Proof.
  unfold first_match.
  destruct (List.find _ patterns) as [[pattern name] |]; simpl; lia.
Qed.

Lemma first_match_names line :
  Forall (fun w => In w (List.map (fun e => ("Potential " ++ snd e ++ " detected")%string)
                           patterns))
    (first_match line).
Proof.
  unfold first_match.
  destruct (List.find _ patterns) as [[pattern name] |] eqn:E; [| constructor].
  apply find_some in E as [E _].
  constructor; [| constructor].
  apply (in_map (fun e => ("Potential " ++ snd e ++ " detected")%string)) in E.
  exact E.
Qed.

(** X5: [check_sensitive_data] gives at most one warning for each line
    of the diff that is neither a removed line nor excused by one of the
    words [example], [placeholder], [your_], [<], and every warning
    names one of the four patterns. *)
Theorem sensitive_data_warnings (diff : string) :
  (List.length (check_sensitive_data diff)
   <= List.length
        (List.filter (fun line => negb (Str.startswith line "-") && negb (excused line))
           (Str.split newline diff)))%nat
  /\ Forall (fun w => In w ["Potential password detected"; "Potential API key detected";
                            "Potential secret detected"; "Potential token detected"])
       (check_sensitive_data diff).
Proof.
  unfold check_sensitive_data.
  induction (Str.split newline diff) as [| line lines [IHl IHn]]; simpl.
  - split; [lia | constructor].
  - rewrite length_app.
    destruct (Str.startswith line "-"); simpl; [split; assumption |].
    destruct (excused line); simpl; [split; assumption |].
    split.
    + pose proof (first_match_length line). lia.
    + apply Forall_app. split; [apply first_match_names | exact IHn].
Qed.

(** X6: the exit code of the pre-commit hook.  While a rebase, merge,
    cherry-pick or bisect is under way it is 0 and nothing is checked;
    otherwise it is 1 exactly when a staged [.json] file fails to load
    (other than by being gone).  What [ruff] finds in the staged Python
    files and what the sensitive-data scan warns about never block the
    commit. *)
Theorem pre_commit_exit_code (s : state) :
  let r0 := is_rebase_in_progress s in
  let r1 := get_staged_files (snd r0) in
  match fst (pre_commit_main s) with
  | inr code =>
      match fst r0, fst r1 with
      | inr true, _ => code = 0 /\ snd (pre_commit_main s) = snd r0
      | inr false, inr files =>
          code = if forallb (fun f => negb (Str.endswith f ".json")
                                      || passes_json_check f (world (snd r1))) files
                 then 0 else 1
      | _, _ => False
      end
  | inl _ => True
  end.
Proof.
  cbv zeta. unfold pre_commit_main, Eff.bind.
  destruct (is_rebase_in_progress s) as [[e | rebasing] s0]; cbn [fst snd];
    [exact I |].
  destruct rebasing; [simpl; auto |].
  destruct (get_staged_files s0) as [[e | files] s1]; cbn [fst snd]; [exact I |].
  pose proof (validate_json_files_spec files s1) as [Hs Hr].
  destruct (validate_json_files files s1) as [[e | [ok errors]] s2];
    cbn [fst snd] in *; [exact I |]. subst s2.
  destruct Hr as [_ [_ Hok]]. rewrite <- Hok.
  destruct (lint_python_files files s1) as [[e | lint_ok] s3]; cbn [fst snd];
    [exact I |].
  destruct (Eff.try_except _ _ s3) as [[e | diff] s4]; cbn [fst snd]; [exact I |].
  destruct ok; reflexivity.
Qed.

End PreCommitFacts.

Section ChangelogFacts.

Context {os : OS}.

Import PrePushRun.

Lemma changelog_run (s : state) :
  let r := post_rewrite_main s in
  match fst r with inr code => code = 0 | inl _ => True end
  /\ (if which "git-cliff" (world s) then True else snd r = s)
  /\ exists k, List.map words (since (List.length (log s)) (snd r))
               = firstn k changelog_commands.
Proof.
  cbv zeta. unfold post_rewrite_main, Eff.bind, ask, Eff.gets, run, since.
  cbn [fst snd].
  destruct (which "git-cliff" (world s)) eqn:Ew; cbn [negb fst snd Eff.ret].
  2:{ repeat split. exists 0%nat. rewrite skipn_all. reflexivity. }
  destruct (subprocess_run _ (world s)) as [[e1 | c1] w1]; cbn [fst snd world log].
  { repeat split. exists 1%nat.
    rewrite drop_app_length. reflexivity. }
  destruct (path_exists _ w1); cbn [negb fst snd Eff.ret world log].
  2:{ repeat split. exists 1%nat.
      rewrite drop_app_length. reflexivity. }
  destruct (subprocess_run _ w1) as [[e2 | c2] w2]; cbn [fst snd world log].
  { repeat split. exists 2%nat.
    rewrite <- app_assoc, drop_app_length. reflexivity. }
  destruct (returncode c2 =? 0); cbn [negb fst snd Eff.ret world log].
  2:{ repeat split. exists 2%nat.
      rewrite <- app_assoc, drop_app_length. reflexivity. }
  destruct (subprocess_run _ w2) as [[e3 | c3] w3]; cbn [fst snd world log].
  { repeat split. exists 3%nat.
    rewrite <- !app_assoc, drop_app_length. reflexivity. }
  repeat split. exists 3%nat. cbn [Eff.ret snd log].
  rewrite <- !app_assoc, drop_app_length. reflexivity.
Qed.

(** X7: the post-rewrite and post-merge hooks only regenerate the
    changelog: when they return, the exit code is 0 whatever
    [git-cliff] did; the processes they start are an initial part of
    [git rev-parse --show-toplevel], [git-cliff -o CHANGELOG.md],
    [git diff --quiet CHANGELOG.md] (so nothing is staged or
    committed); and without [git-cliff] on the [PATH] they do nothing at
    all. *)
Theorem changelog_hooks_only_regenerate (s : state) :
  Forall
    (fun hook : M Z =>
       let r := hook s in
       match fst r with inr code => code = 0 | inl _ => True end
       /\ (if which "git-cliff" (world s) then True else snd r = s)
       /\ exists k, List.map words (since (List.length (log s)) (snd r))
                    = firstn k changelog_commands)
    [post_rewrite_main; post_merge_main].
Proof.
  constructor; [apply changelog_run |].
  constructor; [apply changelog_run | constructor].
Qed.

End ChangelogFacts.

End CommitHookFacts.

(** ** More facts about the validator and fixer *)

Module PipelineMoreFacts.
Import Pipeline PipelineFacts PipelineRun.

Lemma existsb_flat_map {X Y} (p : Y -> bool) (G : X -> list Y) (l : list X) :
  existsb p (flat_map G l) = existsb (fun x => existsb p (G x)) l.
Proof.
  induction l as [| x l IH]; simpl; [reflexivity |].
  now rewrite existsb_app, IH.
Qed.

Lemma negb_forallb {X} (p : X -> bool) (l : list X) :
  negb (forallb p l) = existsb (fun x => negb (p x)) l.
Proof.
  induction l as [| x l IH]; simpl; [reflexivity |].
  now rewrite negb_andb, IH.
Qed.

Lemma existsb_same {X} (p q : X -> bool) (l : list X) :
  (forall x, p x = q x) -> existsb p l = existsb q l.
Proof.
  intros H. induction l as [| x l IH]; simpl; [reflexivity |]. now rewrite H, IH.
Qed.

Section Validity.

Variable configparser_sections : string -> option (list (string * option string)).
Variable self : PipelineSetup.
Variable fs : gmap (list string) node.

Lemma hook_blocking d h :
  existsb blocking (issues (_validate_hook fs d (new_status []) h))
  = negb (exists_ fs (Path.child d (fst h)) && access_x fs (Path.child d (fst h))).
Proof.
  destruct h as [n desc]. unfold _validate_hook. simpl.
  destruct (exists_ fs (Path.child d n)); simpl; [| reflexivity].
  destruct (access_x fs (Path.child d n)); reflexivity.
Qed.

Lemma hooks_blocking :
  existsb blocking (issues (_validate_hooks self fs (new_status [])))
  = negb (hooks_in_order self fs).
Proof.
  unfold _validate_hooks, hooks_in_order. cbv zeta.
  rewrite (fold_appends _ _ (validate_hook_issues fs (_get_hooks_dir self fs))).
  rewrite existsb_app, existsb_flat_map, negb_andb, negb_forallb, negb_involutive.
  f_equal.
  - destruct (exists_ fs _); reflexivity.
  - apply existsb_same. intros h. apply hook_blocking.
Qed.

Lemma config_blocking :
  existsb blocking (issues (_validate_config_files self fs (new_status []))) = false.
Proof.
  unfold _validate_config_files. simpl fold_left. branches; reflexivity.
Qed.

Lemma validate_submodule_issues st sub :
  issues (_validate_submodule self fs st sub)
  = issues st ++ issues (_validate_submodule self fs (new_status []) sub).
Proof.
  unfold _validate_submodule. simpl fold_left.
  branches; simpl; rewrite <- ?app_assoc, ?app_nil_r; reflexivity.
Qed.

Lemma submodule_blocking sub :
  existsb blocking (issues (_validate_submodule self fs (new_status []) sub))
  = negb (submodule_in_order self fs sub).
Proof.
  unfold _validate_submodule, submodule_in_order. simpl fold_left. cbv zeta.
  destruct (exists_ fs (submodule_hooks_dir self sub)); simpl; [| reflexivity].
  branches; reflexivity.
Qed.

Lemma validate_submodules (st : PipelineStatus) :
  submodules (validate configparser_sections self fs st)
  = submodules (detect_project_type configparser_sections self fs st).
Proof.
  unfold validate.
  destruct (ProjectType_eqb _ UNKNOWN); [reflexivity |].
  destruct (ProjectType_eqb _ MARKETPLACE);
    rewrite ?validate_submodules_keeps, validate_config_keeps,
      validate_hooks_keeps, git_check_keeps by reflexivity; reflexivity.
Qed.

(** What [validate] finds on a fresh status, as far as validity goes. *)
Lemma validate_blocking :
  let detected := detect_project_type configparser_sections self fs
                    (new_status (project_path self)) in
  is_valid (validate configparser_sections self fs (new_status (project_path self)))
  = negb (ProjectType_eqb (project_type detected) UNKNOWN)
    && exists_ fs (Path.child (project_path self) ".git")
    && hooks_in_order self fs
    && (negb (ProjectType_eqb (project_type detected) MARKETPLACE)
        || forallb (submodule_in_order self fs) (submodules detected)).
Proof.
  cbv zeta. unfold is_valid, validate.
  set (detected := detect_project_type _ _ _ _).
  assert (issues detected = []) as D.
  { subst detected. now rewrite detect_keeps. }
  destruct (ProjectType_eqb (project_type detected) UNKNOWN); simpl.
  { rewrite D. reflexivity. }
  set (checked := if negb (exists_ fs (Path.child (project_path self) ".git"))
                  then add_issue _ detected else detected).
  assert (existsb blocking (issues checked)
          = negb (exists_ fs (Path.child (project_path self) ".git"))) as G.
  { subst checked. destruct (exists_ fs _); simpl; rewrite D; reflexivity. }
  assert (submodules (_validate_config_files self fs (_validate_hooks self fs checked))
          = submodules detected) as S.
  { rewrite validate_config_keeps, validate_hooks_keeps by reflexivity.
    subst checked. now rewrite git_check_keeps. }
  assert (project_type (_validate_config_files self fs (_validate_hooks self fs checked))
          = project_type detected) as T.
  { rewrite validate_config_keeps, validate_hooks_keeps by reflexivity.
    subst checked. now rewrite git_check_keeps. }
  assert (existsb blocking
            (issues (_validate_config_files self fs (_validate_hooks self fs checked)))
          = negb (exists_ fs (Path.child (project_path self) ".git"))
            || negb (hooks_in_order self fs)) as B.
  { rewrite validate_config_issues, validate_hooks_issues, !existsb_app.
    rewrite G, hooks_blocking, config_blocking. now rewrite orb_false_r. }
  rewrite T.
  destruct (ProjectType_eqb (project_type detected) MARKETPLACE); simpl.
  - unfold _validate_submodule_hooks.
    rewrite (fold_appends _ _ validate_submodule_issues), existsb_app, B, S.
    rewrite existsb_flat_map.
    rewrite (existsb_same _ _ _ submodule_blocking), <- negb_forallb.
    rewrite !negb_orb, !negb_involutive. reflexivity.
  - rewrite B, andb_true_r, negb_orb, !negb_involutive. reflexivity.
Qed.

End Validity.

(** X16: what makes a project valid.  For a fresh [PipelineSetup],
    [validate] ends with [is_valid] exactly when the project is a plugin
    or a marketplace, [.git] is there, the hooks directory has no
    [post-commit] and has the four required hooks, each executable, and,
    in a marketplace, no recorded submodule has a [post-commit] hook.
    The configuration files, the workflow and the hooks missing in
    submodules play no part. *)
Theorem validate_is_valid_iff
    (configparser_sections : string -> option (list (string * option string)))
    (self : PipelineSetup) (fs : gmap (list string) node) :
  let st := validate configparser_sections self fs (new_status (project_path self)) in
  is_valid st
  = negb (ProjectType_eqb (project_type st) UNKNOWN)
    && exists_ fs (Path.child (project_path self) ".git")
    && hooks_in_order self fs
    && (negb (ProjectType_eqb (project_type st) MARKETPLACE)
        || forallb (submodule_in_order self fs) (submodules st)).
Proof.
  cbv zeta. rewrite validate_type, validate_submodules. apply validate_blocking.
Qed.

(** X17: [is_valid] and the counters agree: a status is valid exactly
    when [critical_count] and [major_count] are both zero, and the three
    counters never add up to more than the number of issues. *)
Theorem is_valid_by_counts (st : PipelineStatus) :
  is_valid st = ((critical_count st =? 0)%nat && (major_count st =? 0)%nat)
  /\ (critical_count st + major_count st + minor_count st
      <= List.length (issues st))%nat.
Proof.
  unfold is_valid, critical_count, major_count, minor_count, count_level, blocking.
  induction (issues st) as [| i l [IHv IHc]]; simpl; [split; [reflexivity | lia] |].
  destruct (level i); simpl; split; try lia; try reflexivity; try exact IHv.
Qed.

(** *** What [fix] leaves alone *)

Section Keeps.

Variable R : state -> state -> Prop.
Hypothesis R_refl : forall s, R s s.
Hypothesis R_trans : forall a b c, R a b -> R b c -> R a c.

Lemma keeps_ret {A} (a : A) : keeps R (Eff.ret a).
Proof. intros s. apply R_refl. Qed.

Lemma keeps_raise {A} (e : exn) : keeps R (@Eff.raise state exn A e).
Proof. intros s. apply R_refl. Qed.

Lemma keeps_gets {A} (f : state -> A) : keeps R (Eff.gets f).
Proof. intros s. apply R_refl. Qed.

Lemma keeps_on_tree {A} (f : gmap (list string) node -> A) : keeps R (on_tree f).
Proof. intros s. apply R_refl. Qed.

Lemma keeps_bind {A B} (m : M A) (k : A -> M B) :
  keeps R m -> (forall a, keeps R (k a)) -> keeps R (Eff.bind m k).
Proof.
  intros Hm Hk s. unfold Eff.bind. specialize (Hm s).
  destruct (m s) as [[e | a] s1]; simpl in *; [exact Hm |].
  eapply R_trans; [exact Hm | apply Hk].
Qed.

Lemma keeps_try_except {A} (m : M A) (h : exn -> option (M A)) :
  keeps R m -> (forall e k, h e = Some k -> keeps R k) ->
  keeps R (Eff.try_except m h).
Proof.
  intros Hm Hh s. unfold Eff.try_except. specialize (Hm s).
  destruct (m s) as [[e | a] s1]; simpl in *; [| exact Hm].
  destruct (h e) as [k |] eqn:E; simpl; [| exact Hm].
  eapply R_trans; [exact Hm | eapply Hh, E].
Qed.

Lemma keeps_fold_fixes {X} (f : nat -> X -> M nat) (l : list X) :
  (forall n x, keeps R (f n x)) -> forall n, keeps R (fold_fixes f l n).
Proof.
  intros Hf. induction l as [| x l IH]; intros n; simpl.
  - apply keeps_ret.
  - apply keeps_bind; [apply Hf | intros ?; apply IH].
Qed.

End Keeps.

(** One step of a proof that a computation keeps a relation; [base]
    settles the operations on the tree and on the status. *)
Ltac keeps_with refl trans base :=
  cbv zeta;
  repeat
    lazymatch goal with
    | |- keeps _ (Eff.ret _) => apply (keeps_ret _ refl)
    | |- keeps _ (Eff.raise _) => apply (keeps_raise _ refl)
    | |- keeps _ (on_tree _) => apply (keeps_on_tree _ refl)
    | |- keeps _ (Eff.gets _) => apply (keeps_gets _ refl)
    | |- keeps _ (Eff.bind _ _) => apply (keeps_bind _ trans); [| intros ?]
    | |- keeps _ (Eff.try_except _ _) =>
        apply (keeps_try_except _ trans);
        [| let e := fresh in let k := fresh in let E := fresh in
           intros e k E; destruct e; injection E as <-]
    | |- keeps _ (fold_fixes _ _ _) =>
        apply (keeps_fold_fixes _ refl trans); intros ? ?
    | |- keeps _ (unless_dry_run _ _) => unfold unless_dry_run; cbn [dry_run]
    | |- keeps _ (io _) => base
    | |- keeps _ (on_status _) => base
    | |- keeps _ (run_validate _ _) => base
    | |- keeps _ (fix_ _ _) => base
    | |- keeps _ (exit_status) => unfold exit_status
    | |- keeps _ (if ?b then _ else _) => destruct b
    | |- keeps _ (match ?x with _ => _ end) => destruct x
    end.

Lemma only_new_dirs_refl fs : only_new_dirs fs fs.
Proof. intros p. destruct (fs !! p); auto. Qed.

Lemma only_new_dirs_trans a b c :
  only_new_dirs a b -> only_new_dirs b c -> only_new_dirs a c.
Proof.
  intros Hab Hbc p. specialize (Hab p). specialize (Hbc p).
  destruct (a !! p) as [n |].
  - rewrite Hab in Hbc. exact Hbc.
  - destruct Hab as [Hab | Hab]; rewrite Hab in Hbc; auto.
Qed.

Lemma mkdir_from_only_new_dirs todo :
  forall at_ fs fs', mkdir_from at_ todo fs = Some fs' -> only_new_dirs fs fs'.
Proof.
  induction todo as [| c rest IH]; intros at_ fs fs'; simpl.
  - intros H. injection H as <-. apply only_new_dirs_refl.
  - destruct (fs !! (at_ ++ [c])) as [[pm n | pm data] |] eqn:E.
    + apply IH.
    + discriminate.
    + destruct (match at_ with [] => true | _ => _ end); [| discriminate].
      intros H. apply IH in H.
      eapply only_new_dirs_trans; [| exact H].
      intros p. destruct (decide (p = at_ ++ [c])) as [-> | Hp].
      * rewrite E, lookup_insert_eq. auto.
      * rewrite lookup_insert_ne by congruence. destruct (fs !! p); auto.
Qed.

Lemma dry_refl s : dry s s.
Proof. split; [reflexivity | apply only_new_dirs_refl]. Qed.

Lemma dry_trans a b c : dry a b -> dry b c -> dry a c.
Proof.
  intros [S1 T1] [S2 T2]. split; [congruence |].
  eapply only_new_dirs_trans; eassumption.
Qed.

Lemma mkdir_dry p : keeps dry (io (mkdir_parents p)).
Proof.
  intros s. unfold io, mkdir_parents.
  destruct (mkdir_from [] p (tree s)) as [t |] eqn:E; simpl; [| apply dry_refl].
  split; [reflexivity | eapply mkdir_from_only_new_dirs, E].
Qed.

Ltac dry_run_keeps :=
  keeps_with dry_refl dry_trans ltac:(apply mkdir_dry).

Lemma fix_dry_run_keeps (tpl : Templates) (project : list string) (chatty : bool) :
  keeps dry (fix_ tpl {| project_path := project; dry_run := true; verbose := chatty |}).
Proof.
  unfold fix_, _fix_hooks, _fix_config_files, _fix_submodule_hooks, _fix_submodule,
    _fix_hook.
  cbn [dry_run project_path].
  dry_run_keeps.
Qed.

(** X18: a dry run writes no file.  With [dry_run] set, [fix] leaves
    the status as it is and every node of the tree as it is: nothing is
    written, made executable or removed.  What it may still do is create
    directories, since the hooks directory is made before the dry-run
    checks. *)
Theorem fix_dry_run_writes_no_file (tpl : Templates) (project : list string)
    (chatty : bool) (s : state) :
  let self := {| project_path := project; dry_run := true; verbose := chatty |} in
  let s' := snd (fix_ tpl self s) in
  status s' = status s /\ only_new_dirs (tree s) (tree s').
Proof. cbv zeta. apply fix_dry_run_keeps. Qed.

Lemma gains_refl s : gains s s.
Proof.
  repeat split. exists []. rewrite app_nil_r. split; [reflexivity | constructor].
Qed.

Lemma gains_trans a b c : gains a b -> gains b c -> gains a c.
Proof.
  intros (T1 & P1 & H1 & C1 & S1 & x1 & I1 & F1) (T2 & P2 & H2 & C2 & S2 & x2 & I2 & F2).
  repeat split; try congruence.
  exists (x1 ++ x2). rewrite I2, I1, app_assoc. split; [reflexivity |].
  apply Forall_app; auto.
Qed.

Lemma gains_same_status s s' : status s' = status s -> gains s s'.
Proof.
  intros H. unfold gains. rewrite H.
  repeat split. exists []. rewrite app_nil_r. split; [reflexivity | constructor].
Qed.

Lemma io_gains op : keeps gains (io op).
Proof.
  intros s. unfold io. destruct (op (tree s)); simpl; now apply gains_same_status.
Qed.

Lemma failure_gains i : install_failure i -> keeps gains (on_status (add_issue i)).
Proof.
  intros Hi s. unfold on_status, Eff.modify. simpl.
  repeat split. exists [i]. split; [reflexivity |]. constructor; [exact Hi | constructor].
Qed.

Ltac fix_gains :=
  keeps_with gains_refl gains_trans
    ltac:(first [apply io_gains | apply failure_gains; repeat split]).

(** X19: [fix] repairs the tree, not the status.  Whatever it does to
    the tree, it leaves the project type, the hooks and configuration
    maps and the submodule list of the status as they were, removes no
    issue, and the only issues it appends are the critical, unfixable
    [hooks] issues of hooks it could not install. *)
Theorem fix_only_appends_install_failures (tpl : Templates) (self : PipelineSetup)
    (s : state) :
  let s' := snd (fix_ tpl self s) in
  project_type (status s') = project_type (status s)
  /\ hooks_installed (status s') = hooks_installed (status s)
  /\ config_files (status s') = config_files (status s)
  /\ submodules (status s') = submodules (status s)
  /\ exists extra, issues (status s') = issues (status s) ++ extra
       /\ Forall (fun i => level i = CRITICAL /\ component i = "hooks"
                           /\ fix_available i = false) extra.
Proof.
  cbv zeta.
  assert (keeps gains (fix_ tpl self)) as H.
  { unfold fix_, _fix_hooks, _fix_config_files, _fix_submodule_hooks, _fix_submodule,
      _fix_hook.
    fix_gains. }
  destruct (H s) as (T & P & Hh & C & S & extra & I & F).
  repeat split; try assumption. exists extra. split; assumption.
Qed.

(** *** Runs of [main] that write nothing *)

Section ReadOnly.

Variable configparser_sections : string -> option (list (string * option string)).
Variable tpl : Templates.

Lemma validate_unknown (self : PipelineSetup) (fs : gmap (list string) node) st :
  exists_ fs (project_path self ++ [".claude-plugin"; "marketplace.json"]) = false ->
  exists_ fs (project_path self ++ [".claude-plugin"; "plugin.json"]) = false ->
  validate configparser_sections self fs st
  = add_issue
      (mk_issue CRITICAL "project"
         "Not a valid plugin or marketplace (missing .claude-plugin/plugin.json or marketplace.json)"
         false "")
      (set_project_type UNKNOWN st).
Proof.
  intros Hm Hp. unfold validate, detect_project_type. rewrite Hm, Hp. reflexivity.
Qed.

Local Opaque validate.

(** X20: when [main] writes nothing.  Asked only to report ([--json],
    or [--validate] without [--fix]), [main] leaves the tree as it found
    it; and so it does, whatever the flags, when the path does not exist
    or holds neither [plugin.json] nor [marketplace.json]. *)
Theorem main_reports_without_writing (args : Args) (s : state) :
  let manifest name := exists_ (tree s) (path args ++ [".claude-plugin"; name]) in
  if arg_json args
     || (arg_validate args && negb (arg_fix args))
     || negb (exists_ (tree s) (path args))
     || (negb (manifest "marketplace.json") && negb (manifest "plugin.json"))
  then tree (snd (main configparser_sections tpl args s)) = tree s
  else True.
Proof.
  cbv zeta.
  unfold main, Eff.bind, on_tree, on_status, run_validate, exit_status,
    Eff.gets, Eff.modify, Eff.ret.
  cbn [fst snd tree status].
  destruct (exists_ (tree s) (path args)) eqn:Ep; cbn [negb];
    [| rewrite !orb_true_r; reflexivity].
  rewrite orb_false_r.
  destruct (arg_json args); cbn [orb]; [reflexivity |].
  destruct (arg_validate args) eqn:Ev, (arg_fix args) eqn:Ef; cbn [orb andb negb];
    try reflexivity.
  all: destruct (exists_ (tree s) (path args ++ [".claude-plugin"; "marketplace.json"]))
         eqn:Em; cbn [negb andb]; try exact I.
  all: destruct (exists_ (tree s) (path args ++ [".claude-plugin"; "plugin.json"]))
         eqn:Epl; cbn [negb andb]; try exact I.
  all: rewrite (validate_unknown
                  {| project_path := path args; dry_run := arg_dry_run args;
                     verbose := arg_verbose args |} (tree s) _ Em Epl); cbn [issues add_issue set_project_type
         new_status app List.filter fix_available mk_issue andb].
  all: unfold fix_, Eff.bind, Eff.gets, Eff.ret; cbn.
  all: destruct (arg_dry_run args); cbn; reflexivity.
Qed.

End ReadOnly.

(** *** What [_fix_hooks] installs *)

Section Install.

Variable tpl : Templates.
Variable self : PipelineSetup.

Lemma same_lookup_exists (fs fs' : gmap (list string) node) (p : list string) :
  fs' !! p = fs !! p -> exists_ fs' p = exists_ fs p.
Proof. intros H. unfold exists_. now rewrite H. Qed.

Lemma same_lookup_access (fs fs' : gmap (list string) node) (p : list string) :
  fs' !! p = fs !! p -> access_x fs' p = access_x fs p.
Proof. intros H. unfold access_x. now rewrite H. Qed.

Lemma write_file_frame (append : bool) (p : list string) (text : string)
    (fs fs' : gmap (list string) node) :
  write_file append p text fs = Some fs' ->
  (forall q, q <> p -> fs' !! q = fs !! q) /\ is_file fs' p = true.
Proof.
  unfold write_file, is_file.
  destruct (fs !! p) as [[pm n | pm data] |]; try discriminate.
  - destruct (w_ok pm); [| discriminate]. intros H. injection H as <-.
    split; [intros q Hq; now rewrite lookup_insert_ne by congruence |].
    now rewrite lookup_insert_eq.
  - destruct (dir_writable fs p); [| discriminate]. intros H. injection H as <-.
    split; [intros q Hq; now rewrite lookup_insert_ne by congruence |].
    now rewrite lookup_insert_eq.
Qed.

Lemma chmod_x_frame (p : list string) (fs fs' : gmap (list string) node) :
  chmod_x p fs = Some fs' ->
  (forall q, q <> p -> fs' !! q = fs !! q)
  /\ exists_ fs' p = true /\ access_x fs' p = true.
Proof.
  unfold chmod_x, exists_, access_x.
  destruct (fs !! p) as [[pm n | pm data] |]; try discriminate;
    intros H; injection H as <-;
    (split; [intros q Hq; now rewrite lookup_insert_ne by congruence |]);
    rewrite lookup_insert_eq; (split; [apply bool_decide_eq_true; eauto | reflexivity]).
Qed.

Lemma unlink_frame (p : list string) (fs fs' : gmap (list string) node) :
  unlink p fs = Some fs' ->
  (forall q, q <> p -> fs' !! q = fs !! q) /\ exists_ fs' p = false.
Proof.
  unfold unlink, exists_.
  destruct (fs !! p) as [[pm n | pm data] |]; try discriminate.
  destruct (dir_writable fs p); [| discriminate]. intros H. injection H as <-.
  split; [intros q Hq; now rewrite lookup_delete_ne by congruence |].
  rewrite lookup_delete_eq. apply bool_decide_eq_false. intros [x Hx]. discriminate.
Qed.

Lemma hook_is_valid_there (fs : gmap (list string) node) (p : list string) :
  _hook_is_valid fs p = true -> exists_ fs p = true /\ access_x fs p = true.
Proof.
  unfold _hook_is_valid.
  destruct (exists_ fs p); [| discriminate].
  destruct (access_x fs p); [auto | discriminate].
Qed.

Lemma no_growth {X} (l extra : list X) : l ++ extra = l -> extra = [].
Proof.
  intros H. apply (f_equal (@List.length X)) in H. rewrite length_app in H.
  destruct extra; [reflexivity | simpl in H; lia].
Qed.

Hypothesis wet : dry_run self = false.

(** One hook: the step touches the hook's path alone, only appends to
    the issues, and unless it appends, leaves the hook in place and
    executable. *)
Lemma fix_hook_step (d : list string) (fixed : nat) (name content : string)
    (s : state) r s' :
  _fix_hook self d fixed (name, content) s = (r, s') ->
  (forall q, q <> Path.child d name -> tree s' !! q = tree s !! q)
  /\ (exists extra, issues (status s') = issues (status s) ++ extra)
  /\ (issues (status s') = issues (status s) ->
      exists_ (tree s') (Path.child d name) = true
      /\ access_x (tree s') (Path.child d name) = true)
  /\ exists n, r = inr n.
Proof.
  unfold _fix_hook, Eff.bind, on_tree, Eff.gets. cbn [fst snd].
  destruct (negb (exists_ (tree s) (Path.child d name))
            || negb (_hook_is_valid (tree s) (Path.child d name))) eqn:Stale.
  - rewrite wet. unfold Eff.try_except, Eff.bind, io, on_status, Eff.modify, Eff.ret.
    destruct (write_file false (Path.child d name) content (tree s)) as [t1 |] eqn:W;
      cbn [fst snd tree status].
    + destruct (write_file_frame _ _ _ _ _ W) as [F1 _].
      destruct (chmod_x (Path.child d name) t1) as [t2 |] eqn:C; cbn [fst snd tree status].
      * destruct (chmod_x_frame _ _ _ C) as [F2 [E2 A2]].
        intros H. injection H as <- <-. cbn [tree status].
        split; [| split; [| split]].
        -- intros q Hq. now rewrite F2, F1.
        -- exists []. now rewrite app_nil_r.
        -- auto.
        -- eauto.
      * intros H. injection H as <- <-. cbn [tree status add_issue issues].
        split; [| split; [| split]].
        -- exact F1.
        -- eauto.
        -- intros G. apply no_growth in G. discriminate.
        -- eauto.
    + intros H. injection H as <- <-. cbn [tree status add_issue issues].
      split; [| split; [| split]].
      * reflexivity.
      * eauto.
      * intros G. apply no_growth in G. discriminate.
      * eauto.
  - apply orb_false_iff in Stale as [_ V]. apply negb_false_iff in V.
    apply hook_is_valid_there in V as [E A].
    intros H. injection H as <- <-.
    split; [| split; [| split]].
    + reflexivity.
    + exists []. now rewrite app_nil_r.
    + auto.
    + eauto.
Qed.

Lemma fix_hooks_fold (d : list string) (hooks : list (string * string)) :
  NoDup (List.map fst hooks) ->
  forall fixed (s : state) r s',
    fold_fixes (_fix_hook self d) hooks fixed s = (r, s') ->
    (forall q, ~ In q (List.map (fun h => Path.child d (fst h)) hooks) ->
               tree s' !! q = tree s !! q)
    /\ (exists extra, issues (status s') = issues (status s) ++ extra)
    /\ (issues (status s') = issues (status s) ->
        Forall (fun h => exists_ (tree s') (Path.child d (fst h)) = true
                         /\ access_x (tree s') (Path.child d (fst h)) = true) hooks).
Proof.
  induction hooks as [| [name content] rest IH]; intros ND fixed s r s'.
  - simpl. intros H. injection H as <- <-.
    repeat split; auto. exists []. now rewrite app_nil_r.
  - inversion ND as [| x l Hx ND']; subst.
    cbn [fold_fixes]. unfold Eff.bind.
    destruct (_fix_hook self d fixed (name, content) s) as [r1 s1] eqn:E1.
    destruct (fix_hook_step _ _ _ _ _ _ _ E1) as (F1 & [x1 I1] & G1 & [n ->]).
    intros E2. destruct (IH ND' _ _ _ _ E2) as (F2 & [x2 I2] & G2).
    split; [| split].
    + intros q Hq. simpl in Hq.
      rewrite F2 by tauto. apply F1. intros ->. tauto.
    + exists (x1 ++ x2). now rewrite I2, I1, app_assoc.
    + intros Same. rewrite I2, I1, <- app_assoc in Same.
      apply no_growth in Same. apply app_eq_nil in Same as [-> ->].
      rewrite app_nil_r in I1, I2.
      constructor; [| apply G2; exact I2].
      cbn [fst].
      assert (tree s' !! Path.child d name = tree s1 !! Path.child d name) as L.
      { apply F2. intros Hin. apply in_map_iff in Hin as [[n' c'] [Heq Hin]].
        unfold Path.child in Heq. apply app_inj_tail in Heq as [_ Heq].
        simpl in Heq. subst n'.
        apply Hx, list_elem_of_In, in_map_iff. exists (name, c'). auto. }
      rewrite (same_lookup_exists _ _ _ L), (same_lookup_access _ _ _ L).
      apply G1. exact I1.
Qed.

(** The hooks directory is read off the node at [.git]. *)
Lemma get_hooks_dir_same (fs fs' : gmap (list string) node) :
  match fs !! Path.child (project_path self) ".git" with
  | Some n => fs' !! Path.child (project_path self) ".git" = Some n
  | None => fs' !! Path.child (project_path self) ".git" = None
            \/ fs' !! Path.child (project_path self) ".git" = Some (Dir rwx O)
  end ->
  _get_hooks_dir self fs' = _get_hooks_dir self fs.
Proof.
  unfold _get_hooks_dir, is_file, read_text.
  destruct (fs !! Path.child (project_path self) ".git") as [n |].
  - intros ->. reflexivity.
  - intros [-> | ->]; reflexivity.
Qed.

Lemma get_hooks_dir_lookup (fs fs' : gmap (list string) node) :
  fs' !! Path.child (project_path self) ".git"
  = fs !! Path.child (project_path self) ".git" ->
  _get_hooks_dir self fs' = _get_hooks_dir self fs.
Proof.
  intros H. apply get_hooks_dir_same. rewrite H.
  destruct (fs !! _); auto.
Qed.

Lemma other_name (d d' : list string) (a b : string) : a <> b -> Path.child d a <> Path.child d' b.
Proof.
  intros Hn Heq. unfold Path.child in Heq.
  apply app_inj_tail in Heq as [_ Heq]. contradiction.
Qed.

Lemma fold_finish (d : list string) (t2 : gmap (list string) node) st fixed r s' :
  _get_hooks_dir self t2 = d ->
  exists_ t2 (Path.child d "post-commit") = false ->
  fold_fixes (_fix_hook self d)
    [("pre-commit", PRE_COMMIT_HOOK tpl); ("pre-push", PRE_PUSH_HOOK tpl);
     ("post-rewrite", POST_REWRITE_HOOK tpl); ("post-merge", POST_MERGE_HOOK tpl)]
    fixed {| tree := t2; status := st |} = (r, s') ->
  issues (status s') = issues st ->
  hooks_in_order self (tree s') = true.
Proof.
  intros D P E Same.
  apply fix_hooks_fold in E as (F & _ & G).
  2:{ apply NoDup_ListNoDup. simpl. repeat constructor; simpl; intuition discriminate. }
  cbn [tree status] in F, G. specialize (G Same).
  assert (forall name, ~ In name ["pre-commit"; "pre-push"; "post-rewrite"; "post-merge"] ->
            forall d', tree s' !! Path.child d' name = t2 !! Path.child d' name) as Away.
  { intros name Hn d'. apply F. simpl. intros Hin.
    repeat destruct Hin as [Hin | Hin]; try contradiction;
      symmetry in Hin; revert Hin; apply other_name; intros ->; apply Hn; simpl; tauto. }
  assert (_get_hooks_dir self (tree s') = d) as D'.
  { rewrite <- D. apply get_hooks_dir_lookup. apply Away.
    simpl. intuition discriminate. }
  unfold hooks_in_order. cbv zeta. rewrite D'.
  rewrite (same_lookup_exists t2 (tree s') (Path.child d "post-commit")), P.
  2:{ apply Away. simpl. intuition discriminate. }
  simpl.
  repeat match goal with
         | H : Forall _ (_ :: _) |- _ => inversion H as [| ? ? [? ?] ?]; subst; clear H
         end.
  cbn [fst] in *.
  repeat match goal with
         | H : _ = true |- _ => rewrite H
         end.
  reflexivity.
Qed.

(** X21: what [_fix_hooks] achieves.  Outside a dry run, when it
    returns without having recorded a failure, the hooks directory is as
    [validate] wants it: no [post-commit] hook, and the four required
    hooks in place and executable. *)
Theorem fix_hooks_puts_hooks_in_order (s : state) (n : nat) (s' : state) :
  _fix_hooks tpl self s = (inr n, s') ->
  issues (status s') = issues (status s) ->
  hooks_in_order self (tree s') = true.
Proof.
  unfold _fix_hooks, Eff.bind, on_tree, Eff.gets. cbn [fst snd].
  set (d := _get_hooks_dir self (tree s)).
  unfold io at 1. unfold mkdir_parents.
  destruct (mkdir_from [] d (tree s)) as [t1 |] eqn:M; [| discriminate].
  cbn [fst snd tree status].
  pose proof (mkdir_from_only_new_dirs _ _ _ _ M
                (Path.child (project_path self) ".git")) as N.
  apply get_hooks_dir_same in N. fold d in N.
  destruct (exists_ t1 (Path.child d "post-commit")) eqn:P1.
  - unfold unless_dry_run. rewrite wet. unfold io. cbn [tree status].
    destruct (unlink (Path.child d "post-commit") t1) as [t2 |] eqn:U;
      [| discriminate].
    cbn [fst snd]. destruct (unlink_frame _ _ _ U) as [F P].
    apply fold_finish; [| exact P].
    rewrite <- N. apply get_hooks_dir_lookup. apply F.
    apply not_eq_sym, other_name. discriminate.
  - cbn [Eff.ret fst snd].
    replace s with {| tree := tree s; status := status s |} at 2 by (now destruct s).
    intros E. eapply fold_finish; [exact N | exact P1 |].
    destruct s; exact E.
Qed.

End Install.

(** *** The configuration files *)

Section Configuration.

Variable tpl : Templates.
Variable self : PipelineSetup.
Hypothesis wet : dry_run self = false.

Lemma is_file_exists (fs : gmap (list string) node) (p : list string) :
  is_file fs p = true -> exists_ fs p = true.
Proof.
  unfold is_file, exists_. destruct (fs !! p) as [[? ? | ? ?] |]; try discriminate.
  intros _. apply bool_decide_eq_true. eauto.
Qed.

Lemma write_keeps_exists (append : bool) (p q : list string) (text : string)
    (fs fs' : gmap (list string) node) :
  write_file append p text fs = Some fs' ->
  exists_ fs q = true -> exists_ fs' q = true.
Proof.
  intros W E. destruct (write_file_frame _ _ _ _ _ W) as [F I].
  destruct (decide (q = p)) as [-> | Hq]; [now apply is_file_exists |].
  now rewrite (same_lookup_exists fs fs' q (F q Hq)).
Qed.

Lemma new_dirs_keep_exists (q : list string) (fs fs' : gmap (list string) node) :
  only_new_dirs fs fs' -> exists_ fs q = true -> exists_ fs' q = true.
Proof.
  intros N. specialize (N q). unfold exists_.
  destruct (fs !! q) as [n |]; [rewrite N; auto |].
  intros H. apply bool_decide_eq_true in H. destruct H; discriminate.
Qed.

(** X22: what [_fix_config_files] achieves.  Outside a dry run, when it
    returns, [cliff.toml], [.gitignore] and the workflow
    [.github/workflows/validate.yml] exist; it touches the tree alone
    and never the status. *)
Theorem fix_config_files_creates_files (s : state) (n : nat) (s' : state) :
  _fix_config_files tpl self s = (inr n, s') ->
  status s' = status s
  /\ Forall (fun p => exists_ (tree s') (project_path self ++ p) = true)
       [ ["cliff.toml"]; [".gitignore"]; [".github"; "workflows"; "validate.yml"] ].
Proof.
  unfold _fix_config_files. cbv zeta. unfold unless_dry_run. rewrite wet.
  unfold Eff.bind at 1. unfold on_tree at 1, Eff.gets. cbn [fst snd].
  unfold Eff.bind at 1.
  set (cliff := Path.child (project_path self) "cliff.toml").
  set (gitignore := Path.child (project_path self) ".gitignore").
  set (workflow_dir := project_path self ++ [".github"; "workflows"]).
  set (workflow := Path.child workflow_dir "validate.yml").
  assert (exists t1 n1,
             (if negb (exists_ (tree s) cliff)
              then do* io (write_file false cliff (CLIFF_TOML tpl)) in Eff.ret 1%nat
              else Eff.ret 0%nat) s
             = (inr n1, {| tree := t1; status := status s |})
             /\ exists_ t1 cliff = true
           \/ exists e,
             (if negb (exists_ (tree s) cliff)
              then do* io (write_file false cliff (CLIFF_TOML tpl)) in Eff.ret 1%nat
              else Eff.ret 0%nat) s = (inl e, s)) as Step1.
  { destruct (exists_ (tree s) cliff) eqn:E; cbn [negb].
    - exists (tree s), 0%nat. left. split; [now destruct s | exact E].
    - unfold Eff.bind, io.
      destruct (write_file false cliff (CLIFF_TOML tpl) (tree s)) as [t |] eqn:W.
      + exists t, 1%nat. left. split; [reflexivity |].
        apply is_file_exists. eapply write_file_frame, W.
      + exists (tree s), 0%nat. right. eexists. reflexivity. }
  destruct Step1 as (t1 & n1 & [[-> E1] | [e ->]]); [| discriminate].
  unfold Eff.bind at 1. unfold on_tree at 1, Eff.gets. cbn [fst snd tree].
  unfold Eff.bind at 1.
  assert (exists t2 r2,
             (if negb (exists_ t1 gitignore)
              then do* io (write_file false gitignore GITIGNORE_ADDITIONS) in
                   Eff.ret (S n1)
              else
                Eff.try_except
                  (let* text := on_tree (fun t => read_text t gitignore) in
                   match text with
                   | None => Eff.raise OSError
                   | Some content =>
                       if needs_update content then
                         do* io (write_file true gitignore
                                   (newline ++ GITIGNORE_ADDITIONS)) in
                         Eff.ret (S n1)
                       else Eff.ret n1
                   end)
                  (fun e => match e with OSError => Some (Eff.ret n1) end))
               {| tree := t1; status := status s |}
             = (r2, {| tree := t2; status := status s |})
             /\ (match r2 with
                 | inr _ => exists_ t2 cliff = true /\ exists_ t2 gitignore = true
                 | inl _ => True
                 end)) as Step2.
  { destruct (exists_ t1 gitignore) eqn:E; cbn [negb].
    - unfold Eff.try_except, Eff.bind, on_tree, Eff.gets, io. cbn [fst snd tree status].
      destruct (read_text t1 gitignore) as [content |].
      + destruct (needs_update content); cbn [fst snd tree status].
        * destruct (write_file true gitignore (newline ++ GITIGNORE_ADDITIONS) t1)
            as [t |] eqn:W; cbn [fst snd tree status].
          -- exists t. eexists. split; [reflexivity |]. cbn.
             split; [eapply write_keeps_exists; eauto |].
             apply is_file_exists. eapply write_file_frame, W.
          -- exists t1. eexists. split; [reflexivity |]. cbn. auto.
        * exists t1. eexists. split; [reflexivity |]. cbn. auto.
      + exists t1. eexists. split; [reflexivity |]. cbn. auto.
    - unfold Eff.bind, io. cbn [tree status].
      destruct (write_file false gitignore GITIGNORE_ADDITIONS t1) as [t |] eqn:W.
      + exists t. eexists. split; [reflexivity |]. cbn.
        split; [eapply write_keeps_exists; eauto |].
        apply is_file_exists. eapply write_file_frame, W.
      + exists t1. eexists. split; [reflexivity |]. exact I. }
  destruct Step2 as (t2 & r2 & -> & G2).
  destruct r2 as [e | n2]; [discriminate |]. destruct G2 as [C2 I2].
  unfold Eff.bind at 1. unfold on_tree at 1, Eff.gets. cbn [fst snd tree].
  assert (project_path self ++ [".github"; "workflows"; "validate.yml"] = workflow) as Wf
      by (unfold workflow, workflow_dir, Path.child; now rewrite <- app_assoc).
  destruct (exists_ t2 workflow) eqn:E3; cbn [negb].
  - intros H. injection H as <- <-. cbn [tree status].
    split; [reflexivity |].
    apply List.Forall_cons; [exact C2 |]. apply List.Forall_cons; [exact I2 |].
    apply List.Forall_cons; [rewrite Wf; exact E3 | constructor].
  - unfold Eff.bind, io, mkdir_parents. cbn [tree status].
    destruct (mkdir_from [] workflow_dir t2) as [t3 |] eqn:M; [| discriminate].
    cbn [fst snd tree status].
    destruct (write_file false workflow (GITHUB_WORKFLOW tpl) t3) as [t4 |] eqn:W;
      [| discriminate].
    cbn [fst snd]. intros H. injection H as <- <-. cbn [tree status].
    split; [reflexivity |].
    pose proof (mkdir_from_only_new_dirs _ _ _ _ M) as N.
    apply List.Forall_cons.
    { eapply write_keeps_exists; [exact W |]. eapply new_dirs_keep_exists; eauto. }
    apply List.Forall_cons.
    { eapply write_keeps_exists; [exact W |]. eapply new_dirs_keep_exists; eauto. }
    apply List.Forall_cons; [| constructor].
    rewrite Wf. apply is_file_exists. eapply write_file_frame, W.
Qed.

End Configuration.

(** *** Submodules *)

Section Submodules.

Variable configparser_sections : string -> option (list (string * option string)).
Variable self : PipelineSetup.
Variable fs : gmap (list string) node.

Lemma detect_submodules_found st :
  exists found,
    submodules (_detect_submodules configparser_sections self fs st)
    = submodules st ++ found
    /\ Forall (fun p => exists_ fs (Path.join (project_path self) (Path.of_string p))
                        = true) found.
Proof.
  unfold _detect_submodules. cbv zeta.
  assert (exists found : list string,
             submodules st = submodules st ++ found
             /\ Forall (fun p => exists_ fs (Path.join (project_path self)
                                               (Path.of_string p)) = true) found) as Nil.
  { exists []. rewrite app_nil_r. split; [reflexivity | constructor]. }
  destruct (negb _); [exact Nil |].
  destruct (match read_text fs _ with Some _ => _ | None => _ end) as [sections |];
    [| exact Nil].
  clear Nil. revert st.
  induction sections as [| [section path_option] rest IH]; intros st; simpl.
  - exists []. rewrite app_nil_r. split; [reflexivity | constructor].
  - destruct (Str.startswith section "submodule "); [| apply IH].
    match goal with
    | |- context [if exists_ fs ?p then add_submodule ?x st else st] =>
        destruct (exists_ fs p) eqn:E; [| apply IH];
        destruct (IH (add_submodule x st)) as [found [H F]];
        exists (x :: found); simpl in H; rewrite H, <- app_assoc;
        split; [reflexivity |]; constructor; [exact E | exact F]
    end.
Qed.

(** X23: the submodules [validate] records.  On a fresh status the
    list holds only paths that exist when taken from the project
    directory, and it is empty unless the project is a marketplace. *)
Theorem recorded_submodules_exist :
  let st := validate configparser_sections self fs (new_status (project_path self)) in
  Forall (fun p => exists_ fs (Path.join (project_path self) (Path.of_string p)) = true)
    (submodules st)
  /\ (if ProjectType_eqb (project_type st) MARKETPLACE then True
      else submodules st = []).
Proof.
  cbv zeta. rewrite validate_submodules, validate_type.
  unfold detect_project_type. cbv zeta.
  destruct (exists_ fs (project_path self ++ [".claude-plugin"; "marketplace.json"])).
  - rewrite (detect_submodules_keeps configparser_sections self fs project_type)
      by reflexivity.
    cbn [project_type set_project_type ProjectType_eqb].
    destruct (detect_submodules_found
                (set_project_type MARKETPLACE (new_status (project_path self))))
      as [found [-> F]].
    simpl. auto.
  - branches; simpl; split; (constructor || reflexivity || exact I).
Qed.

End Submodules.

(** *** Hooks of submodules *)

Section SubmoduleHooks.

Variable tpl : Templates.
Variable self : PipelineSetup.

Lemma fold_fixes_returns {X} (k : nat) (f : nat -> X -> M nat) :
  (forall fixed x s, exists n, fst (f fixed x s) = inr n
                               /\ (fixed <= n <= fixed + k)%nat) ->
  forall l fixed s, exists n, fst (fold_fixes f l fixed s) = inr n
                              /\ (fixed <= n <= fixed + k * List.length l)%nat.
Proof.
  intros Hf l. induction l as [| x l IH]; intros fixed s; simpl.
  - exists fixed. split; [reflexivity | lia].
  - unfold Eff.bind. destruct (Hf fixed x s) as [n1 [E1 B1]].
    destruct (f fixed x s) as [[e | a] s1]; simpl in E1; [discriminate |].
    injection E1 as ->.
    destruct (IH n1 s1) as [n [E B]]. exists n. split; [exact E | lia].
Qed.

Lemma submodule_hook_returns (hooks_dir : list string) (fixed : nat)
    (hook : string * string) (s : state) :
  exists n,
    fst ((let (name, content) := hook in
          let hook_path := Path.child hooks_dir name in
          let* present := on_tree (fun t => exists_ t hook_path) in
          if negb present then
            if dry_run self then Eff.ret fixed
            else Eff.try_except
                   (do* io (write_file false hook_path content) in
                    do* io (chmod_x hook_path) in
                    Eff.ret (S fixed))
                   (fun e => match e with OSError => Some (Eff.ret fixed) end)
          else Eff.ret fixed) s) = inr n
    /\ (fixed <= n <= fixed + 1)%nat.
Proof.
  destruct hook as [name content]. cbv zeta.
  unfold Eff.bind, on_tree, Eff.gets, Eff.try_except, io. cbn [fst snd].
  destruct (exists_ (tree s) (Path.child hooks_dir name)); cbn [negb];
    [exists fixed; split; [reflexivity | lia] |].
  destruct (dry_run self); [exists fixed; split; [reflexivity | lia] |].
  destruct (write_file false _ content (tree s)) as [t1 |]; cbn [fst snd tree];
    [| exists fixed; split; [reflexivity | lia]].
  destruct (chmod_x _ t1) as [t2 |]; cbn [fst snd];
    [exists (S fixed) | exists fixed]; (split; [reflexivity | lia]).
Qed.

Lemma fix_submodule_returns (fixed : nat) (submodule : string) (s : state) :
  exists n, fst (_fix_submodule tpl self fixed submodule s) = inr n
            /\ (fixed <= n <= fixed + 3)%nat.
Proof.
  unfold _fix_submodule. cbv zeta.
  unfold Eff.bind at 1. unfold on_tree at 1, Eff.gets. cbn [fst snd].
  destruct (exists_ (tree s) (submodule_hooks_dir self submodule)); cbn [negb];
    [| exists fixed; split; [reflexivity | lia]].
  unfold Eff.bind at 1. unfold on_tree at 1, Eff.gets. cbn [fst snd].
  unfold Eff.bind at 1.
  assert (exists n1 s1,
             (if exists_ (tree s)
                   (Path.child (submodule_hooks_dir self submodule) "post-commit")
              then if dry_run self then Eff.ret fixed
                   else Eff.try_except
                          (do* io (unlink (Path.child
                                             (submodule_hooks_dir self submodule)
                                             "post-commit")) in
                           Eff.ret (S fixed))
                          (fun e => match e with OSError => Some (Eff.ret fixed) end)
              else Eff.ret fixed) s = (inr n1, s1)
             /\ (fixed <= n1 <= fixed + 1)%nat) as (n1 & s1 & -> & B1).
  { destruct (exists_ (tree s) _); [| exists fixed, s; split; [reflexivity | lia]].
    destruct (dry_run self); [exists fixed, s; split; [reflexivity | lia] |].
    unfold Eff.try_except, Eff.bind, io.
    destruct (unlink _ (tree s)) as [t |]; cbn [fst snd];
      eexists; eexists; (split; [reflexivity | lia]). }
  destruct (fold_fixes_returns 1 _ (submodule_hook_returns
                                      (submodule_hooks_dir self submodule))
              [("post-rewrite", POST_REWRITE_HOOK tpl);
               ("post-merge", POST_MERGE_HOOK tpl)] n1 s1) as [n [E B]].
  exists n. split; [exact E | simpl in B; lia].
Qed.

Lemma same_status_refl s : same_status s s.
Proof. reflexivity. Qed.

Lemma same_status_trans a b c : same_status a b -> same_status b c -> same_status a c.
Proof. unfold same_status. congruence. Qed.

Lemma io_same_status op : keeps same_status (io op).
Proof. intros s. unfold io. destruct (op (tree s)); reflexivity. Qed.

Lemma fix_submodule_hooks_status : keeps same_status (_fix_submodule_hooks tpl self).
Proof.
  unfold _fix_submodule_hooks, _fix_submodule.
  keeps_with same_status_refl same_status_trans ltac:(apply io_same_status).
Qed.

(** X24: trouble in a submodule is not recorded.  Whatever
    [_fix_submodule_hooks] meets, it leaves the status as it was: a hook
    it cannot write or a [post-commit] it cannot remove adds no issue.
    Where it returns, it counts at most three fixes for each recorded
    submodule. *)
Theorem fix_submodule_hooks_records_nothing (s : state) :
  let r := _fix_submodule_hooks tpl self s in
  status (snd r) = status s
  /\ match fst r with
     | inr fixed => (fixed <= 3 * List.length (submodules (status s)))%nat
     | inl _ => True
     end.
Proof.
  cbv zeta. split; [apply fix_submodule_hooks_status |].
  unfold _fix_submodule_hooks, Eff.bind, Eff.gets. cbn [fst snd].
  destruct (fold_fixes_returns 3 _ fix_submodule_returns (submodules (status s)) 0%nat s)
    as [n [E B]].
  rewrite E. lia.
Qed.

End SubmoduleHooks.

(** *** A dry run of [main], and the maps [validate] fills *)

Section DryMain.

Variable configparser_sections : string -> option (list (string * option string)).
Variable tpl : Templates.

Lemma dry_tree_refl s : dry_tree s s.
Proof. apply only_new_dirs_refl. Qed.

Lemma dry_tree_trans a b c : dry_tree a b -> dry_tree b c -> dry_tree a c.
Proof. apply only_new_dirs_trans. Qed.

Lemma same_tree_dry {A} (m : M A) :
  (forall s, tree (snd (m s)) = tree s) -> keeps dry_tree m.
Proof. intros H s. unfold dry_tree. rewrite H. apply only_new_dirs_refl. Qed.

Lemma fix_dry_tree (project : list string) (chatty : bool) :
  keeps dry_tree
    (fix_ tpl {| project_path := project; dry_run := true; verbose := chatty |}).
Proof. intros s. apply fix_dry_run_keeps. Qed.

(** X25: [--dry-run] writes no file in any mode.  With the flag set,
    whatever the other flags and whatever the tree, [main] leaves every
    node of the tree as it is; directories are all it may add. *)
Theorem main_dry_run_writes_no_file (args : Args) (s : state) :
  if arg_dry_run args
  then only_new_dirs (tree s) (tree (snd (main configparser_sections tpl args s)))
  else True.
Proof.
  destruct (arg_dry_run args) eqn:Dry; [| exact I].
  assert (keeps dry_tree (main configparser_sections tpl args)) as H; [| exact (H s)].
  unfold main. rewrite Dry.
  keeps_with dry_tree_refl dry_tree_trans
    ltac:(first [ apply fix_dry_tree
                | apply same_tree_dry; intros ?; reflexivity ]).
Qed.

End DryMain.

Section Maps.

Variable configparser_sections : string -> option (list (string * option string)).
Variable self : PipelineSetup.
Variable fs : gmap (list string) node.

(** X26: the maps [validate] fills.  On a fresh status of a plugin or
    marketplace, [hooks_installed] has exactly the four required hooks as
    keys, each with whether the hook file exists (an existing hook that
    is not executable still counts as installed there), and
    [config_files] tells for [cliff.toml] and [.gitignore] whether they
    exist and for [github_workflow] whether a workflow mentioning
    validation was found; for anything else both maps stay empty. *)
Theorem validate_fills_maps :
  let st := validate configparser_sections self fs (new_status (project_path self)) in
  let workflow_dir := project_path self ++ [".github"; "workflows"] in
  if ProjectType_eqb (project_type st) UNKNOWN
  then hooks_installed st = ∅ /\ config_files st = ∅
  else (forall name,
           hooks_installed st !! name
           = if existsb (String.eqb name) (List.map fst required_hooks)
             then Some (exists_ fs (Path.child (_get_hooks_dir self fs) name))
             else None)
       /\ config_files st !! "cliff.toml"
          = Some (exists_ fs (Path.child (project_path self) "cliff.toml"))
       /\ config_files st !! ".gitignore"
          = Some (exists_ fs (Path.child (project_path self) ".gitignore"))
       /\ config_files st !! "github_workflow"
          = Some (if exists_ fs workflow_dir
                  then existsb (mentions_validation fs) (glob_suffix fs workflow_dir ".yml")
                  else false).
Proof.
  cbv zeta. rewrite validate_type, validate_hooks_map, validate_config_map.
  destruct (ProjectType_eqb _ UNKNOWN); [split; reflexivity |].
  split; [| split; [| split]].
  - intros name. unfold required_hooks.
    cbn [fold_left fst List.map existsb hooks_installed new_status].
    repeat match goal with
           | |- context [String.eqb name ?k] =>
               destruct (String.eqb_spec name k); [subst |]
           end;
      cbn [orb];
      rewrite ?lookup_insert; repeat case_decide; try congruence; reflexivity.
  - unfold _validate_config_files. simpl fold_left.
    branches; simpl; rewrite lookup_union, ?lookup_insert; repeat case_decide;
      try congruence; reflexivity.
  - unfold _validate_config_files. simpl fold_left.
    branches; simpl; rewrite lookup_union, ?lookup_insert; repeat case_decide;
      try congruence; reflexivity.
  - unfold _validate_config_files. simpl fold_left.
    branches; simpl; rewrite lookup_union, ?lookup_insert; repeat case_decide;
      try congruence; reflexivity.
Qed.

End Maps.

(** A standalone plugin in a fresh repository gets its hooks ... *)
Lemma fix_hooks_puts_hooks_in_order_witness :
  hooks_in_order plugin_setup
    (tree (snd (_fix_hooks example_templates plugin_setup fresh_plugin))) = true.
Proof.
  apply (fix_hooks_puts_hooks_in_order example_templates plugin_setup eq_refl
           fresh_plugin 4%nat).
  - vm_compute. reflexivity.
  - vm_compute. reflexivity.
Defined.

(** ... and its configuration files. *)
Lemma fix_config_files_creates_files_witness :
  status (snd (_fix_config_files example_templates plugin_setup fresh_plugin))
  = status fresh_plugin
  /\ Forall (fun p => exists_
                        (tree (snd (_fix_config_files example_templates plugin_setup
                                      fresh_plugin)))
                        (project_path plugin_setup ++ p) = true)
       [ ["cliff.toml"]; [".gitignore"]; [".github"; "workflows"; "validate.yml"] ].
Proof.
  apply (fix_config_files_creates_files example_templates plugin_setup eq_refl
           fresh_plugin 3%nat).
  vm_compute. reflexivity.
Defined.

End PipelineMoreFacts.
